(** * Telemetry and failure-injection engine of the robotics simulation service

    A shallow embedding of [server/services/simulation] ([telemetry.ts],
    [failures.ts], [state.ts], [index.ts] and the constants of [types.ts]),
    followed by the properties of the specification checked against it.

    Modelling conventions.
    - A JavaScript [number] is a rational ([Q]); there is no infinity.  The
      arithmetic whose rounding decides how many frames a run has, what a
      frame is stamped and which flight phase it belongs to is the one of the
      runtime ([Number_mul], [Number_div], [Number_add]: the result rounded
      to the nearest double); the arithmetic of the simulated quantities is
      exact.  Where the source can compute with a field holding [undefined]
      (the gains of a stored motor record), the value is an [option Q]:
      [None] is [undefined] in a field and [NaN] in a computed number, and
      arithmetic on it is strict.
    - [Math.random] reads an arbitrary stream of draws through a cursor; the
      transcendental functions of [Math] and the number-to-string conversion
      of the runtime are parameters ([JsRuntime]).
    - A loop whose termination is not structural carries fuel and returns
      [None] when the fuel runs out.
    - Objects that the source shares by reference and mutates (the session's
      motor map, its physics object) live in an explicit heap.
    - A lookup in an object literal by a computed key ([params[terrainType]],
      [R2_VIDEO_MAP[key]]) is a lookup among the keys of the literal: the
      names that every object inherits from [Object.prototype]
      ([constructor], [toString], ...) are not modelled as keys.  They are
      listed in [Js.OBJECT_PROTOTYPE], and the properties of the flights
      that depend on the parameters of the airspace are stated for a
      condition that is none of them. *)

From Stdlib Require Import ZArith QArith Qround Qabs Qminmax Qcanon Lia Lqa Ascii.
From stdpp Require Import gmap strings list pretty.

Open Scope Q_scope.

(** ** JavaScript numbers and the runtime *)

Module Js.

Definition ltb (x y : Q) : bool := match x ?= y with Lt => true | _ => false end.
Definition gtb (x y : Q) : bool := ltb y x.
Definition leb (x y : Q) : bool := negb (ltb y x).
Definition geb (x y : Q) : bool := negb (ltb x y).
Definition eqb (x y : Q) : bool := Qeq_bool x y.

Definition ofZ (z : Z) : Q := inject_Z z.
Definition ofNat (n : nat) : Q := inject_Z (Z.of_nat n).

(** [Math.floor], [Math.ceil], [Math.round] (halves go up), [Math.abs],
    [Math.min], [Math.max]. *)
Definition Math_floor (x : Q) : Q := ofZ (Qfloor x).
Definition Math_ceil (x : Q) : Q := ofZ (Qceiling x).
Definition Math_round (x : Q) : Q := ofZ (Qfloor (x + (1 # 2))).
Definition Math_abs (x : Q) : Q := if ltb x 0 then - x else x.
Definition Math_min (x y : Q) : Q := if ltb y x then y else x.
Definition Math_max (x y : Q) : Q := if ltb x y then y else x.

(** The remainder operator [%]: the quotient is truncated towards zero. *)
Definition trunc (x : Q) : Z := if ltb x 0 then Qceiling x else Qfloor x.
Definition rem (x y : Q) : Q := x - y * ofZ (trunc (x / y)).

(** [x.toFixed(k)]: the nearest multiple of [10^-k], halves away from zero,
    as the integer numerator and the sign. *)
Definition pow10 (k : nat) : Z := 10 ^ Z.of_nat k.
Definition toFixed_units (k : nat) (x : Q) : Z :=
  Qfloor (Math_abs x * ofZ (pow10 k) + (1 # 2)).
(** [Number(x.toFixed(k))] *)
Definition toFixed_num (k : nat) (x : Q) : Q :=
  let n := toFixed_units k x in
  Qred (ofZ (if ltb x 0 then - n else n) / ofZ (pow10 k)).

Definition pad_left (k : nat) (s : string) : string :=
  String.concat "" (replicate (k - String.length s) "0"%string) +:+ s.
(** The string [x.toFixed(k)] itself. *)
Definition toFixed (k : nat) (x : Q) : string :=
  let n := toFixed_units k x in
  let whole := pretty (n / pow10 k)%Z in
  let frac := pad_left k (pretty (n mod pow10 k)%Z) in
  (if ltb x 0 then "-" else "") +:+ whole +:+
  (match k with O => "" | _ => "." +:+ frac end).

(** The part of the runtime that is not rational arithmetic. *)
Class JsRuntime := {
  Math_sqrt : Q -> Q;
  Math_log : Q -> Q;
  Math_sin : Q -> Q;
  Math_cos : Q -> Q;
  Math_PI : Q;
  (** [String(x)] / [`${x}`] for a number *)
  Number_toString : Q -> string;
  (** [x.toString(36)] *)
  Number_toString36 : Q -> string;
  (** [a * b], [a / b] and [a + b] as the runtime computes them on the
      Numbers written [a] and [b]: the exact result rounded to the nearest
      double. *)
  Number_mul : Q -> Q -> Q;
  Number_div : Q -> Q -> Q;
  Number_add : Q -> Q -> Q;
  (** The product of two integers is exact as long as it has no more than
      53 bits. *)
  Number_mul_integers : forall a b : Z,
    (Z.abs a < 2 ^ 53)%Z -> (Z.abs b < 2 ^ 53)%Z -> (Z.abs (a * b) < 2 ^ 53)%Z ->
    Number_mul (inject_Z a) (inject_Z b) == inject_Z (a * b)
}.

(** *** Numbers that may be [NaN] *)

Definition num : Type := option Q.
Definition NaN : num := None.
Definition number (x : Q) : num := Some x.
Coercion number : Q >-> num.
Definition lift1 (f : Q -> Q) (a : num) : num :=
  match a with Some x => Some (f x) | None => None end.
Definition lift2 (f : Q -> Q -> Q) (a b : num) : num :=
  match a, b with Some x, Some y => Some (f x y) | _, _ => None end.

(** *** [Math.random]: a stream of draws read through a cursor *)

Record RNG := { draws : nat -> Q; cursor : nat }.

(** Code with effects is written in a state monad; [Rand] is the one of
    the code whose only effect is to draw random numbers. *)
Definition State (S A : Type) : Type := S -> A * S.
Definition ret {S A} (a : A) : State S A := fun s => (a, s).
Definition bind {S A B} (m : State S A) (k : A -> State S B) : State S B :=
  fun s => let (a, s') := m s in k a s'.

Definition Rand (A : Type) : Type := State RNG A.

Definition Math_random : Rand Q :=
  fun g => (draws g (cursor g), {| draws := draws g; cursor := S (cursor g) |}).

(** Every draw lies in [[0, 1)]. *)
Definition unit_draws (g : RNG) : Prop := forall n, 0 <= draws g n /\ draws g n < 1.

(** *** The members that every object inherits *)

(** The names of the properties of [Object.prototype]. *)
Definition OBJECT_PROTOTYPE : list string :=
  [ "constructor"; "__defineGetter__"; "__defineSetter__"; "hasOwnProperty";
    "__lookupGetter__"; "__lookupSetter__"; "isPrototypeOf"; "propertyIsEnumerable";
    "toString"; "valueOf"; "__proto__"; "toLocaleString" ]%string.

(** Whether [obj[key]] on an object literal finds an inherited member when
    the literal has no such key of its own. *)
Definition inherited (key : string) : bool := existsb (String.eqb key) OBJECT_PROTOTYPE.

End Js.

Import Js.

Declare Scope rand_scope.
Delimit Scope rand_scope with rand.
Notation "x <- m ;; k" := (bind m (fun x => k))
  (at level 100, m at next level, right associativity) : rand_scope.
Open Scope rand_scope.

Fixpoint foldM {S A B} (f : B -> A -> State S B) (l : list A) (b : B) : State S B :=
  match l with
  | [] => ret b
  | a :: l' => b' <- f b a ;; foldM f l' b'
  end.


(** Strict arithmetic on numbers that may be [NaN]. *)
Declare Scope num_scope.
Delimit Scope num_scope with num.
Notation "x + y" := (lift2 Qplus x y) : num_scope.
Notation "x - y" := (lift2 Qminus x y) : num_scope.
Notation "x * y" := (lift2 Qmult x y) : num_scope.
Notation "x / y" := (lift2 Qdiv x y) : num_scope.
Notation "- x" := (lift1 Qopp x) : num_scope.

Definition clamp (value min max : Q) : Q := Math_min (Math_max value min) max.
Definition nclamp (value min max : num) : num :=
  lift2 Math_min (lift2 Math_max value min) max.

(** ** Strings: [split], [parseInt], [includes] *)

Module Str.

Fixpoint split_go (sep : ascii) (cur : string) (s : string) : list string :=
  match s with
  | EmptyString => [String.rev cur]
  | String c s' =>
      if Ascii.eqb c sep then String.rev cur :: split_go sep EmptyString s'
      else split_go sep (String c cur) s'
  end.
(** [s.split(sep)] for a one-character separator. *)
Definition split (sep : ascii) (s : string) : list string := split_go sep EmptyString s.

Definition is_space (c : ascii) : bool :=
  let n := nat_of_ascii c in
  (Nat.eqb n 32 || (Nat.leb 9 n && Nat.leb n 13))%bool.

Fixpoint skip_spaces (s : string) : string :=
  match s with
  | String c s' => if is_space c then skip_spaces s' else s
  | EmptyString => s
  end.

Definition digit_of (radix : Z) (c : ascii) : option Z :=
  let n := Z.of_nat (nat_of_ascii c) in
  let d := if ((48 <=? n) && (n <=? 57))%Z%bool then Some (n - 48)%Z
           else if ((97 <=? n) && (n <=? 122))%Z%bool then Some (n - 87)%Z
           else if ((65 <=? n) && (n <=? 90))%Z%bool then Some (n - 55)%Z
           else None in
  match d with
  | Some v => if (v <? radix)%Z then Some v else None
  | None => None
  end.

Fixpoint digits (radix : Z) (acc : option Z) (s : string) : option Z :=
  match s with
  | String c s' =>
      match digit_of radix c with
      | Some d => digits radix (Some (match acc with Some a => a * radix + d | None => d end)%Z) s'
      | None => acc
      end
  | EmptyString => acc
  end.

(** [parseInt(s)] without a radix argument; [None] is [NaN]. *)
Definition parseInt (s : string) : option Z :=
  let s := skip_spaces s in
  let '(neg, s) :=
    match s with
    | String "-" s' => (true, s')
    | String "+" s' => (false, s')
    | _ => (false, s)
    end in
  let '(radix, s) :=
    match s with
    | String "0" (String "x" s') => (16%Z, s')
    | String "0" (String "X" s') => (16%Z, s')
    | _ => (10%Z, s)
    end in
  match digits radix None s with
  | Some v => Some (if neg : bool then (- v)%Z else v)
  | None => None
  end.

(** [parseInt] of a possibly missing array element: [parseInt(undefined)]
    is [NaN]. *)
Definition parseInt_opt (s : option string) : option Z :=
  match s with Some s => parseInt s | None => None end.

Fixpoint includes_go (fuel : nat) (needle s : string) : bool :=
  if String.prefix needle s then true
  else match fuel, s with
       | S fuel', String _ s' => includes_go fuel' needle s'
       | _, _ => false
       end.
(** [s.includes(needle)] *)
Definition includes (needle s : string) : bool := includes_go (String.length s) needle s.

Definition lower_ascii (c : ascii) : ascii :=
  let n := nat_of_ascii c in
  if (Nat.leb 65 n && Nat.leb n 90)%bool then ascii_of_nat (n + 32) else c.
(** [s.toLowerCase()] on ASCII. *)
Fixpoint toLowerCase (s : string) : string :=
  match s with
  | EmptyString => EmptyString
  | String c s' => String (lower_ascii c) (toLowerCase s')
  end.

End Str.

(** ** [types.ts] *)

Module Types.

Record PhysicsConfig := {
  gravity : Q;
  friction_coefficient : Q;
  terrain_type : string;
  terrain_roughness : Q
}.

(** A stored motor record.  A field is [None] when the property is missing
    or holds [undefined]. *)
Record MotorParams := {
  joint_id : option string;
  torque_limit : num;
  pid_p : num;
  pid_i : num;
  pid_d : num;
  max_velocity : num
}.

Record Imu := {
  pitch : Q; roll : Q; yaw : Q;
  accel_x : Q; accel_y : Q; accel_z : Q
}.

Record Power := { voltage : num; current : num; temperature : Q }.

Record Contact := {
  leg_id : string;
  in_contact : bool;
  force : Q;
  slip_detected : bool
}.

(** A [Record<string, number>] keeps its keys in insertion order. *)
Definition NumRecord : Type := list (string * num).

Record TelemetryFrame := {
  timestamp : Q;
  joint_positions : NumRecord;
  joint_velocities : NumRecord;
  joint_torques : NumRecord;
  imu : Imu;
  power : Power;
  contacts : list Contact
}.

Inductive Severity := info | warning | error | critical.

Record SimulationMetrics := {
  stability_score : Q;
  efficiency_score : num;
  gait_symmetry : Q;
  max_pitch_deviation : Q;
  max_roll_deviation : Q;
  slip_events : Q;
  total_energy_consumed : num;
  avg_joint_temperature : Q
}.

Definition DEFAULT_PHYSICS : PhysicsConfig :=
  {| gravity := 9.81; friction_coefficient := 0.5;
     terrain_type := "concrete"; terrain_roughness := 0.3 |}.

(** [DEFAULT_MOTOR_PARAMS] has no [joint_id]. *)
Definition DEFAULT_MOTOR_PARAMS : MotorParams :=
  {| joint_id := None; torque_limit := Some 5.0; pid_p := Some 1.0;
     pid_i := Some 0.1; pid_d := Some 0.05; max_velocity := Some 5.0 |}.

Definition HEXAPOD_JOINTS : list string :=
  [ "leg_1_coxa"; "leg_1_femur"; "leg_1_tibia";
    "leg_2_coxa"; "leg_2_femur"; "leg_2_tibia";
    "leg_3_coxa"; "leg_3_femur"; "leg_3_tibia";
    "leg_4_coxa"; "leg_4_femur"; "leg_4_tibia";
    "leg_5_coxa"; "leg_5_femur"; "leg_5_tibia";
    "leg_6_coxa"; "leg_6_femur"; "leg_6_tibia" ]%string.

Definition sev_eqb (a b : Severity) : bool :=
  match a, b with
  | info, info | warning, warning | error, error | critical, critical => true
  | _, _ => false
  end.

(** [s.toUpperCase()] of a severity *)
Definition sev_upper (s : Severity) : string :=
  match s with
  | info => "INFO" | warning => "WARNING" | error => "ERROR" | critical => "CRITICAL"
  end.

End Types.

(** ** [telemetry.ts]: the ground robot *)

Module Telemetry.
Import Types.

Section WithRuntime.
Context `{JsRuntime}.

Definition gaussianNoise (mean stdDev : Q) : Rand Q :=
  u1 <- Math_random ;;
  u2 <- Math_random ;;
  let z0 := Math_sqrt (- (2) * Math_log u1) * Math_cos (2 * Math_PI * u2) in
  ret (z0 * stdDev + mean).

Record TerrainParams := {
  slipProbability : Q;
  frictionVariance : Q;
  impactDamping : Q;
  sinkage : Q
}.

Definition terrain_concrete : TerrainParams :=
  {| slipProbability := 0.02; frictionVariance := 0.05; impactDamping := 0.95; sinkage := 0 |}.

Definition getTerrainParams (terrainType : string) : TerrainParams :=
  if String.eqb terrainType "sand" then
    {| slipProbability := 0.15; frictionVariance := 0.2; impactDamping := 0.7; sinkage := 0.02 |}
  else if String.eqb terrainType "concrete" then terrain_concrete
  else if String.eqb terrainType "grass" then
    {| slipProbability := 0.08; frictionVariance := 0.15; impactDamping := 0.8; sinkage := 0.01 |}
  else if String.eqb terrainType "gravel" then
    {| slipProbability := 0.12; frictionVariance := 0.18; impactDamping := 0.75; sinkage := 0.015 |}
  else terrain_concrete.

Record PidResult := { pid_position : num; pid_velocity : num }.

Definition pidResponse (current target pid_p pid_d velocity : num) (dt : Q) : PidResult :=
  let error := (target - current)%num in
  let pTerm := (pid_p * error)%num in
  let dTerm := ((- pid_d) * velocity)%num in
  let acceleration := (pTerm + dTerm)%num in
  let newVelocity := (velocity + acceleration * dt)%num in
  let newPosition := (current + newVelocity * dt)%num in
  {| pid_position := newPosition;
     pid_velocity := nclamp newVelocity (Some (- (5))) (Some 5) |}.

Record JointState := { position : num; velocity : num; torque : num }.

(** [rec[k] = v] on a record: an existing key keeps its place. *)
Fixpoint rec_set (k : string) (v : num) (r : NumRecord) : NumRecord :=
  match r with
  | [] => [(k, v)]
  | (k', v') :: r' => if String.eqb k' k then (k, v) :: r' else (k', v') :: rec_set k v r'
  end.

(** The motor read by the control loop when the map has none for a joint:
    an object with three properties only. *)
Definition fallbackMotor : MotorParams :=
  {| joint_id := None; torque_limit := Some 5.0; pid_p := Some 1.0;
     pid_i := None; pid_d := Some 0.05; max_velocity := None |}.

Definition gaitAmplitude (jointType : option string) : Q :=
  match jointType with
  | Some t =>
      if String.eqb t "coxa" then 0.3
      else if String.eqb t "femur" then 0.6
      else if String.eqb t "tibia" then 0.8
      else 0.5
  | None => 0.5
  end.

(** [legNum % 2 === 0] for a parsed leg number ([NaN % 2] is [NaN]). *)
Definition is_even (legNum : option Z) : bool :=
  match legNum with Some n => (Z.rem n 2 =? 0)%Z | None => false end.

(** What the loop over the joints carries within one frame. *)
Record JointLoop := {
  jointState : gmap string JointState;
  jointPositions : NumRecord;
  jointVelocities : NumRecord;
  jointTorques : NumRecord
}.

Definition no_state : JointState := {| position := NaN; velocity := NaN; torque := NaN |}.

(** The body of [for (const jointId of HEXAPOD_JOINTS)] inside a frame. *)
Definition jointStep (motors : gmap string MotorParams) (terrainParams : TerrainParams)
    (gaitPhase dt : Q) (acc : JointLoop) (jointId : string) : Rand JointLoop :=
  let motor := match motors !! jointId with Some m => m | None => fallbackMotor end in
  (* always present: every id of HEXAPOD_JOINTS is initialised before the loop *)
  let state := match jointState acc !! jointId with Some s => s | None => no_state end in
  let parts := Str.split "_" jointId in
  let legNum := Str.parseInt_opt (parts !! 1%nat) in
  let jointType := parts !! 2%nat in
  let phaseOffset := if is_even legNum then Math_PI else 0 in
  let amplitude := gaitAmplitude jointType in
  let target := amplitude * Math_sin (gaitPhase + phaseOffset) in
  let pidResult :=
    pidResponse (position state) (Some target) (pid_p motor) (pid_d motor) (velocity state) dt in
  let noiseScale := 0.01 * (1 + frictionVariance terrainParams) in
  n1 <- gaussianNoise 0 noiseScale ;;
  let position' := (pid_position pidResult + n1)%num in
  n2 <- gaussianNoise 0 (noiseScale * 2) ;;
  let velocity' := (pid_velocity pidResult + n2)%num in
  n3 <- gaussianNoise 0 0.1 ;;
  let torque' :=
    nclamp (pid_p motor * (target - position') + n3)%num
           (- torque_limit motor)%num (torque_limit motor) in
  let state' := {| position := position'; velocity := velocity'; torque := torque' |} in
  ret {| jointState := <[jointId := state']> (jointState acc);
         jointPositions := rec_set jointId position' (jointPositions acc);
         jointVelocities := rec_set jointId velocity' (jointVelocities acc);
         jointTorques := rec_set jointId torque' (jointTorques acc) |}.

(** The body of [for (let leg = 1; leg <= 6; leg++)]: one contact record. *)
Definition contactStep (physics : PhysicsConfig) (terrainParams : TerrainParams)
    (gaitPhase : Q) (contacts : list Contact) (leg : nat) : Rand (list Contact) :=
  let legPhase :=
    rem (gaitPhase + (if (Nat.modulo leg 2 =? 0)%nat then Math_PI else 0)) (2 * Math_PI) in
  let inContact := ltb legPhase Math_PI in
  let slipChance := slipProbability terrainParams * (1 - friction_coefficient physics) in
  slipDetected <- (if inContact
                   then u <- Math_random ;; ret (ltb u (slipChance * 0.1))
                   else ret false) ;;
  force <- (if inContact then n <- gaussianNoise 0 2 ;; ret (8 + n) else ret 0) ;;
  ret (contacts ++ [ {| leg_id := "leg_" +:+ pretty leg;
                        in_contact := inContact;
                        force := force;
                        slip_detected := slipDetected |} ]).

(** The variables that live across frames. *)
Record GenState := {
  g_jointState : gmap string JointState;
  g_pitch : Q;
  g_roll : Q;
  g_yaw : Q;
  g_temperature : Q;
  g_frames : list TelemetryFrame
}.

(** The body of [for (let i = 0; i < totalSamples; i++)]. *)
Definition frameStep (physics : PhysicsConfig) (motors : gmap string MotorParams)
    (terrainParams : TerrainParams) (dt : Q) (st : GenState) (i : nat) : Rand GenState :=
  let gaitFrequency := 2 in
  let t := Number_mul (ofNat i) dt in
  let gaitPhase := rem (t * gaitFrequency * 2 * Math_PI) (2 * Math_PI) in
  joints <- foldM (jointStep motors terrainParams gaitPhase dt) HEXAPOD_JOINTS
              {| jointState := g_jointState st; jointPositions := [];
                 jointVelocities := []; jointTorques := [] |} ;;
  let gravityEffect := gravity physics / 9.81 in
  let pitchOscillation := 2 * Math_sin (gaitPhase * 2) * gravityEffect in
  let rollOscillation := 1.5 * Math_sin (gaitPhase * 2 + Math_PI / 4) * gravityEffect in
  np <- gaussianNoise 0 0.3 ;;
  let pitch' := clamp (g_pitch st * 0.95 + pitchOscillation * 0.05 + np) (- (30)) 30 in
  nr <- gaussianNoise 0 0.2 ;;
  let roll' := clamp (g_roll st * 0.95 + rollOscillation * 0.05 + nr) (- (20)) 20 in
  ny <- gaussianNoise 0 0.1 ;;
  let yaw' := g_yaw st + ny in
  nt <- gaussianNoise 0 0.01 ;;
  let temperature' := Math_min 55 (g_temperature st + 0.001 + Math_abs nt) in
  let avgTorque :=
    (fold_left (fun a b => lift1 Math_abs a + lift1 Math_abs b)%num
               (map snd (jointTorques joints)) (Some 0) / 18)%num in
  nc <- gaussianNoise 0 0.2 ;;
  let current' := (2 + avgTorque * 0.5 + nc)%num in
  contacts' <- foldM (contactStep physics terrainParams gaitPhase) (seq 1 6) [] ;;
  nax <- gaussianNoise 0 0.5 ;;
  nay <- gaussianNoise 0 0.5 ;;
  naz <- gaussianNoise 0 0.3 ;;
  nv <- gaussianNoise 0 0.05 ;;
  let frame :=
    {| timestamp := Math_round (Number_mul t 1000);
       joint_positions := jointPositions joints;
       joint_velocities := jointVelocities joints;
       joint_torques := jointTorques joints;
       imu := {| pitch := toFixed_num 2 pitch';
                 roll := toFixed_num 2 roll';
                 yaw := toFixed_num 2 yaw';
                 accel_x := toFixed_num 3 nax;
                 accel_y := toFixed_num 3 nay;
                 accel_z := toFixed_num 3 (gravity physics + naz) |};
       power := {| voltage := lift1 (toFixed_num 2) (24 - current' * 0.1 + nv)%num;
                   current := lift1 (toFixed_num 2) current';
                   temperature := toFixed_num 1 temperature' |};
       contacts := contacts' |} in
  ret {| g_jointState := jointState joints;
         g_pitch := pitch'; g_roll := roll'; g_yaw := yaw';
         g_temperature := temperature';
         g_frames := g_frames st ++ [frame] |}.

(** [for (const jointId of HEXAPOD_JOINTS) jointState[jointId] = ...] *)
Definition initJoint (js : gmap string JointState) (jointId : string)
    : Rand (gmap string JointState) :=
  n <- gaussianNoise 0 0.1 ;;
  ret (<[jointId := {| position := Some n; velocity := Some 0; torque := Some 0 |}]> js).

(** [Math.floor(durationSeconds * sampleRateHz)], as the bound of the
    loop over the frames. *)
Definition totalSamples (durationSeconds sampleRateHz : Q) : nat :=
  Z.to_nat (Qfloor (Number_mul durationSeconds sampleRateHz)).

Definition generateTelemetryStream (durationSeconds : Q) (physics : PhysicsConfig)
    (motors : gmap string MotorParams) (sampleRateHz : Q) : Rand (list TelemetryFrame) :=
  let dt := Number_div 1 sampleRateHz in
  let terrainParams := getTerrainParams (terrain_type physics) in
  js <- foldM initJoint HEXAPOD_JOINTS ∅ ;;
  st <- foldM (frameStep physics motors terrainParams dt)
          (seq 0 (totalSamples durationSeconds sampleRateHz))
          {| g_jointState := js; g_pitch := 0; g_roll := 0; g_yaw := 0;
             g_temperature := 35; g_frames := [] |} ;;
  ret (g_frames st).

End WithRuntime.
End Telemetry.

(** ** [telemetry.ts]: metrics and summary of a ground run *)

Module Analysis.
Import Types.

Definition zero_metrics : SimulationMetrics :=
  {| stability_score := 0; efficiency_score := Some 0; gait_symmetry := 0;
     max_pitch_deviation := 0; max_roll_deviation := 0; slip_events := 0;
     total_energy_consumed := Some 0; avg_joint_temperature := 0 |}.

(** The counters of the loop over the frames. *)
Record Acc := {
  maxPitch : Q; maxRoll : Q; slipEvents : Q;
  totalEnergy : num; tempSum : Q;
  leftLegPhaseSum : Q; rightLegPhaseSum : Q
}.

Definition contactStep (a : Acc) (contact : Contact) : Acc :=
  let slipEvents' := if slip_detected contact then slipEvents a + 1 else slipEvents a in
  let legNum := Str.parseInt_opt (Str.split "_" (leg_id contact) !! 1%nat) in
  let odd := match legNum with Some n => (Z.rem n 2 =? 1)%Z | None => false end in
  let inc := if in_contact contact then 1 else 0 in
  {| maxPitch := maxPitch a; maxRoll := maxRoll a; slipEvents := slipEvents';
     totalEnergy := totalEnergy a; tempSum := tempSum a;
     leftLegPhaseSum := if odd then leftLegPhaseSum a + inc else leftLegPhaseSum a;
     rightLegPhaseSum := if odd then rightLegPhaseSum a else rightLegPhaseSum a + inc |}.

Definition frameStep (a : Acc) (frame : TelemetryFrame) : Acc :=
  let a1 :=
    {| maxPitch := Math_max (maxPitch a) (Math_abs (pitch (imu frame)));
       maxRoll := Math_max (maxRoll a) (Math_abs (roll (imu frame)));
       slipEvents := slipEvents a; totalEnergy := totalEnergy a; tempSum := tempSum a;
       leftLegPhaseSum := leftLegPhaseSum a; rightLegPhaseSum := rightLegPhaseSum a |} in
  let a2 := fold_left contactStep (contacts frame) a1 in
  {| maxPitch := maxPitch a2; maxRoll := maxRoll a2; slipEvents := slipEvents a2;
     totalEnergy :=
       (totalEnergy a2 + voltage (power frame) * current (power frame) * 0.01)%num;
     tempSum := tempSum a2 + temperature (power frame);
     leftLegPhaseSum := leftLegPhaseSum a2; rightLegPhaseSum := rightLegPhaseSum a2 |}.

Definition analyzeTelemetry (frames : list TelemetryFrame) : SimulationMetrics :=
  if (length frames =? 0)%nat then zero_metrics
  else
    let n := ofNat (length frames) in
    let a := fold_left frameStep frames
               {| maxPitch := 0; maxRoll := 0; slipEvents := 0; totalEnergy := Some 0;
                  tempSum := 0; leftLegPhaseSum := 0; rightLegPhaseSum := 0 |} in
    let stabilityPenalty :=
      (maxPitch a / 30) * 30 + (maxRoll a / 20) * 20 + (slipEvents a / n) * 50 in
    let stability_score' := Math_max 0 (Math_round (100 - stabilityPenalty)) in
    let efficiencyRaw := (100 - (totalEnergy a / n) * 2)%num in
    let efficiency_score' :=
      lift1 (fun r => Math_max 0 (Math_min 100 (Math_round r))) efficiencyRaw in
    let symmetryDiff := Math_abs (leftLegPhaseSum a - rightLegPhaseSum a) / n in
    let gait_symmetry' := toFixed_num 2 (Math_max 0 (1 - symmetryDiff * 0.5)) in
    {| stability_score := stability_score';
       efficiency_score := efficiency_score';
       gait_symmetry := gait_symmetry';
       max_pitch_deviation := toFixed_num 1 (maxPitch a);
       max_roll_deviation := toFixed_num 1 (maxRoll a);
       slip_events := slipEvents a;
       total_energy_consumed := lift1 (toFixed_num 2) (totalEnergy a);
       avg_joint_temperature := toFixed_num 1 (tempSum a / n) |}.

(** [s.replace(pat, "")]: the first occurrence only. *)
Fixpoint remove_first (fuel : nat) (pat s : string) : string :=
  if String.prefix pat s then String.substring (String.length pat) (String.length s) s
  else match fuel, s with
       | S fuel', String c s' => String c (remove_first fuel' pat s')
       | _, _ => s
       end.

Section WithRuntime.
Context `{JsRuntime}.

(** A template hole filled with an array element that may be missing. *)
Definition show_opt (s : option string) : string :=
  match s with Some s => s | None => "undefined" end.

Definition generateTelemetrySummary (frames : list TelemetryFrame)
    (metrics : SimulationMetrics) : string :=
  let parts1 :=
    if geb (stability_score metrics) 90 then ["Gait cycle completed successfully."]
    else if geb (stability_score metrics) 70 then ["Gait cycle completed with minor issues."]
    else ["Gait cycle completed with significant stability concerns."] in
  let parts2 :=
    if gtb (slip_events metrics) 0 then
      let slipFrames :=
        take 3 (List.filter (fun f => existsb slip_detected (contacts f)) frames) in
      if (0 <? length slipFrames)%nat then
        let slipTimes :=
          map (fun f => "t=" +:+ toFixed 1 (timestamp f / 1000) +:+ "s") slipFrames in
        let slipLegs :=
          flat_map (fun f =>
            map (fun c => remove_first (String.length (leg_id c)) "leg_" (leg_id c))
                (List.filter slip_detected (contacts f))) slipFrames in
        parts1 ++ ["Minor slip detected at " +:+ show_opt (slipTimes !! 0%nat) +:+
                   " on leg " +:+ show_opt (slipLegs !! 0%nat) +:+ " tarsus."]
      else parts1
    else parts1 in
  let parts3 :=
    parts2 ++ ["Stability score: " +:+ Number_toString (stability_score metrics) +:+ "%"] in
  let parts4 :=
    if gtb (avg_joint_temperature metrics) 50 then
      parts3 ++ ["Warning: Elevated joint temperatures (avg " +:+
                 Number_toString (avg_joint_temperature metrics) +:+ "Â°C)."]
    else parts3 in
  String.concat " " parts4.

End WithRuntime.
End Analysis.

(** ** Loops and lists shared by the event generators *)

Module Loop.

(** [for (let i = start; i < bound; i += step) acc = body(i, acc)].  The
    source does not guard against [step = 0], so the loop carries fuel:
    [None] means that the fuel ran out before the loop condition failed. *)
Fixpoint forFrom {A} (fuel : nat) (body : nat -> A -> Rand A)
    (bound step i : nat) (acc : A) : Rand (option A) :=
  if (i <? bound)%nat then
    match fuel with
    | O => ret None
    | S fuel' => acc' <- body i acc ;; forFrom fuel' body bound step (i + step)%nat acc'
    end
  else ret (Some acc).

(** [[...new Set(l)]]: the first occurrence of each string, in order. *)
Fixpoint uniq_go (seen : list string) (l : list string) : list string :=
  match l with
  | [] => []
  | x :: l' =>
      if existsb (String.eqb x) seen then uniq_go seen l'
      else x :: uniq_go (x :: seen) l'
  end.
Definition uniq (l : list string) : list string := uniq_go [] l.

Definition count {A} (p : A -> bool) (l : list A) : nat := length (List.filter p l).

End Loop.

(** ** [failures.ts]: the ground robot *)

Module Failures.
Import Types.

Inductive FailureType :=
| motor_overheat | slip_event | gait_mismatch | rollover
| power_fluctuation | sensor_noise | joint_limit_exceeded.

Definition failure_name (t : FailureType) : string :=
  match t with
  | motor_overheat => "motor_overheat"
  | slip_event => "slip_event"
  | gait_mismatch => "gait_mismatch"
  | rollover => "rollover"
  | power_fluctuation => "power_fluctuation"
  | sensor_noise => "sensor_noise"
  | joint_limit_exceeded => "joint_limit_exceeded"
  end.

Record FailureScenario := {
  fs_type : FailureType;
  fs_probability : Q;
  fs_severity : Severity;
  fs_message : string;
  fs_affectedComponents : option (list string);
  fs_recoverable : bool
}.

(** The free-form [data] of an event, by the shapes the source builds. *)
Inductive EventData :=
| SlipData (leg : string) (force : Q)
| AttitudeData (pitch roll : Q)
| TemperatureData (temperature : Q)
| ComponentsData (affectedComponents : option (list string)).

(** [SimulationEvent].  The [type] is the string at run time: the injected
    failures are cast into the event type and keep their own names. *)
Record SimulationEvent := {
  ev_timestamp : Q;
  ev_type : string;
  ev_severity : Severity;
  ev_message : string;
  ev_data : option EventData
}.

Definition BASE_FAILURE_RATE : Q := 0.12.

Definition modifiers_concrete (t : FailureType) : Q :=
  match t with
  | motor_overheat => 0.8 | slip_event => 0.3 | gait_mismatch => 0.7 | rollover => 0.6
  | power_fluctuation => 0.9 | sensor_noise => 0.8 | joint_limit_exceeded => 1.1
  end.

Definition getTerrainModifiers (terrain : string) : FailureType -> Q :=
  if String.eqb terrain "sand" then
    fun t => match t with
    | motor_overheat => 1.5 | slip_event => 2.0 | gait_mismatch => 1.3 | rollover => 1.4
    | power_fluctuation => 1.2 | sensor_noise => 1.1 | joint_limit_exceeded => 1.2
    end
  else if String.eqb terrain "concrete" then modifiers_concrete
  else if String.eqb terrain "grass" then
    fun t => match t with
    | motor_overheat => 1.0 | slip_event => 1.2 | gait_mismatch => 1.0 | rollover => 0.9
    | power_fluctuation => 1.0 | sensor_noise => 1.0 | joint_limit_exceeded => 0.9
    end
  else if String.eqb terrain "gravel" then
    fun t => match t with
    | motor_overheat => 1.3 | slip_event => 1.5 | gait_mismatch => 1.4 | rollover => 1.3
    | power_fluctuation => 1.1 | sensor_noise => 1.2 | joint_limit_exceeded => 1.3
    end
  else modifiers_concrete.

(** [FAILURE_SCENARIOS[type]] with the [probability] filled in. *)
Definition scenario (t : FailureType) (probability : Q) : FailureScenario :=
  match t with
  | motor_overheat =>
      {| fs_type := t; fs_probability := probability; fs_severity := warning;
         fs_message := "Motor temperature exceeded threshold";
         fs_affectedComponents := Some ["leg_2_femur"; "leg_5_femur"]%string;
         fs_recoverable := true |}
  | slip_event =>
      {| fs_type := t; fs_probability := probability; fs_severity := warning;
         fs_message := "Traction loss detected during stance phase";
         fs_affectedComponents := Some ["leg_1"; "leg_4"]%string;
         fs_recoverable := true |}
  | gait_mismatch =>
      {| fs_type := t; fs_probability := probability; fs_severity := warning;
         fs_message := "Gait phase synchronization error between leg pairs";
         fs_affectedComponents := Some ["leg_2"; "leg_5"]%string;
         fs_recoverable := true |}
  | rollover =>
      {| fs_type := t; fs_probability := probability; fs_severity := critical;
         fs_message := "Body orientation exceeded safe limits - rollover imminent";
         fs_affectedComponents := None;
         fs_recoverable := false |}
  | power_fluctuation =>
      {| fs_type := t; fs_probability := probability; fs_severity := info;
         fs_message := "Minor power supply fluctuation detected";
         fs_affectedComponents := None;
         fs_recoverable := true |}
  | sensor_noise =>
      {| fs_type := t; fs_probability := probability; fs_severity := info;
         fs_message := "Elevated sensor noise detected in IMU readings";
         fs_affectedComponents := None;
         fs_recoverable := true |}
  | joint_limit_exceeded =>
      {| fs_type := t; fs_probability := probability; fs_severity := error;
         fs_message := "Joint position limit exceeded - emergency stop triggered";
         fs_affectedComponents := Some ["leg_3_tibia"]%string;
         fs_recoverable := true |}
  end.

(** [Object.keys(FAILURE_SCENARIOS)], in insertion order. *)
Definition failureTypes : list FailureType :=
  [motor_overheat; slip_event; gait_mismatch; rollover;
   power_fluctuation; sensor_noise; joint_limit_exceeded].

(** The callback of [failureTypes.map]: the effective weight of a type. *)
Definition weightOf (modifiers : FailureType -> Q) (physics : PhysicsConfig)
    (simulationProgress : Q) (t : FailureType) : Q :=
  let weight := modifiers t in
  let weight := match t with
                | slip_event => weight * (1.2 - friction_coefficient physics)
                | _ => weight end in
  let weight := match t with
                | motor_overheat => weight * (0.5 + simulationProgress)
                | _ => weight end in
  let weight := match t with
                | rollover => weight * ((gravity physics / 9.81) * 0.3)
                | _ => weight end in
  weight.

(** The cumulative-weight draw:
    [for (i ...) { random -= weights[i]; if (random <= 0) return ... }]. *)
Fixpoint pick {T} (types : list T) (weights : list Q) (random : Q) : option (T * Q) :=
  match types, weights with
  | t :: types', w :: weights' =>
      let random' := random - w in
      if leb random' 0 then Some (t, w) else pick types' weights' random'
  | _, _ => None
  end.

Definition is_critical (e : SimulationEvent) : bool := sev_eqb (ev_severity e) critical.
Definition is_warning_or_error (e : SimulationEvent) : bool :=
  (sev_eqb (ev_severity e) warning || sev_eqb (ev_severity e) error)%bool.

Definition shouldInjectFailure (physics : PhysicsConfig) (simulationProgress : Q)
    (existingEvents : list SimulationEvent) : Rand (option FailureScenario) :=
  let criticalCount := Loop.count is_critical existingEvents in
  if (0 <? criticalCount)%nat then ret None else
  let warningCount := Loop.count is_warning_or_error existingEvents in
  if (3 <=? warningCount)%nat then ret None else
  gate <- Math_random ;;
  if gtb gate BASE_FAILURE_RATE then ret None else
  let terrainModifiers := getTerrainModifiers (terrain_type physics) in
  let weights := map (weightOf terrainModifiers physics simulationProgress) failureTypes in
  let totalWeight := fold_left Qplus weights 0 in
  u <- Math_random ;;
  let random := u * totalWeight in
  ret (match pick failureTypes weights random with
       | Some (t, w) => Some (scenario t (w / totalWeight))
       | None => None
       end).

Section WithRuntime.
Context `{JsRuntime}.

(** The slip check: the first slipping contact only ([break]). *)
Definition slipEvent (frame : TelemetryFrame) : list SimulationEvent :=
  match List.find slip_detected (contacts frame) with
  | Some contact =>
      [ {| ev_timestamp := timestamp frame; ev_type := "slip"; ev_severity := warning;
           ev_message := "Slippage detected on " +:+ leg_id contact +:+ " tarsus";
           ev_data := Some (SlipData (leg_id contact) (force contact)) |} ]
  | None => []
  end.

Definition stabilityEvent (frame : TelemetryFrame) : list SimulationEvent :=
  if gtb (Math_abs (pitch (imu frame))) 20 then
    [ {| ev_timestamp := timestamp frame; ev_type := "stability_warning";
         ev_severity := if gtb (pitch (imu frame)) 25 then error else warning;
         ev_message := "Body pitch deviation: " +:+ toFixed 1 (pitch (imu frame)) +:+ "째";
         ev_data := Some (AttitudeData (pitch (imu frame)) (roll (imu frame))) |} ]
  else [].

Definition rolloverEvent (frame : TelemetryFrame) : list SimulationEvent :=
  if (gtb (Math_abs (pitch (imu frame))) 30 || gtb (Math_abs (roll (imu frame))) 25)%bool then
    [ {| ev_timestamp := timestamp frame; ev_type := "rollover"; ev_severity := critical;
         ev_message := "Orientation exceeded safe limits";
         ev_data := Some (AttitudeData (pitch (imu frame)) (roll (imu frame))) |} ]
  else [].

Definition overheatEvent (frame : TelemetryFrame) : list SimulationEvent :=
  if gtb (temperature (power frame)) 50 then
    [ {| ev_timestamp := timestamp frame; ev_type := "overheat"; ev_severity := warning;
         ev_message := "Motor temperature elevated: " +:+
                       Number_toString (temperature (power frame)) +:+ "째C";
         ev_data := Some (TemperatureData (temperature (power frame))) |} ]
  else [].

Definition injectedEvent (frame : TelemetryFrame) (f : FailureScenario) : SimulationEvent :=
  {| ev_timestamp := timestamp frame; ev_type := failure_name (fs_type f);
     ev_severity := fs_severity f; ev_message := fs_message f;
     ev_data := Some (ComponentsData (fs_affectedComponents f)) |}.

(** The body of the sampling loop at index [i] ([i < frames.length]). *)
Definition sampleStep (frames : list TelemetryFrame) (physics : PhysicsConfig)
    (i : nat) (events : list SimulationEvent) : Rand (list SimulationEvent) :=
  match frames !! i with
  | None => ret events
  | Some frame =>
      let progress := ofNat i / ofNat (length frames) in
      let events := events ++ slipEvent frame in
      let events := events ++ stabilityEvent frame in
      let events := events ++ rolloverEvent frame in
      let events := events ++ overheatEvent frame in
      injectedFailure <- shouldInjectFailure physics progress events ;;
      ret (match injectedFailure with
           | Some f => events ++ [injectedEvent frame f]
           | None => events
           end)
  end.

(** The events in the order they are pushed, before the final [slice]. *)
Definition collectEvents (fuel : nat) (frames : list TelemetryFrame)
    (physics : PhysicsConfig) : Rand (option (list SimulationEvent)) :=
  let sampleRate := (length frames / 10)%nat in
  Loop.forFrom fuel (sampleStep frames physics) (length frames) sampleRate sampleRate [].

Definition generateSimulationEvents (fuel : nat) (frames : list TelemetryFrame)
    (physics : PhysicsConfig) : Rand (option (list SimulationEvent)) :=
  events <- collectEvents fuel frames physics ;;
  ret (option_map (take 10) events).

End WithRuntime.

Definition shouldSimulationFail (events : list SimulationEvent) : bool :=
  let criticalEvents := List.filter is_critical events in
  (0 <? length criticalEvents)%nat.

(** [event.data?.affectedComponents?.[0] || 'leg_2'] *)
Definition firstComponent (e : SimulationEvent) : string :=
  match ev_data e with
  | Some (ComponentsData (Some (c :: _))) => if String.eqb c "" then "leg_2" else c
  | _ => "leg_2"
  end.

(** What one event adds to the recommendations (the [switch]). *)
Definition recommend (physics : PhysicsConfig) (event : SimulationEvent) : list string :=
  let ty := ev_type event in
  if String.eqb ty "slip" then
    (if ltb (friction_coefficient physics) 0.7 then
       ["Increase friction_coefficient to " +:+
        toFixed 2 (Math_min 1.0 (friction_coefficient physics + 0.15)) +:+
        " for " +:+ terrain_type physics +:+ " terrain"]
     else []) ++
    ["Consider reducing gait speed during stance phase"]
  else if String.eqb ty "overheat" then
    ["Reduce pid_p gain to decrease motor effort";
     "Consider implementing thermal throttling"]
  else if (String.eqb ty "stability_warning" || String.eqb ty "rollover")%bool then
    ["Lower center of mass by reducing femur joint angles";
     "Increase pid_d on affected legs to dampen oscillations"]
  else if String.eqb ty "gait_mismatch" then
    ["Reduce pid_p on " +:+ firstComponent event +:+ "_femur to dampen oscillation";
     "Verify gait timing synchronization"]
  else [].

Definition generateRecommendations (events : list SimulationEvent)
    (physics : PhysicsConfig) : list string :=
  let recommendations := flat_map (recommend physics) events in
  take 5 (Loop.uniq recommendations).

End Failures.

(** ** The quadcopter: types, [telemetry.ts] *)

Module Drone.

Record DronePhysicsConfig := {
  air_density : Q;
  wind_speed : Q;
  wind_direction : Q;
  airspace_condition : string
}.

Record Position := { lat : Q; lon : Q; alt : Q }.
Record Velocity := { vx : Q; vy : Q; vz : Q }.
Record Attitude := { pitch : Q; roll : Q; yaw : Q }.
Record Battery := { voltage : Q; current : Q; remaining : Q }.

Record DroneTelemetryFrame := {
  timestamp : Q;
  position : Position;
  velocity : Velocity;
  attitude : Attitude;
  rotor_speeds : list Q;
  battery : Battery;
  gps_quality : Q;
  signal_strength : Q
}.

Record DroneSimulationMetrics := {
  hover_accuracy : Q;
  altitude_stability : Q;
  battery_efficiency : Q;
  wind_compensation_events : Q;
  max_altitude_deviation : Q;
  avg_rotor_rpm : Q;
  gps_quality_avg : Q
}.

Record DroneFlightPath := {
  waypoints_completed : Q;
  total_distance : Q;
  max_speed : Q;
  avg_speed : Q
}.

Record AirspaceParams := {
  turbulenceIntensity : Q;
  gustProbability : Q;
  positionVariance : Q
}.

Definition airspace_calm : AirspaceParams :=
  {| turbulenceIntensity := 0.1; gustProbability := 0.02; positionVariance := 0.05 |}.

(** [params[condition] || params.calm], for a condition that is not the
    name of an inherited member ([Js.inherited]); for such a name the source
    finds the inherited member, which has none of the three parameters. *)
Definition getAirspaceParams (condition : string) : AirspaceParams :=
  if String.eqb condition "calm" then airspace_calm
  else if String.eqb condition "light_wind" then
    {| turbulenceIntensity := 0.25; gustProbability := 0.08; positionVariance := 0.15 |}
  else if String.eqb condition "gusty" then
    {| turbulenceIntensity := 0.5; gustProbability := 0.2; positionVariance := 0.35 |}
  else if String.eqb condition "turbulent" then
    {| turbulenceIntensity := 0.8; gustProbability := 0.4; positionVariance := 0.6 |}
  else airspace_calm.

Inductive FlightPhase := takeoff | hover | waypoint | land.

Definition hoverRPM : Q := 4500.
Definition maxRPM : Q := 8000.
Definition minRPM : Q := 1000.

Definition startLat : Q := 37.7749.
Definition startLon : Q := - (122.4194).
Definition startAlt : Q := 0.

Record Waypoint := { wp_lat : Q; wp_lon : Q }.

Definition waypoints : list Waypoint :=
  [ {| wp_lat := startLat + 0.0001; wp_lon := startLon + 0.0001 |};
    {| wp_lat := startLat + 0.0002; wp_lon := startLon |};
    {| wp_lat := startLat + 0.0001; wp_lon := startLon - 0.0001 |};
    {| wp_lat := startLat; wp_lon := startLon |} ].

(** The variables that live across frames. *)
Record GenState := {
  g_lat : Q; g_lon : Q; g_alt : Q;
  g_vx : Q; g_vy : Q; g_vz : Q;
  g_pitch : Q; g_roll : Q; g_yaw : Q;
  g_batteryRemaining : Q;
  g_batteryVoltage : Q;
  g_rotorSpeeds : list Q;
  g_currentWaypoint : nat;
  g_frames : list DroneTelemetryFrame
}.

Definition initState : GenState :=
  {| g_lat := startLat; g_lon := startLon; g_alt := startAlt;
     g_vx := 0; g_vy := 0; g_vz := 0;
     g_pitch := 0; g_roll := 0; g_yaw := 0;
     g_batteryRemaining := 100; g_batteryVoltage := 16.8;
     g_rotorSpeeds := [0; 0; 0; 0];
     g_currentWaypoint := 0%nat;
     g_frames := [] |}.

Section WithRuntime.
Context `{JsRuntime}.

(** The flight phase of the time [t]: the comparisons of the loop with the
    ends of the phases, which are products and sums of doubles. *)
Definition phaseOf (durationSeconds t : Q) : FlightPhase :=
  let takeoffDuration := Number_mul durationSeconds 0.15 in
  let hoverDuration := Number_mul durationSeconds 0.25 in
  let waypointDuration := Number_mul durationSeconds 0.4 in
  if ltb t takeoffDuration then takeoff
  else if ltb t (Number_add takeoffDuration hoverDuration) then hover
  else if ltb t (Number_add (Number_add takeoffDuration hoverDuration) waypointDuration)
  then waypoint
  else land.

(** [for (let r = 0; r < 4; r++) rotorSpeeds[r] = value()] where the value
    draws its own noise. *)
Definition setRotors (value : Rand Q) (rotorSpeeds : list Q) : Rand (list Q) :=
  foldM (fun speeds r => v <- value ;; ret (<[r := v]> speeds)) (seq 0 4) rotorSpeeds.

(** The motion of one phase: what the [switch] assigns. *)
Record Motion := {
  m_lat : Q; m_lon : Q; m_alt : Q;
  m_vx : Q; m_vy : Q; m_vz : Q;
  m_rotorSpeeds : list Q;
  m_currentWaypoint : nat
}.

Definition takeoffStep (durationSeconds t dt : Q) (st : GenState) : Rand Motion :=
  let takeoffDuration := durationSeconds * 0.15 in
  let takeoffProgress := t / takeoffDuration in
  let targetAlt := 10 * Math_sin (takeoffProgress * Math_PI / 2) in
  let vz' := (targetAlt - g_alt st) * 2 in
  let alt' := g_alt st + vz' * dt in
  speeds <- setRotors
              (n <- Telemetry.gaussianNoise 0 50 ;;
               ret (clamp (minRPM + (hoverRPM - minRPM) * takeoffProgress + n) minRPM maxRPM))
              (g_rotorSpeeds st) ;;
  ret {| m_lat := g_lat st; m_lon := g_lon st; m_alt := alt';
         m_vx := g_vx st; m_vy := g_vy st; m_vz := vz';
         m_rotorSpeeds := speeds; m_currentWaypoint := g_currentWaypoint st |}.

Definition hoverStep (dt : Q) (st : GenState) : Rand Motion :=
  let hoverTarget := 10 in
  n <- Telemetry.gaussianNoise 0 0.1 ;;
  let vz' := (hoverTarget - g_alt st) * 0.5 + n in
  let alt' := clamp (g_alt st + vz' * dt) 0 50 in
  speeds <- setRotors (n <- Telemetry.gaussianNoise 0 100 ;; ret (hoverRPM + n)) (g_rotorSpeeds st) ;;
  ret {| m_lat := g_lat st; m_lon := g_lon st; m_alt := alt';
         m_vx := g_vx st; m_vy := g_vy st; m_vz := vz';
         m_rotorSpeeds := speeds; m_currentWaypoint := g_currentWaypoint st |}.

Definition waypointStep (dt : Q) (st : GenState) : Rand Motion :=
  (* the index stays below the length of [waypoints] *)
  let wp := match waypoints !! g_currentWaypoint st with
            | Some w => w
            | None => {| wp_lat := startLat; wp_lon := startLon |}
            end in
  let latError := wp_lat wp - g_lat st in
  let lonError := wp_lon wp - g_lon st in
  let dist := Math_sqrt (latError * latError + lonError * lonError) in
  let currentWaypoint' :=
    if (ltb dist 0.00002 && (g_currentWaypoint st <? length waypoints - 1)%nat)%bool
    then S (g_currentWaypoint st) else g_currentWaypoint st in
  let vx' := latError * 50000 in
  let vy' := lonError * 50000 in
  let lat' := g_lat st + vx' * dt * 0.00001 in
  let lon' := g_lon st + vy' * dt * 0.00001 in
  let vz' := (10 - g_alt st) * 0.3 in
  let alt' := clamp (g_alt st + vz' * dt) 0 50 in
  speeds <- setRotors
              (let movementBoost := Math_abs vx' + Math_abs vy' in
               n <- Telemetry.gaussianNoise 0 150 ;;
               ret (clamp (hoverRPM + movementBoost * 10 + n) minRPM maxRPM))
              (g_rotorSpeeds st) ;;
  ret {| m_lat := lat'; m_lon := lon'; m_alt := alt';
         m_vx := vx'; m_vy := vy'; m_vz := vz';
         m_rotorSpeeds := speeds; m_currentWaypoint := currentWaypoint' |}.

Definition landStep (durationSeconds t dt : Q) (st : GenState) : Rand Motion :=
  let landDuration := durationSeconds * 0.2 in
  let landProgress := (t - (durationSeconds - landDuration)) / landDuration in
  let descentRate := - (2) * (1 - landProgress * 0.5) in
  let vz' := descentRate in
  let alt' := clamp (g_alt st + vz' * dt) 0 50 in
  speeds <- setRotors
              (n <- Telemetry.gaussianNoise 0 50 ;;
               ret (clamp (hoverRPM * (1 - landProgress * 0.6) + n)
                          (if gtb alt' 0.5 then minRPM else 0) maxRPM))
              (g_rotorSpeeds st) ;;
  ret {| m_lat := g_lat st; m_lon := g_lon st; m_alt := alt';
         m_vx := g_vx st; m_vy := g_vy st; m_vz := vz';
         m_rotorSpeeds := speeds; m_currentWaypoint := g_currentWaypoint st |}.

(** The body of [for (let i = 0; i < totalSamples; i++)]. *)
Definition frameStep (durationSeconds : Q) (physics : DronePhysicsConfig)
    (airspaceParams : AirspaceParams) (dt : Q) (st : GenState) (i : nat) : Rand GenState :=
  let t := Number_mul (ofNat i) dt in
  mo <- match phaseOf durationSeconds t with
        | takeoff => takeoffStep durationSeconds t dt st
        | hover => hoverStep dt st
        | waypoint => waypointStep dt st
        | land => landStep durationSeconds t dt st
        end ;;
  let windEffect := wind_speed physics * turbulenceIntensity airspaceParams in
  let windAngleRad := wind_direction physics * Math_PI / 180 in
  let lat' := m_lat mo + Math_cos windAngleRad * windEffect * 0.000001 * dt in
  let lon' := m_lon mo + Math_sin windAngleRad * windEffect * 0.000001 * dt in
  g <- Math_random ;;
  let gustActive := ltb g (gustProbability airspaceParams * dt) in
  gust <- (if gustActive then
             nr <- Telemetry.gaussianNoise 0 5 ;;
             np <- Telemetry.gaussianNoise 0 5 ;;
             ret (g_roll st + nr * turbulenceIntensity airspaceParams,
                  g_pitch st + np * turbulenceIntensity airspaceParams)
           else ret (g_roll st, g_pitch st)) ;;
  np <- Telemetry.gaussianNoise 0 0.5 ;;
  let pitch1 := snd gust * 0.95 + np in
  nr <- Telemetry.gaussianNoise 0 0.5 ;;
  let roll1 := fst gust * 0.95 + nr in
  ny <- Telemetry.gaussianNoise 0 0.2 ;;
  let yaw' := g_yaw st + ny in
  let pitch' := clamp pitch1 (- (30)) 30 in
  let roll' := clamp roll1 (- (30)) 30 in
  let powerDrain :=
    0.001 + Math_abs (m_vz mo) * 0.002 + (Math_abs (m_vx mo) + Math_abs (m_vy mo)) * 0.0001 in
  let batteryRemaining' := clamp (g_batteryRemaining st - powerDrain) 0 100 in
  let batteryVoltage' := 14.0 + (batteryRemaining' / 100) * 2.8 in
  let avgRPM := fold_left Qplus (m_rotorSpeeds mo) 0 / 4 in
  let current' := 5 + (avgRPM / hoverRPM) * 15 in
  ng <- Telemetry.gaussianNoise 0 3 ;;
  let gpsQuality := 95 + ng in
  let gpsQuality := if ltb (m_alt mo) 2 then gpsQuality - 10 else gpsQuality in
  let gpsQuality :=
    if String.eqb (airspace_condition physics) "turbulent" then gpsQuality - 5
    else gpsQuality in
  let gpsQuality := clamp gpsQuality 0 100 in
  ns <- Telemetry.gaussianNoise 0 3 ;;
  let signalStrength := - (45) + ns in
  let frame :=
    {| timestamp := Math_round (Number_mul t 1000);
       position := {| lat := toFixed_num 6 lat'; lon := toFixed_num 6 lon';
                      alt := toFixed_num 2 (m_alt mo) |};
       velocity := {| vx := toFixed_num 2 (m_vx mo); vy := toFixed_num 2 (m_vy mo);
                      vz := toFixed_num 2 (m_vz mo) |};
       attitude := {| pitch := toFixed_num 1 pitch'; roll := toFixed_num 1 roll';
                      yaw := toFixed_num 1 yaw' |};
       rotor_speeds := map Math_round (m_rotorSpeeds mo);
       battery := {| voltage := toFixed_num 2 batteryVoltage';
                     current := toFixed_num 1 current';
                     remaining := toFixed_num 1 batteryRemaining' |};
       gps_quality := Math_round gpsQuality;
       signal_strength := Math_round signalStrength |} in
  ret {| g_lat := lat'; g_lon := lon'; g_alt := m_alt mo;
         g_vx := m_vx mo; g_vy := m_vy mo; g_vz := m_vz mo;
         g_pitch := pitch'; g_roll := roll'; g_yaw := yaw';
         g_batteryRemaining := batteryRemaining';
         g_batteryVoltage := batteryVoltage';
         g_rotorSpeeds := m_rotorSpeeds mo;
         g_currentWaypoint := m_currentWaypoint mo;
         g_frames := g_frames st ++ [frame] |}.

Definition generateDroneTelemetryStream (durationSeconds : Q)
    (physics : DronePhysicsConfig) (sampleRateHz : Q) : Rand (list DroneTelemetryFrame) :=
  let dt := Number_div 1 sampleRateHz in
  let airspaceParams := getAirspaceParams (airspace_condition physics) in
  st <- foldM (frameStep durationSeconds physics airspaceParams dt)
          (seq 0 (Telemetry.totalSamples durationSeconds sampleRateHz)) initState ;;
  ret (g_frames st).

End WithRuntime.

(** *** Metrics of a flight *)

Definition zero_metrics : DroneSimulationMetrics :=
  {| hover_accuracy := 0; altitude_stability := 0; battery_efficiency := 0;
     wind_compensation_events := 0; max_altitude_deviation := 0;
     avg_rotor_rpm := 0; gps_quality_avg := 0 |}.

Record Acc := {
  withinThreshold : Q; maxAltDeviation : Q; totalRPM : Q;
  totalGPSQuality : Q; windEvents : Q; prevRoll : Q; prevPitch : Q
}.

Definition metricStep (a : Acc) (frame : DroneTelemetryFrame) : Acc :=
  let hoverAlt := 10 in
  let altDeviation := Math_abs (alt (position frame) - hoverAlt) in
  let rollChange := Math_abs (roll (attitude frame) - prevRoll a) in
  let pitchChange := Math_abs (pitch (attitude frame) - prevPitch a) in
  {| withinThreshold :=
       if ltb altDeviation 0.5 then withinThreshold a + 1 else withinThreshold a;
     maxAltDeviation := Math_max (maxAltDeviation a) altDeviation;
     totalRPM := totalRPM a + fold_left Qplus (rotor_speeds frame) 0 / 4;
     totalGPSQuality := totalGPSQuality a + gps_quality frame;
     windEvents :=
       if (gtb rollChange 3 || gtb pitchChange 3)%bool then windEvents a + 1
       else windEvents a;
     prevRoll := roll (attitude frame);
     prevPitch := pitch (attitude frame) |}.

Definition analyzeDroneTelemetry (frames : list DroneTelemetryFrame)
    : DroneSimulationMetrics :=
  if (length frames =? 0)%nat then zero_metrics else
  match head frames, last frames with
  | Some first, Some final =>
      let n := ofNat (length frames) in
      let a := fold_left metricStep frames
                 {| withinThreshold := 0; maxAltDeviation := 0; totalRPM := 0;
                    totalGPSQuality := 0; windEvents := 0; prevRoll := 0; prevPitch := 0 |} in
      let hoverAccuracy := Math_round ((withinThreshold a / n) * 100) in
      let altitudeStability := Math_round (Math_max 0 (100 - maxAltDeviation a * 10)) in
      let startBattery := remaining (battery first) in
      let endBattery := remaining (battery final) in
      let actualDrain := startBattery - endBattery in
      let theoreticalDrain := (n / 50) * 0.1 in
      let batteryEfficiency :=
        Math_round (Math_min 100 ((theoreticalDrain / Math_max actualDrain 0.1) * 100)) in
      {| hover_accuracy := hoverAccuracy;
         altitude_stability := altitudeStability;
         battery_efficiency := batteryEfficiency;
         wind_compensation_events := Math_min (windEvents a) 10;
         max_altitude_deviation := toFixed_num 2 (maxAltDeviation a);
         avg_rotor_rpm := Math_round (totalRPM a / n);
         gps_quality_avg := Math_round (totalGPSQuality a / n) |}
  | _, _ => zero_metrics
  end.

Definition zero_path : DroneFlightPath :=
  {| waypoints_completed := 0; total_distance := 0; max_speed := 0; avg_speed := 0 |}.

Record PathAcc := { totalDistance : Q; maxSpeed : Q; totalSpeed : Q }.

Section WithRuntime.
Context `{JsRuntime}.

(** The body of [for (let i = 1; i < frames.length; i++)] on
    [prev = frames[i-1]] and [curr = frames[i]]. *)
Definition pathStep (a : PathAcc) (prev curr : DroneTelemetryFrame) : PathAcc :=
  let dx := (lat (position curr) - lat (position prev)) * 111000 in
  let dy := (lon (position curr) - lon (position prev)) * 111000 *
            Math_cos (lat (position curr) * Math_PI / 180) in
  let dz := alt (position curr) - alt (position prev) in
  let dist := Math_sqrt (dx * dx + dy * dy + dz * dz) in
  let speed :=
    Math_sqrt (vx (velocity curr) * vx (velocity curr) +
               vy (velocity curr) * vy (velocity curr) +
               vz (velocity curr) * vz (velocity curr)) in
  {| totalDistance := totalDistance a + dist;
     maxSpeed := Math_max (maxSpeed a) speed;
     totalSpeed := totalSpeed a + speed |}.

Fixpoint pathLoop (a : PathAcc) (prev : DroneTelemetryFrame)
    (rest : list DroneTelemetryFrame) : PathAcc :=
  match rest with
  | [] => a
  | curr :: rest' => pathLoop (pathStep a prev curr) curr rest'
  end.

Definition analyzeDroneFlightPath (frames : list DroneTelemetryFrame) : DroneFlightPath :=
  if (length frames <? 2)%nat then zero_path
  else
    match frames with
    | [] => zero_path
    | first :: rest =>
        let a := pathLoop {| totalDistance := 0; maxSpeed := 0; totalSpeed := 0 |} first rest in
        let w := 0 in
        let w := if gtb (totalDistance a) 10 then w + 1 else w in
        let w := if gtb (totalDistance a) 30 then w + 1 else w in
        let w := if gtb (totalDistance a) 60 then w + 1 else w in
        let w := if gtb (totalDistance a) 100 then w + 1 else w in
        {| waypoints_completed := w;
           total_distance := toFixed_num 1 (totalDistance a);
           max_speed := toFixed_num 1 (maxSpeed a);
           avg_speed := toFixed_num 1 (totalSpeed a / (ofNat (length frames) - 1)) |}
    end.

End WithRuntime.

(** [frames.find((f, i) => i !== 0 && |f.roll - frames[i-1].roll| > 3)] *)
Fixpoint firstWindFrame (prev : DroneTelemetryFrame) (rest : list DroneTelemetryFrame)
    : option DroneTelemetryFrame :=
  match rest with
  | [] => None
  | f :: rest' =>
      if gtb (Math_abs (roll (attitude f) - roll (attitude prev))) 3 then Some f
      else firstWindFrame f rest'
  end.

(** [None]: the source reads [battery] of [frames[frames.length - 1]],
    which throws a [TypeError] on an empty list. *)
Definition generateDroneTelemetrySummary (frames : list DroneTelemetryFrame)
    (metrics : DroneSimulationMetrics) (flightPath : DroneFlightPath) : option string :=
  let parts1 :=
    if (geb (hover_accuracy metrics) 90 && geb (altitude_stability metrics) 90)%bool
    then ["Flight completed."]
    else if geb (hover_accuracy metrics) 70 then ["Flight completed with minor deviations."]
    else ["Flight completed with significant position errors."] in
  let parts2 :=
    parts1 ++ ["Hover stability maintained within " +:+
               toFixed 1 (max_altitude_deviation metrics) +:+ "m."] in
  let parts3 :=
    if gtb (wind_compensation_events metrics) 0 then
      match frames with
      | first :: rest =>
          match firstWindFrame first rest with
          | Some f => parts2 ++ ["Wind compensation active at t=" +:+
                                 toFixed 1 (timestamp f / 1000) +:+ "s."]
          | None => parts2
          end
      | [] => parts2
      end
    else parts2 in
  match last frames with
  | None => None
  | Some final =>
      let finalBattery := remaining (battery final) in
      let parts4 :=
        if ltb finalBattery 20
        then parts3 ++ ["Warning: Low battery (" +:+ toFixed 0 finalBattery +:+ "%)."]
        else parts3 ++ ["Battery consumption nominal."] in
      Some (String.concat " " parts4)
  end.

End Drone.

(** ** [failures.ts]: the quadcopter *)

Module DroneFailures.
Import Drone.
Import Types(Severity, info, warning, error, critical, sev_eqb).

Inductive DroneFailureType :=
| motor_failure | gps_loss | low_battery | signal_lost
| geofence_breach | wind_warning | obstacle_detected | flyaway.

Definition failure_name (t : DroneFailureType) : string :=
  match t with
  | motor_failure => "motor_failure"
  | gps_loss => "gps_loss"
  | low_battery => "low_battery"
  | signal_lost => "signal_lost"
  | geofence_breach => "geofence_breach"
  | wind_warning => "wind_warning"
  | obstacle_detected => "obstacle_detected"
  | flyaway => "flyaway"
  end.

Record DroneFailureScenario := {
  fs_type : DroneFailureType;
  fs_probability : Q;
  fs_severity : Severity;
  fs_message : string;
  fs_affectedComponents : option (list string);
  fs_recoverable : bool
}.

Inductive EventData :=
| GpsData (gps_quality : Q)
| BatteryData (battery_remaining voltage : Q)
| SignalData (signal_strength : Q)
| WindData (roll pitch : Q)
| RotorData (rotor : Q) (variance : Q) (rpm : option Q)
| RollData (roll : Q)
| ComponentsData (affectedComponents : option (list string)).

Record DroneSimulationEvent := {
  ev_timestamp : Q;
  ev_type : string;
  ev_severity : Severity;
  ev_message : string;
  ev_data : option EventData
}.

Definition DRONE_BASE_FAILURE_RATE : Q := 0.08.

Definition modifiers_calm (t : DroneFailureType) : Q :=
  match t with
  | motor_failure => 0.5 | gps_loss => 0.6 | low_battery => 1.0 | signal_lost => 0.7
  | geofence_breach => 0.8 | wind_warning => 0.1 | obstacle_detected => 1.0 | flyaway => 0.3
  end.

Definition getAirspaceModifiers (condition : string) : DroneFailureType -> Q :=
  if String.eqb condition "calm" then modifiers_calm
  else if String.eqb condition "light_wind" then
    fun t => match t with
    | motor_failure => 0.8 | gps_loss => 0.8 | low_battery => 1.2 | signal_lost => 0.9
    | geofence_breach => 1.0 | wind_warning => 0.5 | obstacle_detected => 1.0 | flyaway => 0.5
    end
  else if String.eqb condition "gusty" then
    fun t => match t with
    | motor_failure => 1.2 | gps_loss => 1.0 | low_battery => 1.5 | signal_lost => 1.2
    | geofence_breach => 1.3 | wind_warning => 2.0 | obstacle_detected => 0.8 | flyaway => 1.0
    end
  else if String.eqb condition "turbulent" then
    fun t => match t with
    | motor_failure => 1.8 | gps_loss => 1.3 | low_battery => 2.0 | signal_lost => 1.5
    | geofence_breach => 1.5 | wind_warning => 3.0 | obstacle_detected => 0.6 | flyaway => 1.5
    end
  else modifiers_calm.

(** [DRONE_FAILURE_SCENARIOS[type]] with the [probability] filled in. *)
Definition scenario (t : DroneFailureType) (probability : Q) : DroneFailureScenario :=
  match t with
  | motor_failure =>
      {| fs_type := t; fs_probability := probability; fs_severity := error;
         fs_message := "Motor RPM variance exceeded threshold - degraded performance";
         fs_affectedComponents := Some ["rotor_fr"]%string; fs_recoverable := true |}
  | gps_loss =>
      {| fs_type := t; fs_probability := probability; fs_severity := warning;
         fs_message := "GPS signal degraded - position accuracy reduced";
         fs_affectedComponents := None; fs_recoverable := true |}
  | low_battery =>
      {| fs_type := t; fs_probability := probability; fs_severity := warning;
         fs_message := "Battery level critical - return to home recommended";
         fs_affectedComponents := None; fs_recoverable := true |}
  | signal_lost =>
      {| fs_type := t; fs_probability := probability; fs_severity := error;
         fs_message := "RC link signal strength below threshold";
         fs_affectedComponents := None; fs_recoverable := true |}
  | geofence_breach =>
      {| fs_type := t; fs_probability := probability; fs_severity := warning;
         fs_message := "Approaching operational boundary - course correction initiated";
         fs_affectedComponents := None; fs_recoverable := true |}
  | wind_warning =>
      {| fs_type := t; fs_probability := probability; fs_severity := warning;
         fs_message := "Wind speed exceeding safe operational limits";
         fs_affectedComponents := None; fs_recoverable := true |}
  | obstacle_detected =>
      {| fs_type := t; fs_probability := probability; fs_severity := info;
         fs_message := "Obstacle detected - avoidance maneuver executed";
         fs_affectedComponents := None; fs_recoverable := true |}
  | flyaway =>
      {| fs_type := t; fs_probability := probability; fs_severity := critical;
         fs_message := "Loss of control detected - failsafe triggered";
         fs_affectedComponents := None; fs_recoverable := false |}
  end.

(** [Object.keys(DRONE_FAILURE_SCENARIOS)], in insertion order. *)
Definition failureTypes : list DroneFailureType :=
  [motor_failure; gps_loss; low_battery; signal_lost;
   geofence_breach; wind_warning; obstacle_detected; flyaway].

Definition weightOf (modifiers : DroneFailureType -> Q) (physics : DronePhysicsConfig)
    (flightProgress : Q) (t : DroneFailureType) : Q :=
  let weight := modifiers t in
  let weight := match t with
                | wind_warning => weight * (wind_speed physics / 5)
                | _ => weight end in
  let weight := match t with
                | low_battery => weight * (0.3 + flightProgress)
                | _ => weight end in
  let weight := match t with
                | gps_loss => weight * (1 - flightProgress * 0.3)
                | _ => weight end in
  let weight := match t with
                | flyaway => weight * 0.1
                | _ => weight end in
  weight.

Definition is_critical (e : DroneSimulationEvent) : bool := sev_eqb (ev_severity e) critical.
Definition is_warning_or_error (e : DroneSimulationEvent) : bool :=
  (sev_eqb (ev_severity e) warning || sev_eqb (ev_severity e) error)%bool.

Definition shouldInjectDroneFailure (physics : DronePhysicsConfig) (flightProgress : Q)
    (existingEvents : list DroneSimulationEvent) : Rand (option DroneFailureScenario) :=
  let criticalCount := Loop.count is_critical existingEvents in
  if (0 <? criticalCount)%nat then ret None else
  let warningCount := Loop.count is_warning_or_error existingEvents in
  if (3 <=? warningCount)%nat then ret None else
  gate <- Math_random ;;
  if gtb gate DRONE_BASE_FAILURE_RATE then ret None else
  let airspaceModifiers := getAirspaceModifiers (airspace_condition physics) in
  let weights := map (weightOf airspaceModifiers physics flightProgress) failureTypes in
  let totalWeight := fold_left Qplus weights 0 in
  u <- Math_random ;;
  let random := u * totalWeight in
  ret (match Failures.pick failureTypes weights random with
       | Some (t, w) => Some (scenario t (w / totalWeight))
       | None => None
       end).

(** [Math.max(...l)]: [None] stands for the [-Infinity] of an empty list. *)
Definition max_list (l : list Q) : option Q :=
  match l with
  | [] => None
  | x :: l' => Some (fold_left Math_max l' x)
  end.

(** [l.findIndex(p)]; [None] is the [-1] of a miss. *)
Fixpoint findIndex {A} (p : A -> bool) (l : list A) : option nat :=
  match l with
  | [] => None
  | x :: l' => if p x then Some 0%nat else option_map S (findIndex p l')
  end.

Section WithRuntime.
Context `{JsRuntime}.

Definition gpsEvent (frame : DroneTelemetryFrame) : list DroneSimulationEvent :=
  if ltb (gps_quality frame) 70 then
    [ {| ev_timestamp := timestamp frame; ev_type := "gps_loss";
         ev_severity := if ltb (gps_quality frame) 50 then error else warning;
         ev_message := "GPS quality degraded to " +:+
                       Number_toString (gps_quality frame) +:+ "%";
         ev_data := Some (GpsData (gps_quality frame)) |} ]
  else [].

Definition batteryEvent (frame : DroneTelemetryFrame) : list DroneSimulationEvent :=
  if ltb (remaining (battery frame)) 20 then
    [ {| ev_timestamp := timestamp frame; ev_type := "low_battery";
         ev_severity := if ltb (remaining (battery frame)) 10 then critical else warning;
         ev_message := "Battery critical: " +:+ toFixed 0 (remaining (battery frame)) +:+
                       "% remaining";
         ev_data := Some (BatteryData (remaining (battery frame))
                                      (voltage (battery frame))) |} ]
  else [].

Definition signalEvent (frame : DroneTelemetryFrame) : list DroneSimulationEvent :=
  if ltb (signal_strength frame) (- (70)) then
    [ {| ev_timestamp := timestamp frame; ev_type := "signal_lost"; ev_severity := warning;
         ev_message := "RC signal weak: " +:+ Number_toString (signal_strength frame) +:+
                       "dBm";
         ev_data := Some (SignalData (signal_strength frame)) |} ]
  else [].

Definition windEvent (frame : DroneTelemetryFrame) : list DroneSimulationEvent :=
  if (gtb (Math_abs (roll (attitude frame))) 15 ||
      gtb (Math_abs (pitch (attitude frame))) 15)%bool then
    [ {| ev_timestamp := timestamp frame; ev_type := "wind_warning"; ev_severity := warning;
         ev_message := "Excessive attitude deviation: roll=" +:+
                       toFixed 1 (roll (attitude frame)) +:+ "째, pitch=" +:+
                       toFixed 1 (pitch (attitude frame)) +:+ "째";
         ev_data := Some (WindData (roll (attitude frame)) (pitch (attitude frame))) |} ]
  else [].

Definition rotorEvent (frame : DroneTelemetryFrame) : list DroneSimulationEvent :=
  let avgRPM := fold_left Qplus (rotor_speeds frame) 0 / 4 in
  match max_list (map (fun r => Math_abs (r - avgRPM)) (rotor_speeds frame)) with
  | Some maxVariance =>
      if gtb maxVariance 500 then
        let problemRotor :=
          match findIndex (fun r => eqb (Math_abs (r - avgRPM)) maxVariance)
                          (rotor_speeds frame) with
          | Some i => Z.of_nat i
          | None => (-1)%Z
          end in
        [ {| ev_timestamp := timestamp frame; ev_type := "motor_failure";
             ev_severity := if gtb maxVariance 1000 then error else warning;
             ev_message := "Rotor " +:+ Number_toString (ofZ (problemRotor + 1)) +:+
                           " showing " +:+ toFixed 0 maxVariance +:+ " RPM variance";
             ev_data := Some (RotorData (ofZ problemRotor) maxVariance
                                (rotor_speeds frame !! Z.to_nat problemRotor)) |} ]
      else []
  | None => []
  end.

Definition injectedEvent (frame : DroneTelemetryFrame) (f : DroneFailureScenario)
    : DroneSimulationEvent :=
  {| ev_timestamp := timestamp frame; ev_type := failure_name (fs_type f);
     ev_severity := fs_severity f; ev_message := fs_message f;
     ev_data := Some (ComponentsData (fs_affectedComponents f)) |}.

Definition sampleStep (frames : list DroneTelemetryFrame) (physics : DronePhysicsConfig)
    (i : nat) (events : list DroneSimulationEvent) : Rand (list DroneSimulationEvent) :=
  match frames !! i with
  | None => ret events
  | Some frame =>
      let progress := ofNat i / ofNat (length frames) in
      let events := events ++ gpsEvent frame in
      let events := events ++ batteryEvent frame in
      let events := events ++ signalEvent frame in
      let events := events ++ windEvent frame in
      let events := events ++ rotorEvent frame in
      injectedFailure <- shouldInjectDroneFailure physics progress events ;;
      ret (match injectedFailure with
           | Some f => events ++ [injectedEvent frame f]
           | None => events
           end)
  end.

Definition collectEvents (fuel : nat) (frames : list DroneTelemetryFrame)
    (physics : DronePhysicsConfig) : Rand (option (list DroneSimulationEvent)) :=
  let sampleRate := (length frames / 10)%nat in
  Loop.forFrom fuel (sampleStep frames physics) (length frames) sampleRate sampleRate [].

Definition generateDroneSimulationEvents (fuel : nat) (frames : list DroneTelemetryFrame)
    (physics : DronePhysicsConfig) : Rand (option (list DroneSimulationEvent)) :=
  events <- collectEvents fuel frames physics ;;
  ret (option_map (take 10) events).

End WithRuntime.

Definition shouldDroneSimulationFail (events : list DroneSimulationEvent) : bool :=
  let criticalEvents := List.filter is_critical events in
  (0 <? length criticalEvents)%nat.

Definition recommend (physics : DronePhysicsConfig) (event : DroneSimulationEvent)
    : list string :=
  let ty := ev_type event in
  if String.eqb ty "motor_failure" then
    ["Check motor and ESC connections for affected rotor";
     "Calibrate ESCs to ensure synchronized response"]
  else if String.eqb ty "gps_loss" then
    ["Consider GPS/visual odometry fusion for improved positioning";
     "Avoid flying near structures that cause multipath interference"]
  else if String.eqb ty "low_battery" then
    ["Reduce flight time or use higher capacity battery";
     "Monitor power consumption and optimize flight profile"]
  else if String.eqb ty "signal_lost" then
    ["Check antenna alignment and orientation";
     "Consider using diversity receiver for better coverage"]
  else if String.eqb ty "wind_warning" then
    ["Increase roll PID gains for better wind rejection";
     "Reduce flight altitude in gusty conditions"] ++
    (if gtb (wind_speed physics) 5 then
       ["Consider postponing flight until wind conditions improve"]
     else [])
  else if String.eqb ty "geofence_breach" then
    ["Review and expand geofence boundaries if safe";
     "Enable automatic return-to-home at boundary"]
  else if String.eqb ty "obstacle_detected" then
    ["Verify obstacle avoidance sensor calibration";
     "Increase minimum safe distance parameter"]
  else if String.eqb ty "flyaway" then
    ["Check compass calibration and magnetic interference";
     "Verify failsafe settings are configured correctly";
     "Review flight logs for root cause analysis"]
  else [].

Definition generateDroneRecommendations (events : list DroneSimulationEvent)
    (physics : DronePhysicsConfig) : list string :=
  let recommendations := flat_map (recommend physics) events in
  take 5 (Loop.uniq recommendations).

End DroneFailures.

(** ** [state.ts]: the session store *)

Module Store.
Import Types.

Definition DEFAULT_DRONE_PHYSICS : Drone.DronePhysicsConfig :=
  {| Drone.air_density := 1.225; Drone.wind_speed := 2.0;
     Drone.wind_direction := 180; Drone.airspace_condition := "light_wind" |}.

(** A reference to an object of the heap. *)
Definition loc : Type := nat.

Inductive RunStatus := pending | running | completed | failed.

(** A run record.  [physics_config] and [motor_configs] hold what the
    source assigns to them: references. *)
Record SimulationRun := {
  run_id : string;
  status : RunStatus;
  started_at : Q;
  completed_at : option Q;
  duration_requested : Q;
  duration_actual : option Q;
  physics_config : loc;
  motor_configs : loc;
  telemetry : list TelemetryFrame;
  events : list Failures.SimulationEvent;
  metrics : option SimulationMetrics;
  video_url : option string
}.

Record SessionState := {
  session_id : string;
  created_at : Q;
  last_accessed : Q;
  physics : loc;
  motors : loc;
  runs : list SimulationRun;
  current_run : option SimulationRun
}.

(** The process: the sessions of the store, the heap of the physics
    objects and of the motor [Map]s, the random source and the clock. *)
Record World := {
  sessions : gmap string SessionState;
  physicsHeap : gmap loc PhysicsConfig;
  motorHeap : gmap loc (gmap string MotorParams);
  nextLoc : loc;
  rng : RNG;
  now : Q
}.

Definition Svc (A : Type) : Type := State World A.

Definition liftRand {A} (m : Rand A) : Svc A :=
  fun w => let (a, g) := m (rng w) in
    (a, {| sessions := sessions w; physicsHeap := physicsHeap w; motorHeap := motorHeap w;
           nextLoc := nextLoc w; rng := g; now := now w |}).

Definition Date_now : Svc Q := fun w => (now w, w).

(** [await sleep(ms)]: the clock moves on. *)
Definition sleep (ms : Q) : Svc unit :=
  fun w => (tt, {| sessions := sessions w; physicsHeap := physicsHeap w;
                   motorHeap := motorHeap w; nextLoc := nextLoc w; rng := rng w;
                   now := now w + ms |}).

Definition getSession (sessionId : string) : Svc (option SessionState) :=
  fun w => (sessions w !! sessionId, w).

(** The session object stored under [sessionId] is updated in place. *)
Definition putSession (sessionId : string) (s : SessionState) : Svc unit :=
  fun w => (tt, {| sessions := <[sessionId := s]> (sessions w);
                   physicsHeap := physicsHeap w; motorHeap := motorHeap w;
                   nextLoc := nextLoc w; rng := rng w; now := now w |}).

(** A new physics object. *)
Definition newPhysics (p : PhysicsConfig) : Svc loc :=
  fun w => (nextLoc w,
            {| sessions := sessions w; physicsHeap := <[nextLoc w := p]> (physicsHeap w);
               motorHeap := motorHeap w; nextLoc := S (nextLoc w); rng := rng w;
               now := now w |}).

(** [new Map()] *)
Definition newMotorMap : Svc loc :=
  fun w => (nextLoc w,
            {| sessions := sessions w; physicsHeap := physicsHeap w;
               motorHeap := <[nextLoc w := ∅]> (motorHeap w);
               nextLoc := S (nextLoc w); rng := rng w; now := now w |}).

Definition readPhysics (l : loc) : Svc PhysicsConfig :=
  fun w => (match physicsHeap w !! l with Some p => p | None => DEFAULT_PHYSICS end, w).

Definition readMotorMap (l : loc) : Svc (gmap string MotorParams) :=
  fun w => (match motorHeap w !! l with Some m => m | None => ∅ end, w).

(** [map.set(jointId, v)] on the [Map] at [l]: the object is updated in
    place. *)
Definition motorMapSet (l : loc) (jointId : string) (v : MotorParams) : Svc unit :=
  fun w => (tt, {| sessions := sessions w; physicsHeap := physicsHeap w;
                   motorHeap :=
                     <[l := <[jointId := v]>
                              (match motorHeap w !! l with Some m => m | None => ∅ end)]>
                       (motorHeap w);
                   nextLoc := nextLoc w; rng := rng w; now := now w |}).

(** [{ joint_id: jointId, ...DEFAULT_MOTOR_PARAMS }] *)
Definition defaultMotor (jointId : string) : MotorParams :=
  {| joint_id := Some jointId;
     torque_limit := torque_limit DEFAULT_MOTOR_PARAMS;
     pid_p := pid_p DEFAULT_MOTOR_PARAMS;
     pid_i := pid_i DEFAULT_MOTOR_PARAMS;
     pid_d := pid_d DEFAULT_MOTOR_PARAMS;
     max_velocity := max_velocity DEFAULT_MOTOR_PARAMS |}.

Definition createDefaultSession (sessionId : string) : Svc SessionState :=
  m <- newMotorMap ;;
  _ <- foldM (fun _ jointId => motorMapSet m jointId (defaultMotor jointId))
         HEXAPOD_JOINTS tt ;;
  created <- Date_now ;;
  accessed <- Date_now ;;
  p <- newPhysics DEFAULT_PHYSICS ;;
  ret {| session_id := sessionId; created_at := created; last_accessed := accessed;
         physics := p; motors := m; runs := []; current_run := None |}.

Definition touch (s : SessionState) (t : Q) : SessionState :=
  {| session_id := session_id s; created_at := created_at s; last_accessed := t;
     physics := physics s; motors := motors s; runs := runs s;
     current_run := current_run s |}.

Definition getOrCreate (sessionId : string) : Svc SessionState :=
  existing <- getSession sessionId ;;
  match existing with
  | None =>
      session <- createDefaultSession sessionId ;;
      _ <- putSession sessionId session ;;
      ret session
  | Some session =>
      t <- Date_now ;;
      let session := touch session t in
      _ <- putSession sessionId session ;;
      ret session
  end.

(** [Partial<PhysicsConfig>]: a property is there or not. *)
Record PartialPhysics := {
  p_gravity : option Q;
  p_friction_coefficient : option Q;
  p_terrain_type : option string;
  p_terrain_roughness : option Q
}.

(** One property of [{ ...a, ...b }]: [b]'s when [b] has it. *)
Definition spread {A} (a : A) (b : option A) : A :=
  match b with Some v => v | None => a end.

(** [{ ...old, ...physics }] *)
Definition mergePhysics (old : PhysicsConfig) (physics' : PartialPhysics) : PhysicsConfig :=
  {| gravity := spread (gravity old) (p_gravity physics');
     friction_coefficient :=
       spread (friction_coefficient old) (p_friction_coefficient physics');
     terrain_type := spread (terrain_type old) (p_terrain_type physics');
     terrain_roughness := spread (terrain_roughness old) (p_terrain_roughness physics') |}.

Definition updatePhysics (sessionId : string) (physics' : PartialPhysics)
    : Svc PhysicsConfig :=
  session <- getOrCreate sessionId ;;
  old <- readPhysics (physics session) ;;
  let merged := mergePhysics old physics' in
  p <- newPhysics merged ;;
  _ <- putSession sessionId
         {| session_id := session_id session; created_at := created_at session;
            last_accessed := last_accessed session; physics := p;
            motors := motors session; runs := runs session;
            current_run := current_run session |} ;;
  ret merged.

(** [Partial<MotorParams>] as an object: a property is missing ([None]),
    or there with a value that may be [undefined] ([Some None]). *)
Record PartialMotor := {
  p_torque_limit : option num;
  p_pid_p : option num;
  p_pid_i : option num;
  p_pid_d : option num;
  p_max_velocity : option num
}.

(** [{ ...existing, ...params, joint_id: jointId }] *)
Definition mergeMotor (jointId : string) (existing : MotorParams) (params : PartialMotor)
    : MotorParams :=
  {| joint_id := Some jointId;
     torque_limit := spread (torque_limit existing) (p_torque_limit params);
     pid_p := spread (pid_p existing) (p_pid_p params);
     pid_i := spread (pid_i existing) (p_pid_i params);
     pid_d := spread (pid_d existing) (p_pid_d params);
     max_velocity := spread (max_velocity existing) (p_max_velocity params) |}.

Definition updateMotor (sessionId jointId : string) (params : PartialMotor)
    : Svc MotorParams :=
  session <- getOrCreate sessionId ;;
  m <- readMotorMap (motors session) ;;
  let existing := match m !! jointId with Some e => e | None => defaultMotor jointId end in
  let updated := mergeMotor jointId existing params in
  _ <- motorMapSet (motors session) jointId updated ;;
  ret updated.

(** [l.slice(-10)] *)
Definition last10 {A} (l : list A) : list A := drop (length l - 10) l.

Definition addRun (sessionId : string) (run : SimulationRun) : Svc unit :=
  session <- getOrCreate sessionId ;;
  let runs' := runs session ++ [run] in
  let runs' := if (10 <? length runs')%nat then last10 runs' else runs' in
  putSession sessionId
    {| session_id := session_id session; created_at := created_at session;
       last_accessed := last_accessed session; physics := physics session;
       motors := motors session; runs := runs'; current_run := Some run |}.

(** [get]: a session if it exists, touched. *)
Definition get (sessionId : string) : Svc (option SessionState) :=
  existing <- getSession sessionId ;;
  match existing with
  | Some session =>
      t <- Date_now ;;
      let session := touch session t in
      _ <- putSession sessionId session ;;
      ret (Some session)
  | None => ret None
  end.

Definition getLatestRun (sessionId : string) : Svc (option SimulationRun) :=
  session <- get sessionId ;;
  ret (match session with
       | Some s => match current_run s with
                   | Some r => Some r
                   | None => last (runs s)
                   end
       | None => None
       end).

Definition getRun (sessionId runId : string) : Svc (option SimulationRun) :=
  session <- get sessionId ;;
  ret (match session with
       | Some s => List.find (fun r => String.eqb (run_id r) runId) (runs s)
       | None => None
       end).

(** [delete]: whether there was a session to delete. *)
Definition delete (sessionId : string) : Svc bool :=
  fun w => (match sessions w !! sessionId with Some _ => true | None => false end,
            {| sessions := base.delete sessionId (sessions w);
               physicsHeap := physicsHeap w; motorHeap := motorHeap w;
               nextLoc := nextLoc w; rng := rng w; now := now w |}).

Definition getSessionCount : Svc nat := fun w => (size (sessions w), w).

(** 30 minutes. *)
Definition SESSION_TTL_MS : Q := 30 * 60 * 1000.

(** [now - session.last_accessed > SESSION_TTL_MS] *)
Definition expired (t : Q) (session : SessionState) : bool :=
  gtb (t - last_accessed session) SESSION_TTL_MS.

(** [cleanup]: the loop over the entries of the map deletes the expired
    sessions and counts them.  (The order of the entries does not matter
    to the outcome.) *)
Definition cleanup : Svc nat :=
  t <- Date_now ;;
  fun w =>
    let gone := List.filter (fun entry => expired t (snd entry)) (map_to_list (sessions w)) in
    (length gone,
     {| sessions := foldr base.delete (sessions w) (map fst gone);
        physicsHeap := physicsHeap w; motorHeap := motorHeap w;
        nextLoc := nextLoc w; rng := rng w; now := now w |}).

(** The store of a process that has just started. *)
Definition emptyWorld (g : RNG) (t : Q) : World :=
  {| sessions := ∅; physicsHeap := ∅; motorHeap := ∅; nextLoc := 0%nat;
     rng := g; now := t |}.

(** What a reader of a stored run sees in its [physics_config] and
    [motor_configs] at a given moment. *)
Definition run_physics (w : World) (r : SimulationRun) : option PhysicsConfig :=
  physicsHeap w !! physics_config r.
Definition run_motor (w : World) (r : SimulationRun) (jointId : string)
    : option MotorParams :=
  match motorHeap w !! motor_configs r with
  | Some m => m !! jointId
  | None => None
  end.

End Store.

(** ** [index.ts]: the tools of the simulation service *)

Module Service.
Import Types Store.

Record ToolError := { code : string; err_message : string; recoverable : bool }.

Definition createError (code message : string) (recoverable : bool) : ToolError :=
  {| code := code; err_message := message; recoverable := recoverable |}.

Definition R2_VIDEO_BASE : string := "https://pub-d81bd376745a4ee1b9073461f2c2651d.r2.dev".

Definition R2_VIDEO_MAP : list (string * string) :=
  [ ("drone", R2_VIDEO_BASE +:+ "/uav_scenes.mp4");
    ("uav", R2_VIDEO_BASE +:+ "/uav_scenes.mp4");
    ("quadcopter", R2_VIDEO_BASE +:+ "/uav_scenes.mp4");
    ("aerial", R2_VIDEO_BASE +:+ "/uav_scenes.mp4") ]%string.

Definition getR2VideoUrl (robotType : string) : option string :=
  let key := Str.toLowerCase robotType in
  match List.find (fun e => String.eqb (fst e) key) R2_VIDEO_MAP with
  | Some e => Some (snd e)
  | None =>
      match List.find (fun e => Str.includes (fst e) key) R2_VIDEO_MAP with
      | Some e => Some (snd e)
      | None => None
      end
  end.

(** How a call ends when it ends. *)
Inductive Outcome (A : Type) :=
| Returns (a : A)
| Throws (what : string).
Arguments Returns {A} a.
Arguments Throws {A} what.

Definition randomDelay (minMs maxMs : Q) : Rand Q :=
  u <- Math_random ;;
  ret (Math_floor (u * (maxMs - minMs + 1)) + minMs).

Section WithRuntime.
Context `{JsRuntime}.

(** [`${x}`] for a number that may be [undefined]. *)
Definition show_num (x : num) : string :=
  match x with Some q => Number_toString q | None => "undefined" end.

Definition generateRunId : Svc string :=
  t <- Date_now ;;
  let timestamp := Math_floor (t / 1000) in
  u <- liftRand Math_random ;;
  let random := String.substring 2 4 (Number_toString36 u) in
  ret ("sim_" +:+ Number_toString timestamp +:+ "_" +:+ random).

(** *** [configure_physics] *)

Record ConfigurePhysicsArgs := {
  a_gravity : option Q;
  a_friction_coefficient : option Q;
  a_terrain_type : option string
}.

Inductive ConfigureStatus := cfg_success | cfg_partial | cfg_failed.

Record ConfigurePhysicsResult := {
  cfg_status : ConfigureStatus;
  cfg_message : string;
  applied_config : PhysicsConfig;
  warnings : option (list string)
}.

Definition known_terrain (t : string) : bool :=
  existsb (String.eqb t) ["sand"; "concrete"; "grass"; "gravel"]%string.

Definition configurePhysics (sessionId : string) (args : ConfigurePhysicsArgs)
    : Svc ConfigurePhysicsResult :=
  d <- liftRand (randomDelay 300 700) ;;
  _ <- sleep d ;;
  let '(friction, warnings1) :=
    match a_friction_coefficient args with
    | Some f =>
        if (ltb f 0 || gtb f 1)%bool
        then (Some (Math_max 0 (Math_min 1 f)),
              ["friction_coefficient clamped to valid range [0, 1]"]%string)
        else (Some f, [])
    | None => (None, [])
    end in
  let '(terrain, warnings2) :=
    match a_terrain_type args with
    | Some t =>
        if (negb (String.eqb t "") && negb (known_terrain t))%bool
        then (Some "concrete"%string,
              warnings1 ++ ["Unknown terrain type, defaulting to concrete"]%string)
        else (Some t, warnings1)
    | None => (None, warnings1)
    end in
  physics <- updatePhysics sessionId
               {| p_gravity := a_gravity args; p_friction_coefficient := friction;
                  p_terrain_type := terrain; p_terrain_roughness := None |} ;;
  ret {| cfg_status := if (0 <? length warnings2)%nat then cfg_partial else cfg_success;
         cfg_message :=
           "Physics configuration updated. Terrain=" +:+ terrain_type physics +:+
           ", Friction=" +:+ Number_toString (friction_coefficient physics) +:+
           ", Gravity=" +:+ Number_toString (gravity physics) +:+ "m/s²";
         applied_config := physics;
         warnings := if (0 <? length warnings2)%nat then Some warnings2 else None |}.

(** *** [update_motor_params] *)

Record UpdateMotorArgs := {
  a_joint_id : option string;
  a_torque_limit : option Q;
  a_pid_p : option Q;
  a_pid_i : option Q;
  a_pid_d : option Q
}.

Record UpdateMotorResult := {
  um_message : string;
  um_joint_id : string;
  applied_params : MotorParams
}.

(** The object literal handed to the store has the four properties
    whatever the arguments: a missing argument is a property holding
    [undefined]. *)
Definition updateMotorParams (sessionId : string) (args : UpdateMotorArgs)
    : Svc (ToolError + UpdateMotorResult) :=
  d <- liftRand (randomDelay 200 400) ;;
  _ <- sleep d ;;
  match a_joint_id args with
  | Some jointId =>
      if String.eqb jointId "" then
        ret (inl (createError "MISSING_PARAM" "joint_id is required" true))
      else
        motor <- updateMotor sessionId jointId
                   {| p_torque_limit := Some (a_torque_limit args);
                      p_pid_p := Some (a_pid_p args);
                      p_pid_i := Some (a_pid_i args);
                      p_pid_d := Some (a_pid_d args);
                      p_max_velocity := None |} ;;
        ret (inr {| um_message :=
                      "Motor " +:+ jointId +:+ " parameters updated. P=" +:+
                      show_num (pid_p motor) +:+ ", I=" +:+ show_num (pid_i motor) +:+
                      ", D=" +:+ show_num (pid_d motor) +:+ ", Torque=" +:+
                      show_num (torque_limit motor) +:+ "Nm";
                    um_joint_id := jointId;
                    applied_params := motor |})
  | None => ret (inl (createError "MISSING_PARAM" "joint_id is required" true))
  end.

(** *** [run_simulation], the ground robot *)

Record RunSimulationArgs := {
  a_duration_seconds : option Q;
  a_robot_type : option string;
  a_wind_speed : option Q;
  a_airspace_condition : option string
}.

Inductive ResultStatus := res_completed | res_failed | res_interrupted.

Record RunSimulationResult := {
  res_run_id : string;
  res_status : ResultStatus;
  telemetry_summary : string;
  res_video_url : string;
  res_duration_actual : Q;
  res_metrics : SimulationMetrics;
  events_summary : option (list string)
}.

(** [x || d] for an optional string. *)
Definition or_string (x : option string) (d : string) : string :=
  match x with Some s => if String.eqb s "" then d else s | None => d end.

(** [x || d] for an optional number. *)
Definition or_number (x : option Q) (d : Q) : Q :=
  match x with Some q => if eqb q 0 then d else q | None => d end.

Definition isDrone (args : RunSimulationArgs) : bool :=
  let robotType := Str.toLowerCase (or_string (a_robot_type args) "") in
  (Str.includes "drone" robotType || Str.includes "uav" robotType ||
   Str.includes "quadcopter" robotType || Str.includes "aerial" robotType)%bool.

Definition eventLine (sev : Severity) (message : string) (timestamp : Q) : string :=
  "[" +:+ sev_upper sev +:+ "] " +:+ message +:+ " at t=" +:+
  toFixed 1 (timestamp / 1000) +:+ "s".

Record DroneRunSimulationResult := {
  dres_run_id : string;
  dres_status : ResultStatus;
  dres_telemetry_summary : string;
  dres_video_url : string;
  dres_duration_actual : Q;
  dres_metrics : Drone.DroneSimulationMetrics;
  flight_path : Drone.DroneFlightPath;
  dres_events_summary : option (list string)
}.

(** [runDroneSimulation].  [None]: the sampling loop of the event
    generator did not finish within the fuel. *)
Definition runDroneSimulation (fuel : nat) (sessionId : string)
    (args : RunSimulationArgs) : Svc (option (Outcome DroneRunSimulationResult)) :=
  delay <- liftRand (randomDelay 2000 4000) ;;
  _ <- sleep delay ;;
  let duration := or_number (a_duration_seconds args) 30 in
  t <- Date_now ;;
  u0 <- liftRand Math_random ;;
  let runId := "flight_" +:+ Number_toString (Math_floor (t / 1000)) +:+ "_" +:+
               String.substring 2 4 (Number_toString36 u0) in
  let dronePhysics :=
    {| Drone.air_density := Drone.air_density DEFAULT_DRONE_PHYSICS;
       Drone.wind_speed :=
         match a_wind_speed args with
         | Some v => v
         | None => Drone.wind_speed DEFAULT_DRONE_PHYSICS
         end;
       Drone.wind_direction := Drone.wind_direction DEFAULT_DRONE_PHYSICS;
       Drone.airspace_condition :=
         or_string (a_airspace_condition args)
                   (Drone.airspace_condition DEFAULT_DRONE_PHYSICS) |} in
  telemetry <- liftRand (Drone.generateDroneTelemetryStream duration dronePhysics 50) ;;
  let metrics := Drone.analyzeDroneTelemetry telemetry in
  let flightPath := Drone.analyzeDroneFlightPath telemetry in
  events <- liftRand (DroneFailures.generateDroneSimulationEvents fuel telemetry
                        dronePhysics) ;;
  match events with
  | None => ret None
  | Some events =>
      let failed := DroneFailures.shouldDroneSimulationFail events in
      match Drone.generateDroneTelemetrySummary telemetry metrics flightPath with
      | None => ret (Some (Throws "TypeError"))
      | Some telemetrySummary =>
          let r2VideoUrl := R2_VIDEO_BASE +:+ "/uav_scenes.mp4" in
          let videoUrl :=
            or_string (Some r2VideoUrl)
                      ("https://picsum.photos/800/450?grayscale&random=" +:+ runId) in
          let eventsSummary :=
            if (0 <? length events)%nat then
              Some (map (fun e => eventLine (DroneFailures.ev_severity e)
                                            (DroneFailures.ev_message e)
                                            (DroneFailures.ev_timestamp e))
                        (take 3 events))
            else None in
          u <- liftRand Math_random ;;
          ret (Some (Returns
                 {| dres_run_id := runId;
                    dres_status := if failed then res_failed else res_completed;
                    dres_telemetry_summary := telemetrySummary;
                    dres_video_url := videoUrl;
                    dres_duration_actual := duration + u * 0.5;
                    dres_metrics := metrics;
                    flight_path := flightPath;
                    dres_events_summary := eventsSummary |}))
      end
  end.

(** The ground pipeline of [runSimulation] (the branch taken when
    [isDrone] is false).  [None]: the sampling loop of the event
    generator did not finish within the fuel. *)
Definition runGroundSimulation (fuel : nat) (sessionId : string)
    (args : RunSimulationArgs) : Svc (option RunSimulationResult) :=
  delay <- liftRand (randomDelay 2000 4500) ;;
  _ <- sleep delay ;;
  session <- getOrCreate sessionId ;;
  let duration := or_number (a_duration_seconds args) 5 in
  runId <- generateRunId ;;
  physics <- readPhysics (Store.physics session) ;;
  motors <- readMotorMap (Store.motors session) ;;
  telemetry <- liftRand (Telemetry.generateTelemetryStream duration physics motors 50) ;;
  let metrics := Analysis.analyzeTelemetry telemetry in
  events <- liftRand (Failures.generateSimulationEvents fuel telemetry physics) ;;
  match events with
  | None => ret None
  | Some events =>
      let failed := Failures.shouldSimulationFail events in
      let robotTypeForVideo := Str.toLowerCase (or_string (a_robot_type args) "hexapod") in
      let r2VideoUrl := getR2VideoUrl robotTypeForVideo in
      let videoUrl :=
        or_string r2VideoUrl ("https://picsum.photos/800/450?grayscale&random=" +:+ runId) in
      t1 <- Date_now ;;
      t2 <- Date_now ;;
      u <- liftRand Math_random ;;
      let run :=
        {| run_id := runId;
           status := if failed then Store.failed else Store.completed;
           started_at := t1 - delay;
           completed_at := Some t2;
           duration_requested := duration;
           duration_actual := Some (duration + u * 0.5);
           physics_config := Store.physics session;
           motor_configs := Store.motors session;
           telemetry := telemetry;
           events := events;
           metrics := Some metrics;
           video_url := r2VideoUrl |} in
      _ <- addRun sessionId run ;;
      let telemetrySummary := Analysis.generateTelemetrySummary telemetry metrics in
      let eventsSummary :=
        if (0 <? length events)%nat then
          Some (map (fun e => eventLine (Failures.ev_severity e) (Failures.ev_message e)
                                        (Failures.ev_timestamp e))
                    (take 3 events))
        else None in
      ret (Some {| res_run_id := runId;
                   res_status := if failed then res_failed else res_completed;
                   telemetry_summary := telemetrySummary;
                   res_video_url := videoUrl;
                   res_duration_actual := duration + u * 0.5;
                   res_metrics := metrics;
                   events_summary := eventsSummary |})
  end.

(** [runSimulation]: the aerial pipeline for a drone, the ground pipeline
    otherwise. *)
Definition runSimulation (fuel : nat) (sessionId : string) (args : RunSimulationArgs)
    : Svc (option (Outcome (RunSimulationResult + DroneRunSimulationResult))) :=
  if isDrone args then
    r <- runDroneSimulation fuel sessionId args ;;
    ret (match r with
         | Some (Returns d) => Some (Returns (inr d))
         | Some (Throws e) => Some (Throws e)
         | None => None
         end)
  else
    r <- runGroundSimulation fuel sessionId args ;;
    ret (option_map (fun g => Returns (inl g)) r).

(** *** [analyze_simulation_video] *)

Record AnalyzeVideoArgs := {
  a_run_id : option string;
  a_focus_area : option string;
  av_robot_type : option string
}.

Record FrameAnnotation := {
  fa_frame : Q;
  fa_annotation : string;
  fa_confidence : Q
}.

Record AnalyzeVideoResult := {
  av_analysis : string;
  av_findings : list string;
  av_recommendations : list string;
  av_confidence : Q;
  av_video_url : option string;
  frame_annotations : option (list FrameAnnotation)
}.

(** Whether an optional string is truthy. *)
Definition given (x : option string) : bool :=
  match x with Some s => negb (String.eqb s "") | None => false end.

(** [event.data?.roll] and the like: the property of the data of an event,
    [None] when the data does not have it. *)
Definition data_roll (d : option DroneFailures.EventData) : option Q :=
  match d with
  | Some (DroneFailures.WindData roll _) => Some roll
  | Some (DroneFailures.RollData roll) => Some roll
  | _ => None
  end.
Definition data_variance (d : option DroneFailures.EventData) : option Q :=
  match d with Some (DroneFailures.RotorData _ variance _) => Some variance | _ => None end.
Definition data_battery_remaining (d : option DroneFailures.EventData) : option Q :=
  match d with Some (DroneFailures.BatteryData remaining _) => Some remaining | _ => None end.
Definition data_signal_strength (d : option DroneFailures.EventData) : option Q :=
  match d with Some (DroneFailures.SignalData strength) => Some strength | _ => None end.
Definition data_leg (d : option Failures.EventData) : option string :=
  match d with Some (Failures.SlipData leg _) => Some leg | _ => None end.
Definition data_pitch (d : option Failures.EventData) : option Q :=
  match d with Some (Failures.AttitudeData pitch _) => Some pitch | _ => None end.

(** [x?.toFixed(0) || d] *)
Definition toFixed0_or (x : option Q) (d : string) : string :=
  match x with Some q => or_string (Some (toFixed 0 q)) d | None => d end.

(** What the findings and the annotations of the frames are after an
    event. *)
Record Notes := {
  notes_findings : list string;
  notes_annotations : list FrameAnnotation
}.

(** The end of the body of the loops over the events: an annotation that is
    not empty is recorded with a confidence drawn at random. *)
Definition annotate (frameNum : Q) (annotation : string) (spread : Q)
    (findings : list string) (annotations : list FrameAnnotation) : Rand Notes :=
  if String.eqb annotation "" then
    ret {| notes_findings := findings; notes_annotations := annotations |}
  else
    u <- Math_random ;;
    ret {| notes_findings := findings;
           notes_annotations :=
             annotations ++ [ {| fa_frame := frameNum; fa_annotation := annotation;
                                 fa_confidence := 0.85 + u * spread |} ] |}.

Definition droneEventStep (notes : Notes) (event : DroneFailures.DroneSimulationEvent)
    : Rand Notes :=
  let frameNum := Math_floor (DroneFailures.ev_timestamp event / 20) in
  let ty := DroneFailures.ev_type event in
  let data := DroneFailures.ev_data event in
  let findings := notes_findings notes in
  let '(annotation, findings) :=
    if String.eqb ty "wind_warning" then
      let annotation :=
        "Wind gust detected - " +:+ toFixed 0 (Math_abs (or_number (data_roll data) 15)) +:+
        "° roll compensation initiated" in
      (annotation, findings ++ ["Frame " +:+ Number_toString frameNum +:+ ": " +:+ annotation])
    else if String.eqb ty "motor_failure" then
      let annotation :=
        "Rotor showing " +:+ toFixed0_or (data_variance data) "3" +:+ "% RPM variance" in
      (annotation,
       findings ++ ["Frame " +:+ Number_toString frameNum +:+ "-" +:+
                    Number_toString (frameNum + 18) +:+ ": " +:+ annotation +:+
                    " (within tolerance)"])
    else if String.eqb ty "gps_loss" then
      let annotation := "GPS multipath interference detected" in
      (annotation,
       findings ++ ["Frame " +:+ Number_toString frameNum +:+ ": " +:+ annotation +:+
                    " caused position jump"])
    else if String.eqb ty "low_battery" then
      ("",
       findings ++ ["Frame " +:+ Number_toString frameNum +:+ ": Battery warning - " +:+
                    toFixed0_or (data_battery_remaining data) "15" +:+ "% remaining"])
    else if String.eqb ty "signal_lost" then
      ("",
       findings ++ ["Frame " +:+ Number_toString frameNum +:+ ": RC signal degradation to " +:+
                    match data_signal_strength data with
                    | Some q => if eqb q 0 then "-70" else Number_toString q
                    | None => "-70"
                    end +:+ "dBm"])
    else ("", findings) in
  annotate frameNum annotation 0.12 findings (notes_annotations notes).

(** [analyzeDroneSimulationVideo] *)
Definition analyzeDroneSimulationVideo (sessionId : string) (args : AnalyzeVideoArgs)
    (events : list DroneFailures.DroneSimulationEvent)
    (dronePhysics : Drone.DronePhysicsConfig) : Svc AnalyzeVideoResult :=
  delay <- liftRand (randomDelay 1500 2800) ;;
  _ <- sleep delay ;;
  notes <- liftRand (foldM droneEventStep events
                       {| notes_findings := []; notes_annotations := [] |}) ;;
  let '(findings, frameAnnotations) :=
    if (length (notes_findings notes) <? 3)%nat then
      (notes_findings notes ++
         ["Frame 2100: Descent rate exceeded 2m/s during landing approach"],
       notes_annotations notes ++
         [ {| fa_frame := 2100; fa_annotation := "Fast descent warning";
              fa_confidence := 0.92 |} ])
    else (notes_findings notes, notes_annotations notes) in
  let recommendations := DroneFailures.generateDroneRecommendations events dronePhysics in
  let recommendations :=
    if (length recommendations =? 0)%nat then
      recommendations ++
        ["Current flight parameters appear nominal";
         "Consider testing in higher wind conditions to verify stability margins"]
    else recommendations in
  let recommendations :=
    if negb (existsb (Str.includes "landing") recommendations) then
      recommendations ++
        ["Reduce landing descent rate to < 1.5m/s for smoother touchdown"]
    else recommendations in
  u <- liftRand Math_random ;;
  ret {| av_analysis :=
           "Visual analysis of flight " +:+ Analysis.show_opt (a_run_id args) +:+
           " complete. Analyzed " +:+
           Number_toString
             (Math_floor ((if given (a_focus_area args) then 30 else 45) * 50)) +:+
           " frames over " +:+ (if given (a_focus_area args) then "30.0" else "45.2") +:+
           "s.";
         av_findings := take 5 findings;
         av_recommendations := take 4 recommendations;
         av_confidence := 0.88 + u * 0.08;
         av_video_url := Some (R2_VIDEO_BASE +:+ "/uav_scenes.mp4");
         frame_annotations :=
           if (0 <? length frameAnnotations)%nat then Some (take 5 frameAnnotations)
           else None |}.

Definition groundEventStep (notes : Notes) (event : Failures.SimulationEvent)
    : Rand Notes :=
  let frameNum := Math_floor (Failures.ev_timestamp event / 20) in
  let ty := Failures.ev_type event in
  let data := Failures.ev_data event in
  let findings := notes_findings notes in
  let '(annotation, findings) :=
    if String.eqb ty "slip" then
      let annotation :=
        "Slippage detected on " +:+ or_string (data_leg data) "front-left" +:+ " tarsus" in
      (annotation,
       findings ++ ["Frame " +:+ Number_toString frameNum +:+ ": " +:+ annotation +:+
                    " (confidence: 0.94)"])
    else if (String.eqb ty "stability_warning" || String.eqb ty "rollover")%bool then
      let annotation :=
        "Body pitch exceeded " +:+
        toFixed 0 (Math_abs (or_number (data_pitch data) 15)) +:+ "°" in
      (annotation,
       findings ++ ["Frame " +:+ Number_toString frameNum +:+ "-" +:+
                    Number_toString (frameNum + 20) +:+ ": " +:+ annotation +:+
                    " during recovery"])
    else if String.eqb ty "gait_mismatch" then
      let annotation := "Gait phase lag detected" in
      (annotation,
       findings ++ ["Frame " +:+ Number_toString frameNum +:+ ": " +:+ annotation +:+
                    " between leg_2 and leg_5 (Δ=45ms)"])
    else if String.eqb ty "overheat" then
      ("",
       findings ++ ["Frame " +:+ Number_toString frameNum +:+
                    ": Thermal signature indicates motor stress"])
    else ("", findings) in
  annotate frameNum annotation 0.1 findings (notes_annotations notes).

(** The events that [analyzeSimulationVideo] hands to the analysis of a
    flight. *)
Definition mockEvents : list DroneFailures.DroneSimulationEvent :=
  [ {| DroneFailures.ev_timestamp := 12400; DroneFailures.ev_type := "wind_warning";
       DroneFailures.ev_severity := warning;
       DroneFailures.ev_message := "Wind compensation active";
       DroneFailures.ev_data := Some (DroneFailures.RollData 15) |};
    {| DroneFailures.ev_timestamp := 17840; DroneFailures.ev_type := "motor_failure";
       DroneFailures.ev_severity := warning;
       DroneFailures.ev_message := "Rotor variance detected";
       DroneFailures.ev_data := Some (DroneFailures.RotorData 1 3 None) |};
    {| DroneFailures.ev_timestamp := 29000; DroneFailures.ev_type := "gps_loss";
       DroneFailures.ev_severity := warning;
       DroneFailures.ev_message := "GPS quality degraded";
       DroneFailures.ev_data := Some (DroneFailures.GpsData 65) |} ].

Definition isDroneAnalysis (args : AnalyzeVideoArgs) : bool :=
  let runId := or_string (a_run_id args) "" in
  let robotType := Str.toLowerCase (or_string (av_robot_type args) "") in
  (String.prefix "flight_" runId ||
   Str.includes "drone" robotType || Str.includes "uav" robotType ||
   Str.includes "quadcopter" robotType || Str.includes "aerial" robotType)%bool.

(** [analyzeSimulationVideo] *)
Definition analyzeSimulationVideo (sessionId : string) (args : AnalyzeVideoArgs)
    : Svc AnalyzeVideoResult :=
  if isDroneAnalysis args then
    analyzeDroneSimulationVideo sessionId args mockEvents DEFAULT_DRONE_PHYSICS
  else
    delay <- liftRand (randomDelay 1500 2800) ;;
    _ <- sleep delay ;;
    run <- match a_run_id args with
           | Some runId => getRun sessionId runId
           | None => _ <- get sessionId ;; ret None
           end ;;
    run <- match run with
           | Some r => ret (Some r)
           | None => getLatestRun sessionId
           end ;;
    session <- getOrCreate sessionId ;;
    match run with
    | None =>
        ret {| av_analysis :=
                 "Visual analysis requested for run " +:+ Analysis.show_opt (a_run_id args) +:+
                 ", but no simulation data found.";
               av_findings := ["No telemetry data available for analysis"];
               av_recommendations := ["Run a simulation first using run_simulation tool"];
               av_confidence := 0.5;
               av_video_url := None;
               frame_annotations := None |}
    | Some run =>
        notes <- liftRand (foldM groundEventStep (events run)
                             {| notes_findings := []; notes_annotations := [] |}) ;;
        let findings := notes_findings notes in
        let frameAnnotations := notes_annotations notes in
        let findings :=
          if (length findings =? 0)%nat then
            findings ++
              ["Gait cycle appears nominal";
               "Average stability maintained at " +:+
               Number_toString
                 (or_number (option_map stability_score (metrics run)) 85) +:+ "%"]
          else findings in
        let findings :=
          match a_focus_area args with
          | Some area =>
              if String.eqb area "" then findings
              else findings ++
                     ["Detailed analysis of " +:+ area +:+
                      ": No anomalies detected in specified region"]
          | None => findings
          end in
        physics <- readPhysics (Store.physics session) ;;
        let recommendations := Failures.generateRecommendations (events run) physics in
        let recommendations :=
          if (length recommendations =? 0)%nat then
            recommendations ++
              ["Current parameters appear optimal for this terrain";
               "Consider testing at higher speeds to verify stability margins"]
          else recommendations in
        u <- liftRand Math_random ;;
        ret {| av_analysis :=
                 "Visual analysis of run " +:+ Analysis.show_opt (a_run_id args) +:+
                 " complete. Analyzed " +:+ Number_toString (ofNat (length (telemetry run))) +:+
                 " frames over " +:+
                 match duration_actual run with
                 | Some d => toFixed 2 d
                 | None => "undefined"
                 end +:+ "s.";
               av_findings := take 5 findings;
               av_recommendations := take 3 recommendations;
               av_confidence := 0.88 + u * 0.1;
               av_video_url := video_url run;
               frame_annotations :=
                 if (0 <? length frameAnnotations)%nat then Some (take 5 frameAnnotations)
                 else None |}
    end.

End WithRuntime.
End Service.

(** ** A reference runtime

    Rational approximations of the functions of [Math], good to about
    twelve decimal places on the arguments used here, simple number
    printers, and the products, quotients and sums of doubles, rounded as
    IEEE 754 rounds them.  The properties below are proved for every
    runtime; this one serves to run the embedding on concrete inputs. *)

Module RefRuntime.

(** The double nearest to a rational, ties going to the even significand:
    53 bits of significand, and units no smaller than [2^-1074].  The
    rationals beyond the largest double have no place in the model. *)
Definition toDouble (x : Q) : Q :=
  let n := Z.abs (Qnum x) in
  let d := Zpos (Qden x) in
  if (n =? 0)%Z then 0
  else
    let k := (Z.log2 n - Z.log2 d)%Z in
    let e := if (if (0 <=? k)%Z then (d * 2 ^ k <=? n)%Z else (d <=? n * 2 ^ (- k))%Z)
             then k else (k - 1)%Z in
    let u := Z.max (e - 52) (- 1074) in
    let num := if (u <=? 0)%Z then (n * 2 ^ (- u))%Z else n in
    let den := if (u <=? 0)%Z then d else (d * 2 ^ u)%Z in
    let q := (num / den)%Z in
    let r := (num mod den)%Z in
    let m := if (2 * r <? den)%Z then q
             else if (den <? 2 * r)%Z then (q + 1)%Z
             else if Z.even q then q else (q + 1)%Z in
    let m := if (Qnum x <? 0)%Z then (- m)%Z else m in
    Qred (if (u <=? 0)%Z then ofZ m / ofZ (2 ^ (- u)) else ofZ m * ofZ (2 ^ u)).

(** The operations on the doubles nearest to the operands. *)
Definition mul (a b : Q) : Q := toDouble (toDouble a * toDouble b).
Definition div (a b : Q) : Q := toDouble (toDouble a / toDouble b).
Definition add (a b : Q) : Q := toDouble (toDouble a + toDouble b).

(** An integer of no more than 53 bits is a double. *)
Lemma toDouble_integer (z : Z) : (Z.abs z < 2 ^ 53)%Z -> toDouble (inject_Z z) = inject_Z z.
Proof.
  intros Hz. unfold toDouble. cbn [Qnum Qden inject_Z].
  destruct (Z.abs z =? 0)%Z eqn:E0.
  - apply Z.eqb_eq in E0. assert (z = 0%Z) as -> by lia. reflexivity.
  - apply Z.eqb_neq in E0.
    change (Z.log2 1) with 0%Z. rewrite Z.sub_0_r.
    assert (0 < Z.abs z)%Z as Hpos by lia.
    pose proof (Z.log2_nonneg (Z.abs z)) as Hk0.
    pose proof (Z.log2_spec _ Hpos) as [Hlo Hhi].
    assert (Z.log2 (Z.abs z) < 53)%Z as Hk by (apply Z.log2_lt_pow2; lia).
    assert ((0 <=? Z.log2 (Z.abs z)) = true)%Z as -> by (apply Z.leb_le; lia).
    assert ((1 * 2 ^ Z.log2 (Z.abs z) <=? Z.abs z) = true)%Z as -> by (apply Z.leb_le; lia).
    assert (Z.max (Z.log2 (Z.abs z) - 52) (- 1074) = Z.log2 (Z.abs z) - 52)%Z as -> by lia.
    assert ((Z.log2 (Z.abs z) - 52 <=? 0) = true)%Z as -> by (apply Z.leb_le; lia).
    set (j := (- (Z.log2 (Z.abs z) - 52))%Z).
    assert (0 < 2 ^ j)%Z as Hj by (apply Z.pow_pos_nonneg; lia).
    rewrite Z.div_1_r, Z.mod_1_r. change (2 * 0 <? 1)%Z with true. cbv iota.
    transitivity (Qred (inject_Z z));
      [apply Qred_complete | apply Qred_identity, Z.gcd_1_r].
    unfold ofZ.
    assert (~ inject_Z (2 ^ j) == 0) as Hne by (unfold Qeq; cbn; lia).
    destruct (z <? 0)%Z eqn:Es.
    + apply Z.ltb_lt in Es.
      replace (- (Z.abs z * 2 ^ j))%Z with (z * 2 ^ j)%Z by lia.
      rewrite inject_Z_mult. field. exact Hne.
    + apply Z.ltb_ge in Es.
      replace (Z.abs z * 2 ^ j)%Z with (z * 2 ^ j)%Z by lia.
      rewrite inject_Z_mult. field. exact Hne.
Qed.

Lemma mul_integers (a b : Z) :
  (Z.abs a < 2 ^ 53)%Z -> (Z.abs b < 2 ^ 53)%Z -> (Z.abs (a * b) < 2 ^ 53)%Z ->
  mul (inject_Z a) (inject_Z b) == inject_Z (a * b).
Proof.
  intros Ha Hb Hab. unfold mul. rewrite (toDouble_integer a Ha), (toDouble_integer b Hb).
  change (inject_Z a * inject_Z b) with (inject_Z (a * b)).
  now rewrite (toDouble_integer (a * b) Hab).
Qed.

(** Truncation of a rational to eighteen decimal places. *)
Definition chop (x : Q) : Q := Qred (ofZ (Qfloor (x * ofZ (10 ^ 18))) / ofZ (10 ^ 18)).

Definition PI : Q := 3.141592653589793.
Definition LN2 : Q := 0.693147180559945309.

Definition sqrt (x : Q) : Q :=
  let n := Qnum x in
  let d := Zpos (Qden x) in
  if (n <=? 0)%Z then 0
  else Qred (ofZ (Z.sqrt (n * d * 10 ^ 24)) / ofZ (d * 10 ^ 12)).

(** [term_0 + term_1 + ...], each term built from the previous one by
    [step]. *)
Fixpoint series (terms : nat) (term : Q) (step : nat -> Q -> Q) (k : nat) (acc : Q) : Q :=
  match terms with
  | O => acc
  | S terms' => series terms' (chop (step k term)) step (S k) (acc + term)
  end.

(** [ln x = e * ln 2 + 2 * atanh y] with [x = m * 2^e] and
    [y = (m - 1) / (m + 1)]; [atanh y] is the sum of [y^(2k+1) / (2k+1)]. *)
Definition log (x : Q) : Q :=
  let n := Qnum x in
  let d := Zpos (Qden x) in
  if (n <=? 0)%Z then 0
  else
    let e := (Z.log2 n - Z.log2 d)%Z in
    let m := if (0 <=? e)%Z then x / ofZ (2 ^ e) else x * ofZ (2 ^ (- e)) in
    let y := chop ((m - 1) / (m + 1)) in
    let y2 := chop (y * y) in
    let atanh :=
      snd (fold_left (fun '(p, acc) k => (chop (p * y2), acc + p / ofNat (2 * k + 1)))
                     (seq 0 24) (y, 0)) in
    Qred (chop (ofZ e * LN2 + 2 * atanh)).

Definition cos (x : Q) : Q :=
  let r := chop (rem x (2 * PI)) in
  let r2 := chop (r * r) in
  Qred (chop (series 28 1 (fun k t => - (t * r2) / ofNat ((2 * k + 1) * (2 * k + 2))) 0 0)).

Definition sin (x : Q) : Q :=
  let r := chop (rem x (2 * PI)) in
  let r2 := chop (r * r) in
  Qred (chop (series 28 r (fun k t => - (t * r2) / ofNat ((2 * k + 2) * (2 * k + 3))) 0 0)).

Fixpoint strip_zeros (s : string) : string :=
  match s with
  | EmptyString => EmptyString
  | String c s' =>
      match strip_zeros s' with
      | EmptyString => if Ascii.eqb c "0" then EmptyString else String c EmptyString
      | t => String c t
      end
  end.

(** Decimal printing: an integer as such, another number with up to
    fifteen decimals. *)
Definition toString (x : Q) : string :=
  if Qeq_bool x (ofZ (Qfloor x)) then
    (if ltb x 0 then "-" else "") +:+ pretty (Z.abs (Qfloor x))
  else strip_zeros (toFixed 15 x).

Definition digit36 (d : Z) : string :=
  String.substring (Z.to_nat d) 1 "0123456789abcdefghijklmnopqrstuvwxyz".

Fixpoint frac36 (digits : nat) (x : Q) : string :=
  match digits with
  | O => ""
  | S digits' =>
      if Qeq_bool x 0 then ""
      else let y := x * 36 in
           digit36 (Qfloor y) +:+ frac36 digits' (Qred (y - ofZ (Qfloor y)))
  end.

(** Base 36, for a number of [[0, 1)]. *)
Definition toString36 (x : Q) : string :=
  if Qeq_bool x 0 then "0" else "0." +:+ frac36 11 x.

#[export] Instance runtime : JsRuntime :=
  {| Math_sqrt := sqrt; Math_log := log; Math_sin := sin; Math_cos := cos;
     Math_PI := PI; Number_toString := toString; Number_toString36 := toString36;
     Number_mul := mul; Number_div := div; Number_add := add;
     Number_mul_integers := mul_integers |}.

End RefRuntime.

(** ** Concrete inputs and the predicates of the statements *)

Module Scenario.
Import Types.

(** A random source whose draws are all [1/2]. *)
Definition halves : RNG := {| draws := fun _ => 1 # 2; cursor := 0 |}.

(** A random source whose draws are all [0]. *)
Definition zeros : RNG := {| draws := fun _ => 0; cursor := 0 |}.


(** Two motor records agree on everything but the integral gain. *)
Definition agree_but_pid_i (a b : option MotorParams) : Prop :=
  match a, b with
  | Some m1, Some m2 =>
      joint_id m1 = joint_id m2 /\ torque_limit m1 = torque_limit m2 /\
      pid_p m1 = pid_p m2 /\ pid_d m1 = pid_d m2 /\ max_velocity m1 = max_velocity m2
  | None, None => True
  | _, _ => False
  end.

(** The indices the event generators look at in a list of [len] frames:
    the multiples of [floor(len / 10)], from the first one on, below [len]. *)
Definition sampled (len i : nat) : Prop :=
  exists k, (1 <= k)%nat /\ i = (k * (len / 10))%nat /\ (i < len)%nat.

(** An event reports a rollover of the given frame. *)
Definition is_rollover_of (frame : TelemetryFrame) (e : Failures.SimulationEvent) : Prop :=
  Failures.ev_type e = "rollover"%string /\ Failures.ev_severity e = critical /\
  Failures.ev_timestamp e = timestamp frame.

(** The motor map of a new session: the defaults under every joint of the
    hexapod. *)
Definition defaultMotors : gmap string MotorParams :=
  fold_left (fun m j => <[j := Store.defaultMotor j]> m) HEXAPOD_JOINTS ∅.

(** The same map with the integral gain of the first joint at 7. *)
Definition integral_at_7 : gmap string MotorParams :=
  <["leg_1_coxa"%string :=
      {| joint_id := Some "leg_1_coxa"%string; torque_limit := DEFAULT_MOTOR_PARAMS.(torque_limit);
         pid_p := DEFAULT_MOTOR_PARAMS.(pid_p); pid_i := Some 7;
         pid_d := DEFAULT_MOTOR_PARAMS.(pid_d);
         max_velocity := DEFAULT_MOTOR_PARAMS.(max_velocity) |}]> defaultMotors.

(** The arguments of [update_motor_params] that name a joint and a
    proportional gain, and nothing else. *)
Definition only_pid_p (jointId : string) (v : Q) : Service.UpdateMotorArgs :=
  {| Service.a_joint_id := Some jointId; Service.a_torque_limit := None;
     Service.a_pid_p := Some v; Service.a_pid_i := None; Service.a_pid_d := None |}.

(** [run_simulation] called without any argument. *)
Definition no_args : Service.RunSimulationArgs :=
  {| Service.a_duration_seconds := None; Service.a_robot_type := None;
     Service.a_wind_speed := None; Service.a_airspace_condition := None |}.

(** A frame with the given timestamp, pitch and temperature, whose first
    leg slips or not; everything else is at rest. *)
Definition frame_with (ts pitch' temp : Q) (slips : bool) : TelemetryFrame :=
  {| timestamp := ts; joint_positions := []; joint_velocities := []; joint_torques := [];
     imu := {| pitch := pitch'; roll := 0; yaw := 0;
               accel_x := 0; accel_y := 0; accel_z := 9.81 |};
     power := {| voltage := Some 24; current := Some 2; temperature := temp |};
     contacts := [ {| leg_id := "leg_1"; in_contact := true; force := 8;
                      slip_detected := slips |} ] |}.

Definition quiet (ts : Q) : TelemetryFrame := frame_with ts 0 40 false.
(** A slip, a pitch of 22 degrees and 51 degrees Celsius: three warnings. *)
Definition alarms (ts : Q) : TelemetryFrame := frame_with ts 22 51 true.
(** A pitch of 35 degrees. *)
Definition tipped (ts : Q) : TelemetryFrame := frame_with ts 35 40 false.

(** Ten frames; the second one is beyond the pitch limit. *)
Definition early_rollover : list TelemetryFrame :=
  [quiet 0; tipped 20; quiet 40; quiet 60; quiet 80;
   quiet 100; quiet 120; quiet 140; quiet 160; quiet 180].

(** Ten frames; four of them raise three warnings each before the sixth
    one goes beyond the pitch limit. *)
Definition late_rollover : list TelemetryFrame :=
  [quiet 0; alarms 20; alarms 40; alarms 60; alarms 80;
   tipped 100; quiet 120; quiet 140; quiet 160; quiet 180].

(** A drone frame at rest on the ground. *)
Definition grounded (ts : Q) : Drone.DroneTelemetryFrame :=
  {| Drone.timestamp := ts;
     Drone.position := {| Drone.lat := Drone.startLat; Drone.lon := Drone.startLon;
                          Drone.alt := 0 |};
     Drone.velocity := {| Drone.vx := 0; Drone.vy := 0; Drone.vz := 0 |};
     Drone.attitude := {| Drone.pitch := 0; Drone.roll := 0; Drone.yaw := 0 |};
     Drone.rotor_speeds := [1000; 1000; 1000; 1000];
     Drone.battery := {| Drone.voltage := 16.8; Drone.current := 5; Drone.remaining := 100 |};
     Drone.gps_quality := 85; Drone.signal_strength := - (45) |}.

End Scenario.

(** ** Relations of the lemmas *)

(** A list grows at its end. *)
Definition extends {A} (a b : list A) : Prop := exists new, b = a ++ new.

(** The world in which a tool runs after its artificial delay. *)
Definition delayed (minMs maxMs : Q) (w : Store.World) : Store.World :=
  snd (Store.sleep (fst (Store.liftRand (Service.randomDelay minMs maxMs) w))
                   (snd (Store.liftRand (Service.randomDelay minMs maxMs) w))).


(** What every frame of the ground generator satisfies. *)
Definition frame_within_limits (frame : Types.TelemetryFrame) : Prop :=
  (- (30) <= Types.pitch (Types.imu frame) /\ Types.pitch (Types.imu frame) <= 30) /\
  (- (20) <= Types.roll (Types.imu frame) /\ Types.roll (Types.imu frame) <= 20) /\
  (35 <= Types.temperature (Types.power frame) /\
   Types.temperature (Types.power frame) <= 55) /\
  length (Types.contacts frame) = 6%nat.

(** A critical event is the injected rollover. *)
Definition only_injected_rollover (e : Failures.SimulationEvent) : Prop :=
  Failures.ev_severity e = Types.critical ->
  Failures.ev_type e = "rollover"%string /\
  Failures.ev_message e
  = "Body orientation exceeded safe limits - rollover imminent"%string.

(** The counters of the analyzers never go below zero. *)
Definition acc_nonneg (a : Analysis.Acc) : Prop :=
  0 <= Analysis.maxPitch a /\ 0 <= Analysis.maxRoll a /\ 0 <= Analysis.slipEvents a.

Definition dacc_ok (k : Q) (a : Drone.Acc) : Prop :=
  (0 <= Drone.withinThreshold a /\ Drone.withinThreshold a <= k) /\
  0 <= Drone.maxAltDeviation a /\ 0 <= Drone.windEvents a.

(** What one pass of the aerial loop produces, whatever the flight phase. *)
Definition drone_frame_ok `{JsRuntime} (i : nat) (dt : Q)
    (frame : Drone.DroneTelemetryFrame) : Prop :=
  Drone.timestamp frame = Math_round (Number_mul (Number_mul (ofNat i) dt) 1000) /\
  (- (30) <= Drone.pitch (Drone.attitude frame) /\
   Drone.pitch (Drone.attitude frame) <= 30) /\
  (- (30) <= Drone.roll (Drone.attitude frame) /\
   Drone.roll (Drone.attitude frame) <= 30) /\
  (0 <= Drone.gps_quality frame /\ Drone.gps_quality frame <= 100).

(** What [configurePhysics] hands to the store after validation. *)
Definition validated (args : Service.ConfigurePhysicsArgs) : Store.PartialPhysics :=
  {| Store.p_gravity := Service.a_gravity args;
     Store.p_friction_coefficient :=
       match Service.a_friction_coefficient args with
       | Some f => Some (if (ltb f 0 || gtb f 1)%bool then Math_max 0 (Math_min 1 f) else f)
       | None => None
       end;
     Store.p_terrain_type :=
       match Service.a_terrain_type args with
       | Some t => Some (if (negb (String.eqb t "") && negb (Service.known_terrain t))%bool
                         then "concrete"%string else t)
       | None => None
       end;
     Store.p_terrain_roughness := None |}.

(** The checks of [configurePhysics] that add a warning. *)
Definition friction_out_of_range (args : Service.ConfigurePhysicsArgs) : bool :=
  match Service.a_friction_coefficient args with
  | Some f => (ltb f 0 || gtb f 1)%bool
  | None => false
  end.
Definition terrain_unknown (args : Service.ConfigurePhysicsArgs) : bool :=
  match Service.a_terrain_type args with
  | Some t => (negb (String.eqb t "") && negb (Service.known_terrain t))%bool
  | None => false
  end.

(** A frame annotation whose confidence lies in [[lo, hi)]. *)
Definition confident (lo hi : Q) (a : Service.FrameAnnotation) : Prop :=
  lo <= Service.fa_confidence a /\ Service.fa_confidence a < hi.

(** The run that the analysis of a video looks at: the stored run of the
    given id, or else the current run, or else the last run recorded. *)
Definition selected_run (sid : string) (runId : option string) (w : Store.World)
    : option Store.SimulationRun :=
  match Store.sessions w !! sid with
  | None => None
  | Some s =>
      match
        match runId with
        | Some id => List.find (fun r => String.eqb (Store.run_id r) id) (Store.runs s)
        | None => None
        end
      with
      | Some r => Some r
      | None =>
          match Store.current_run s with
          | Some r => Some r
          | None => last (Store.runs s)
          end
      end
  end.

(** * Properties *)

(** ** Numbers *)

Section NumberFacts.

Lemma ltb_lt (x y : Q) : ltb x y = true <-> x < y.
Proof.
  unfold ltb. rewrite Qlt_alt. destruct (x ?= y); split; congruence.
Qed.

Lemma ltb_ge (x y : Q) : ltb x y = false <-> y <= x.
Proof.
  rewrite <- not_true_iff_false, ltb_lt. split; [apply Qnot_lt_le | apply Qle_not_lt].
Qed.

Lemma gtb_gt (x y : Q) : gtb x y = true <-> y < x.
Proof. apply ltb_lt. Qed.

Lemma gtb_le (x y : Q) : gtb x y = false <-> x <= y.
Proof. apply ltb_ge. Qed.

Lemma leb_le (x y : Q) : leb x y = true <-> x <= y.
Proof. unfold leb. rewrite negb_true_iff. apply ltb_ge. Qed.

Lemma leb_gt (x y : Q) : leb x y = false <-> y < x.
Proof. unfold leb. rewrite negb_false_iff. apply ltb_lt. Qed.

Lemma geb_ge (x y : Q) : geb x y = true <-> y <= x.
Proof. unfold geb. rewrite negb_true_iff. apply ltb_ge. Qed.

Lemma Math_abs_nonneg (x : Q) : 0 <= Math_abs x.
Proof.
  unfold Math_abs. destruct (ltb x 0) eqn:E.
  - apply ltb_lt in E. lra.
  - apply ltb_ge in E. lra.
Qed.

Lemma Math_max_ge_l (x y : Q) : x <= Math_max x y.
Proof.
  unfold Math_max. destruct (ltb x y) eqn:E; [apply ltb_lt in E | apply ltb_ge in E]; lra.
Qed.

Lemma Math_max_ge_r (x y : Q) : y <= Math_max x y.
Proof.
  unfold Math_max. destruct (ltb x y) eqn:E; [apply ltb_lt in E | apply ltb_ge in E]; lra.
Qed.

Lemma Math_min_le_r (x y : Q) : Math_min x y <= y.
Proof.
  unfold Math_min. destruct (ltb y x) eqn:E; [apply ltb_lt in E | apply ltb_ge in E]; lra.
Qed.

Lemma Math_min_glb (x y z : Q) : z <= x -> z <= y -> z <= Math_min x y.
Proof. unfold Math_min. destruct (ltb y x); auto. Qed.

(** [clamp] lands between its bounds when they are in order. *)
Lemma clamp_bounds (v lo hi : Q) : lo <= hi -> lo <= clamp v lo hi /\ clamp v lo hi <= hi.
Proof.
  intros Hlh. unfold clamp. split.
  - apply Math_min_glb; [apply Math_max_ge_r | exact Hlh].
  - apply Math_min_le_r.
Qed.

Lemma inject_Z_le (a b : Z) : (a <= b)%Z -> inject_Z a <= inject_Z b.
Proof. intros. rewrite <- Zle_Qle. assumption. Qed.

Lemma inject_Z_lt (a b : Z) : (a < b)%Z -> inject_Z a < inject_Z b.
Proof. intros. rewrite <- Zlt_Qlt. assumption. Qed.

Lemma Qfloor_spec (x : Q) (z : Z) : inject_Z z <= x -> x < inject_Z (z + 1) -> Qfloor x = z.
Proof.
  intros Hlo Hhi.
  pose proof (Qfloor_le x) as H1. pose proof (Qlt_floor x) as H2.
  assert (inject_Z (Qfloor x) < inject_Z (z + 1)) as H3 by lra.
  assert (inject_Z z < inject_Z (Qfloor x + 1)) as H4 by lra.
  rewrite <- Zlt_Qlt in H3, H4. lia.
Qed.

(** [Math.round] is monotone, *)
Lemma Math_round_mono (x y : Q) : x <= y -> Math_round x <= Math_round y.
Proof.
  intros H. unfold Math_round, ofZ. apply inject_Z_le, Qfloor_resp_le. lra.
Qed.

(** separates arguments one apart, *)
Lemma Math_round_step (x y : Q) : x + 1 <= y -> Math_round x < Math_round y.
Proof.
  intros H. unfold Math_round, ofZ. apply inject_Z_lt.
  assert (Qfloor (x + (1 # 2)) + 1 <= Qfloor (y + (1 # 2)))%Z; [| lia].
  rewrite <- (Qfloor_Z (Qfloor (x + (1 # 2)) + 1)).
  apply Qfloor_resp_le. rewrite inject_Z_plus.
  pose proof (Qfloor_le (x + (1 # 2))) as H0.
  change (inject_Z 1) with 1. lra.
Qed.

(** and is the identity on integers. *)
Lemma Math_round_Z (x : Q) (z : Z) : x == inject_Z z -> Math_round x = inject_Z z.
Proof.
  intros H. unfold Math_round, ofZ. f_equal. apply Qfloor_spec.
  - lra.
  - rewrite inject_Z_plus. change (inject_Z 1) with 1. lra.
Qed.

(** Rounding keeps a number between two integers. *)
Lemma Math_round_between (x : Q) (a b : Z) :
  inject_Z a <= x -> x <= inject_Z b -> inject_Z a <= Math_round x /\ Math_round x <= inject_Z b.
Proof.
  intros Ha Hb. split.
  - rewrite <- (Math_round_Z (inject_Z a) a) by reflexivity. now apply Math_round_mono.
  - rewrite <- (Math_round_Z (inject_Z b) b) by reflexivity. now apply Math_round_mono.
Qed.

End NumberFacts.

(** ** Rounding to a number of decimals *)

Section Decimals.

Lemma Math_max_lub (x y z : Q) : x <= z -> y <= z -> Math_max x y <= z.
Proof. unfold Math_max. destruct (ltb x y); auto. Qed.

Lemma Math_min_le_l (x y : Q) : Math_min x y <= x.
Proof.
  unfold Math_min. destruct (ltb y x) eqn:E; [apply ltb_lt in E | apply ltb_ge in E]; lra.
Qed.

Lemma ofNat_pos (n : nat) : n <> 0%nat -> 0 < ofNat n.
Proof. intros Hn. unfold ofNat. apply (inject_Z_lt 0). lia. Qed.

Lemma Qdiv_nonneg (x y : Q) : 0 <= x -> 0 < y -> 0 <= x / y.
Proof. intros Hx Hy. apply Qle_shift_div_l; [exact Hy | lra]. Qed.

Lemma Math_round_nonneg (x : Q) : 0 <= x -> 0 <= Math_round x.
Proof.
  intros Hx. pose proof (Math_round_mono 0 x Hx) as Hm.
  rewrite (Math_round_Z 0 0) in Hm by reflexivity. exact Hm.
Qed.

Lemma Math_round_le_Z (x : Q) (b : Z) : x <= inject_Z b -> Math_round x <= inject_Z b.
Proof.
  intros Hx. pose proof (Math_round_mono x (inject_Z b) Hx) as Hm.
  rewrite (Math_round_Z (inject_Z b) b) in Hm by reflexivity. exact Hm.
Qed.

Lemma Math_abs_le (x b : Q) : - b <= x -> x <= b -> Math_abs x <= b.
Proof.
  intros Hlo Hhi. unfold Math_abs.
  destruct (ltb x 0) eqn:E; [apply ltb_lt in E | apply ltb_ge in E]; lra.
Qed.


Lemma pow10_pos (k : nat) : 0 < ofZ (pow10 k).
Proof.
  unfold ofZ, pow10. apply (inject_Z_lt 0). apply Z.pow_pos_nonneg; lia.
Qed.

Lemma toFixed_units_nonneg (k : nat) (x : Q) : (0 <= toFixed_units k x)%Z.
Proof.
  unfold toFixed_units. change 0%Z with (Qfloor 0). apply Qfloor_resp_le.
  pose proof (Math_abs_nonneg x). pose proof (pow10_pos k). nra.
Qed.

Lemma toFixed_units_mono (k : nat) (x y : Q) :
  Math_abs x <= Math_abs y -> (toFixed_units k x <= toFixed_units k y)%Z.
Proof.
  intros Hxy. unfold toFixed_units. apply Qfloor_resp_le.
  pose proof (pow10_pos k). nra.
Qed.

(** [toFixed_num] is the signed count of units over the power of ten. *)
Lemma toFixed_num_eq (k : nat) (x : Q) :
  toFixed_num k x
  == ofZ (if ltb x 0 then - toFixed_units k x else toFixed_units k x) / ofZ (pow10 k).
Proof. unfold toFixed_num. apply Qred_correct. Qed.

(** Rounding to [k] decimals is monotone, *)
Lemma toFixed_num_mono (k : nat) (x y : Q) : x <= y -> toFixed_num k x <= toFixed_num k y.
Proof.
  intros Hxy. rewrite !toFixed_num_eq.
  pose proof (pow10_pos k) as Hp.
  apply Qmult_le_compat_r; [| apply Qlt_le_weak, Qinv_lt_0_compat, Hp].
  unfold ofZ. apply inject_Z_le.
  pose proof (toFixed_units_nonneg k x). pose proof (toFixed_units_nonneg k y).
  destruct (ltb x 0) eqn:Ex, (ltb y 0) eqn:Ey.
  - apply ltb_lt in Ex, Ey.
    assert (toFixed_units k y <= toFixed_units k x)%Z; [| lia].
    apply toFixed_units_mono. unfold Math_abs.
    apply ltb_lt in Ex as ->. apply ltb_lt in Ey as ->. lra.
  - lia.
  - apply ltb_ge in Ex. apply ltb_lt in Ey. lra.
  - apply ltb_ge in Ex, Ey. apply toFixed_units_mono. unfold Math_abs.
    apply ltb_ge in Ex as ->. apply ltb_ge in Ey as ->. exact Hxy.
Qed.

(** and leaves the integers where they are. *)
Lemma toFixed_num_Z (k : nat) (z : Z) : toFixed_num k (inject_Z z) == inject_Z z.
Proof.
  rewrite toFixed_num_eq. pose proof (pow10_pos k) as Hp.
  assert (toFixed_units k (inject_Z z) = (Z.abs z * pow10 k)%Z) as ->.
  { unfold toFixed_units. apply Qfloor_spec.
    - assert (Math_abs (inject_Z z) == inject_Z (Z.abs z)) as ->.
      { unfold Math_abs. destruct (ltb (inject_Z z) 0) eqn:E.
        - apply ltb_lt in E. change 0 with (inject_Z 0) in E. rewrite <- Zlt_Qlt in E.
          rewrite Z.abs_neq by lia. now rewrite inject_Z_opp.
        - apply ltb_ge in E. change 0 with (inject_Z 0) in E. rewrite <- Zle_Qle in E.
          now rewrite Z.abs_eq by lia. }
      unfold ofZ. rewrite inject_Z_mult. lra.
    - assert (Math_abs (inject_Z z) == inject_Z (Z.abs z)) as ->.
      { unfold Math_abs. destruct (ltb (inject_Z z) 0) eqn:E.
        - apply ltb_lt in E. change 0 with (inject_Z 0) in E. rewrite <- Zlt_Qlt in E.
          rewrite Z.abs_neq by lia. now rewrite inject_Z_opp.
        - apply ltb_ge in E. change 0 with (inject_Z 0) in E. rewrite <- Zle_Qle in E.
          now rewrite Z.abs_eq by lia. }
      unfold ofZ. rewrite inject_Z_plus, inject_Z_mult. change (inject_Z 1) with 1. lra. }
  unfold ofZ in *.
  destruct (ltb (inject_Z z) 0) eqn:E.
  - apply ltb_lt in E. change 0 with (inject_Z 0) in E. rewrite <- Zlt_Qlt in E.
    rewrite Z.abs_neq by lia. rewrite inject_Z_opp, inject_Z_mult, inject_Z_opp.
    field. lra.
  - apply ltb_ge in E. change 0 with (inject_Z 0) in E. rewrite <- Zle_Qle in E.
    rewrite Z.abs_eq by lia. rewrite inject_Z_mult. field. lra.
Qed.

(** So it keeps a number between two integers. *)
Lemma toFixed_num_between (k : nat) (x : Q) (a b : Z) :
  inject_Z a <= x -> x <= inject_Z b ->
  inject_Z a <= toFixed_num k x /\ toFixed_num k x <= inject_Z b.
Proof.
  intros Ha Hb. split.
  - rewrite <- (toFixed_num_Z k a). now apply toFixed_num_mono.
  - rewrite <- (toFixed_num_Z k b). now apply toFixed_num_mono.
Qed.

End Decimals.

(** ** The state monad *)

(** Runs a chain of binds on a state one computation at a time, naming
    each result, without ever splitting a pair that is already built. *)
Ltac step_run :=
  cbv beta iota;
  match goal with
  | |- context [let (_, _) := ?m in _] =>
      lazymatch m with
      | (_, _) => fail
      | context [let (_, _) := _ in _] => fail
      | _ => destruct m as [? ?] eqn:?
      end
  end.
Ltac run_binds := unfold bind, ret; repeat step_run; cbv beta iota; cbn [fst snd].

Lemma foldM_cons {S A B} (f : B -> A -> State S B) (a : A) (l : list A) (b : B) (s : S) :
  foldM f (a :: l) b s = foldM f l (fst (f b a s)) (snd (f b a s)).
Proof. cbn [foldM]. unfold bind. destruct (f b a s); reflexivity. Qed.

Lemma foldM_app {S A B} (f : B -> A -> State S B) (l1 l2 : list A) (b : B) (s : S) :
  foldM f (l1 ++ l2) b s = foldM f l2 (fst (foldM f l1 b s)) (snd (foldM f l1 b s)).
Proof.
  revert b s. induction l1 as [| a l1 IH]; intros b s; [reflexivity |].
  rewrite <- app_comm_cons, !foldM_cons. apply IH.
Qed.

(** Folding two step functions that agree everywhere gives the same result. *)
Lemma foldM_ext {S A B} (f f' : B -> A -> State S B) (l : list A) (b : B) (s : S) :
  (forall b a s, f b a s = f' b a s) -> foldM f l b s = foldM f' l b s.
Proof.
  intros Hf. revert b s. induction l as [| a l IH]; intros b s; [reflexivity |].
  rewrite !foldM_cons, Hf. apply IH.
Qed.


(** ** C1: the frames of the ground generator and their timestamps *)

Section GroundFrames.
Context `{JsRuntime}.

Lemma frameStep_frames physics motors terrainParams dt st i g :
  exists f,
    Telemetry.g_frames (fst (Telemetry.frameStep physics motors terrainParams dt st i g))
    = Telemetry.g_frames st ++ [f]
    /\ Types.timestamp f = Math_round (Number_mul (Number_mul (ofNat i) dt) 1000).
Proof.
  unfold Telemetry.frameStep. run_binds. cbn [Telemetry.g_frames].
  eexists. split; [reflexivity |]. cbn [Types.timestamp]. reflexivity.
Qed.

Lemma frameLoop_timestamps physics motors terrainParams dt l st g :
  map Types.timestamp
      (Telemetry.g_frames (fst (foldM (Telemetry.frameStep physics motors terrainParams dt) l st g)))
  = map Types.timestamp (Telemetry.g_frames st)
    ++ map (fun i => Math_round (Number_mul (Number_mul (ofNat i) dt) 1000)) l.
Proof.
  revert st g. induction l as [| i l IH]; intros st g.
  - cbn. now rewrite app_nil_r.
  - rewrite foldM_cons, IH.
    destruct (frameStep_frames physics motors terrainParams dt st i g) as (f & -> & Hf).
    rewrite map_app. cbn [map]. rewrite Hf, <- app_assoc. reflexivity.
Qed.

(** The timestamps of a generated stream, in closed form. *)
Lemma generateTelemetryStream_timestamps d physics motors r g :
  map Types.timestamp (fst (Telemetry.generateTelemetryStream d physics motors r g))
  = map (fun i => Math_round (Number_mul (Number_mul (ofNat i) (Number_div 1 r)) 1000)) (seq 0 (Telemetry.totalSamples d r)).
Proof.
  unfold Telemetry.generateTelemetryStream, bind, ret.
  destruct (foldM Telemetry.initJoint _ _ g) as [js g1].
  match goal with
  | |- context [foldM ?f ?l ?st ?g] =>
      pose proof (frameLoop_timestamps physics motors
                    (Telemetry.getTerrainParams (Types.terrain_type physics)) (Number_div 1 r) l st g) as E;
      destruct (foldM f l st g) as [st' g']
  end.
  cbn [fst] in *. exact E.
Qed.

(** The number of frames when the duration and the rate are integers. *)
Lemma totalSamples_integers (a b : Z) :
  (Z.abs a < 2 ^ 53)%Z -> (Z.abs b < 2 ^ 53)%Z -> (Z.abs (a * b) < 2 ^ 53)%Z ->
  Telemetry.totalSamples (inject_Z a) (inject_Z b) = Z.to_nat (a * b).
Proof.
  intros Ha Hb Hab. unfold Telemetry.totalSamples.
  now rewrite (Qfloor_comp _ _ (Number_mul_integers a b Ha Hb Hab)), Qfloor_Z.
Qed.

Lemma generateTelemetryStream_length d physics motors r g :
  length (fst (Telemetry.generateTelemetryStream d physics motors r g))
  = Telemetry.totalSamples d r.
Proof.
  rewrite <- (length_map Types.timestamp), generateTelemetryStream_timestamps.
  now rewrite length_map, length_seq.
Qed.


End GroundFrames.

Section GroundClaims.
Context `{JsRuntime}.

Lemma ofNat_S (i : nat) : ofNat (S i) == ofNat i + 1.
Proof. unfold ofNat. rewrite Nat2Z.inj_succ, <- Z.add_1_r, inject_Z_plus. reflexivity. Qed.


(** Two motor maps that agree but for [pid_i] drive a joint alike. *)
Lemma jointStep_pid_i motors1 motors2 terrainParams gaitPhase dt acc jointId g :
  (forall j, Scenario.agree_but_pid_i (motors1 !! j) (motors2 !! j)) ->
  Telemetry.jointStep motors1 terrainParams gaitPhase dt acc jointId g
  = Telemetry.jointStep motors2 terrainParams gaitPhase dt acc jointId g.
Proof.
  intros Hagree. specialize (Hagree jointId). unfold Telemetry.jointStep.
  destruct (motors1 !! jointId) as [m1 |], (motors2 !! jointId) as [m2 |];
    cbn in Hagree; try contradiction; [| reflexivity].
  destruct Hagree as (_ & Ht & Hp & Hd & _). rewrite Ht, Hp, Hd. reflexivity.
Qed.

Lemma frameStep_pid_i physics motors1 motors2 terrainParams dt st i g :
  (forall j, Scenario.agree_but_pid_i (motors1 !! j) (motors2 !! j)) ->
  Telemetry.frameStep physics motors1 terrainParams dt st i g
  = Telemetry.frameStep physics motors2 terrainParams dt st i g.
Proof.
  intros Hagree. unfold Telemetry.frameStep, bind.
  match goal with
  | |- context [foldM (Telemetry.jointStep motors1 ?tp ?gp ?dt') ?l ?b ?s] =>
      rewrite (foldM_ext (Telemetry.jointStep motors1 tp gp dt')
                         (Telemetry.jointStep motors2 tp gp dt') l b s)
        by (intros; now apply jointStep_pid_i)
  end.
  reflexivity.
Qed.

(** C8.  The integral gain never reaches the telemetry: two motor maps
    that differ only in [pid_i] (same joints, every other field equal) give,
    for the same duration, physics, sample rate and random draws, the same
    frames (and leave the random source in the same state). *)
Theorem C8_pid_i_not_used (d r : Q) physics motors1 motors2 g :
  (forall j, Scenario.agree_but_pid_i (motors1 !! j) (motors2 !! j)) ->
  Telemetry.generateTelemetryStream d physics motors1 r g
  = Telemetry.generateTelemetryStream d physics motors2 r g.
Proof.
  intros Hagree. unfold Telemetry.generateTelemetryStream, bind.
  destruct (foldM Telemetry.initJoint _ _ g) as [js g1].
  match goal with
  | |- context [foldM (Telemetry.frameStep physics motors1 ?tp ?dt') ?l ?b ?s] =>
      rewrite (foldM_ext (Telemetry.frameStep physics motors1 tp dt')
                         (Telemetry.frameStep physics motors2 tp dt') l b s)
        by (intros; now apply frameStep_pid_i)
  end.
  reflexivity.
Qed.

End GroundClaims.

(** C8, witness: the motor map of a new session, and the same map with
    the integral gain of the first joint at 7. *)
Lemma C8_pid_i_not_used_witness :
  (forall j, Scenario.agree_but_pid_i (Scenario.defaultMotors !! j)
                                      (Scenario.integral_at_7 !! j)) /\
  Telemetry.generateTelemetryStream (H := RefRuntime.runtime)
    1 Types.DEFAULT_PHYSICS Scenario.defaultMotors 50 Scenario.halves
  = Telemetry.generateTelemetryStream (H := RefRuntime.runtime)
      1 Types.DEFAULT_PHYSICS Scenario.integral_at_7 50 Scenario.halves.
Proof.
  assert (forall j, Scenario.agree_but_pid_i (Scenario.defaultMotors !! j)
                                             (Scenario.integral_at_7 !! j)) as Hagree.
  { intros j. unfold Scenario.integral_at_7.
    destruct (decide (j = "leg_1_coxa"%string)) as [-> | Hne].
    - rewrite lookup_insert_eq. vm_compute. auto.
    - rewrite lookup_insert_ne by congruence.
      destruct (Scenario.defaultMotors !! j); cbn; auto. }
  split; [exact Hagree |].
  exact (C8_pid_i_not_used (H := RefRuntime.runtime) 1 50 Types.DEFAULT_PHYSICS
           Scenario.defaultMotors Scenario.integral_at_7 Scenario.halves Hagree).
Defined.



(** ** C2: the sampling loop of the event generators *)

Section SamplingLoop.
Context {A : Type}.
Implicit Types (body : nat -> A -> Rand A) (acc : A) (g : RNG).

(** With a stride of zero the loop condition never changes: whatever the
    fuel, the loop does not come to an end. *)
Lemma forFrom_zero_step body bound i acc g fuel :
  (i < bound)%nat -> fst (Loop.forFrom fuel body bound 0 i acc g) = None.
Proof.
  intros Hi. apply Nat.ltb_lt in Hi.
  revert acc g. induction fuel as [| fuel IH]; intros acc g; cbn [Loop.forFrom]; rewrite Hi.
  - reflexivity.
  - unfold bind. destruct (body i acc g) as [acc' g']. rewrite Nat.add_0_r. apply IH.
Qed.

(** With a positive stride, fuel for the remaining distance is enough. *)
Lemma forFrom_returns body bound step i acc g fuel :
  (0 < step)%nat -> (bound - i <= fuel)%nat ->
  exists acc', fst (Loop.forFrom fuel body bound step i acc g) = Some acc'.
Proof.
  intros Hstep. revert i acc g.
  induction fuel as [| fuel IH]; intros i acc g Hfuel; cbn [Loop.forFrom].
  - destruct (i <? bound)%nat eqn:Hi; [apply Nat.ltb_lt in Hi; lia | eauto].
  - destruct (i <? bound)%nat eqn:Hi; [| eauto].
    unfold bind. destruct (body i acc g) as [acc' g']. apply IH. lia.
Qed.

(** An empty range is left at once. *)
Lemma forFrom_empty body bound step i acc g fuel :
  (bound <= i)%nat -> Loop.forFrom fuel body bound step i acc g = (Some acc, g).
Proof.
  intros Hi. apply Nat.ltb_ge in Hi. destruct fuel; cbn [Loop.forFrom]; now rewrite Hi.
Qed.

Context (R : A -> A -> Prop) (R_refl : forall a, R a a)
        (R_trans : forall a b c, R a b -> R b c -> R a c).

(** What every pass of the body preserves, the loop preserves. *)
Lemma forFrom_preserves body bound step i acc g fuel acc' :
  (forall j a g, R a (fst (body j a g))) ->
  fst (Loop.forFrom fuel body bound step i acc g) = Some acc' -> R acc acc'.
Proof.
  intros Hbody. revert i acc g.
  induction fuel as [| fuel IH]; intros i acc g; cbn [Loop.forFrom];
    destruct (i <? bound)%nat.
  - discriminate.
  - intros [= <-]. apply R_refl.
  - unfold bind. specialize (Hbody i acc g). destruct (body i acc g) as [a1 g1].
    intros Hloop. apply IH in Hloop. eauto.
  - intros [= <-]. apply R_refl.
Qed.

(** What holds right after the pass at a visited index, and is kept by
    the later passes, holds when the loop returns. *)
Lemma forFrom_visit (Q : A -> Prop) body bound step i acc g fuel acc' j k :
  (forall j a g, R a (fst (body j a g))) ->
  (forall a g, Q (fst (body j a g))) ->
  (forall a b, Q a -> R a b -> Q b) ->
  j = (i + k * step)%nat -> (j < bound)%nat ->
  fst (Loop.forFrom fuel body bound step i acc g) = Some acc' -> Q acc'.
Proof.
  intros Hbody HQ Hkeep. revert i acc g k.
  induction fuel as [| fuel IH]; intros i acc g k Hj Hlt; cbn [Loop.forFrom].
  - assert ((i <? bound)%nat = true) as -> by (apply Nat.ltb_lt; lia). discriminate.
  - assert ((i <? bound)%nat = true) as -> by (apply Nat.ltb_lt; lia).
    unfold bind. pose proof (HQ acc g) as HQ1.
    destruct (body i acc g) as [a1 g1] eqn:E1. intros Hloop.
    destruct k as [| k].
    + assert (j = i) as -> by lia. rewrite E1 in HQ1. cbn in HQ1.
      eapply Hkeep; [exact HQ1 |]. eapply forFrom_preserves; eassumption.
    + eapply (IH (i + step)%nat a1 g1 k); [lia | assumption | exact Hloop].
Qed.

End SamplingLoop.

Section EventBounds.
Context `{JsRuntime}.

Lemma generateSimulationEvents_take fuel frames physics g :
  fst (Failures.generateSimulationEvents fuel frames physics g)
  = option_map (take 10) (fst (Failures.collectEvents fuel frames physics g)).
Proof.
  unfold Failures.generateSimulationEvents, bind, ret.
  destruct (Failures.collectEvents fuel frames physics g); reflexivity.
Qed.

Lemma generateDroneSimulationEvents_take fuel frames physics g :
  fst (DroneFailures.generateDroneSimulationEvents fuel frames physics g)
  = option_map (take 10) (fst (DroneFailures.collectEvents fuel frames physics g)).
Proof.
  unfold DroneFailures.generateDroneSimulationEvents, bind, ret.
  destruct (DroneFailures.collectEvents fuel frames physics g); reflexivity.
Qed.

Lemma sample_rate_positive (n : nat) : (10 <= n)%nat -> (0 < n / 10)%nat.
Proof. intros Hn. apply Nat.div_str_pos. lia. Qed.

Lemma sample_rate_zero (n : nat) : (n <= 9)%nat -> (n / 10 = 0)%nat.
Proof. intros Hn. apply Nat.div_small. lia. Qed.

(** On no frame at all, or on ten frames and more, the ground generator
    returns, with at most ten events; fuel for one pass per frame is
    always enough. *)
Lemma generateSimulationEvents_returns fuel frames physics g :
  (length frames = 0 \/ 10 <= length frames)%nat -> (length frames <= fuel)%nat ->
  exists events,
    fst (Failures.generateSimulationEvents fuel frames physics g) = Some events
    /\ (length events <= 10)%nat.
Proof.
  intros Hlen Hfuel. rewrite generateSimulationEvents_take. unfold Failures.collectEvents.
  destruct Hlen as [Hlen | Hlen].
  - rewrite forFrom_empty by lia. eexists. split; [reflexivity |]. cbn. lia.
  - destruct (forFrom_returns (Failures.sampleStep frames physics) (length frames)
                (length frames / 10) (length frames / 10) [] g fuel)
      as [all ->]; [now apply sample_rate_positive | lia |].
    eexists. split; [reflexivity |]. rewrite length_take. lia.
Qed.

Lemma generateDroneSimulationEvents_returns fuel frames physics g :
  (length frames = 0 \/ 10 <= length frames)%nat -> (length frames <= fuel)%nat ->
  exists events,
    fst (DroneFailures.generateDroneSimulationEvents fuel frames physics g) = Some events
    /\ (length events <= 10)%nat.
Proof.
  intros Hlen Hfuel. rewrite generateDroneSimulationEvents_take.
  unfold DroneFailures.collectEvents.
  destruct Hlen as [Hlen | Hlen].
  - rewrite forFrom_empty by lia. eexists. split; [reflexivity |]. cbn. lia.
  - destruct (forFrom_returns (DroneFailures.sampleStep frames physics) (length frames)
                (length frames / 10) (length frames / 10) [] g fuel)
      as [all ->]; [now apply sample_rate_positive | lia |].
    eexists. split; [reflexivity |]. rewrite length_take. lia.
Qed.

(** Whenever a generator returns, it returns at most ten events. *)
Lemma generateSimulationEvents_at_most_10 fuel frames physics g events :
  fst (Failures.generateSimulationEvents fuel frames physics g) = Some events ->
  (length events <= 10)%nat.
Proof.
  rewrite generateSimulationEvents_take.
  destruct (fst (Failures.collectEvents fuel frames physics g)); cbn; [| discriminate].
  intros [= <-]. rewrite length_take. lia.
Qed.

Lemma generateDroneSimulationEvents_at_most_10 fuel frames physics g events :
  fst (DroneFailures.generateDroneSimulationEvents fuel frames physics g) = Some events ->
  (length events <= 10)%nat.
Proof.
  rewrite generateDroneSimulationEvents_take.
  destruct (fst (DroneFailures.collectEvents fuel frames physics g)); cbn; [| discriminate].
  intros [= <-]. rewrite length_take. lia.
Qed.

(** C2, on the code.  On a list of one to nine frames the stride of the
    sampling loop, [floor(length / 10)], is zero: the loop stays at index 0
    and neither generator returns, whatever the fuel. *)
Theorem C2_short_frame_lists_never_return
    (frames : list Types.TelemetryFrame) (physics : Types.PhysicsConfig)
    (dframes : list Drone.DroneTelemetryFrame) (dphysics : Drone.DronePhysicsConfig)
    (fuel : nat) (g : RNG) :
  (1 <= length frames <= 9)%nat ->
  (1 <= length dframes <= 9)%nat ->
  fst (Failures.generateSimulationEvents fuel frames physics g) = None /\
  fst (DroneFailures.generateDroneSimulationEvents fuel dframes dphysics g) = None.
Proof.
  intros Hlen Hdlen. split.
  - rewrite generateSimulationEvents_take. unfold Failures.collectEvents.
    rewrite sample_rate_zero by lia. rewrite forFrom_zero_step by lia. reflexivity.
  - rewrite generateDroneSimulationEvents_take. unfold DroneFailures.collectEvents.
    rewrite sample_rate_zero by lia. rewrite forFrom_zero_step by lia. reflexivity.
Qed.

End EventBounds.

(** C2, witness: one frame of each kind. *)
Lemma C2_short_frame_lists_never_return_witness :
  ((1 <= length [Scenario.quiet 0] <= 9)%nat /\
   (1 <= length [Scenario.grounded 0] <= 9)%nat) /\
  fst (Failures.generateSimulationEvents (H := RefRuntime.runtime) 100 [Scenario.quiet 0] Types.DEFAULT_PHYSICS
         Scenario.halves) = None /\
  fst (DroneFailures.generateDroneSimulationEvents (H := RefRuntime.runtime) 100 [Scenario.grounded 0]
         Store.DEFAULT_DRONE_PHYSICS Scenario.halves) = None.
Proof.
  assert (1 <= length [Scenario.quiet 0] <= 9)%nat as Hg by (cbn; lia).
  assert (1 <= length [Scenario.grounded 0] <= 9)%nat as Hd by (cbn; lia).
  split; [split; assumption |].
  exact (C2_short_frame_lists_never_return (H := RefRuntime.runtime) [Scenario.quiet 0] Types.DEFAULT_PHYSICS
           [Scenario.grounded 0] Store.DEFAULT_DRONE_PHYSICS 100 Scenario.halves Hg Hd).
Defined.


(** ** C4: critical events and failed runs *)

Lemma shouldSimulationFail_iff (events : list Failures.SimulationEvent) :
  Failures.shouldSimulationFail events = true
  <-> exists e, e ∈ events /\ Failures.ev_severity e = Types.critical.
Proof.
  unfold Failures.shouldSimulationFail. rewrite Nat.ltb_lt. split.
  - intros Hlen. destruct (List.filter Failures.is_critical events) as [| e l] eqn:E;
      [cbn in Hlen; lia |].
    assert (In e (List.filter Failures.is_critical events)) as Hin by (rewrite E; now left).
    apply filter_In in Hin as [Hin Hc]. exists e. split; [now apply list_elem_of_In |].
    unfold Failures.is_critical in Hc. now destruct (Failures.ev_severity e).
  - intros (e & Hin & Hc). apply list_elem_of_In in Hin.
    assert (In e (List.filter Failures.is_critical events)) as Hin'.
    { apply filter_In. split; [assumption |]. unfold Failures.is_critical. now rewrite Hc. }
    destruct (List.filter Failures.is_critical events); [destruct Hin' | cbn; lia].
Qed.

Section Rollover.
Context `{JsRuntime}.


Lemma extends_refl {A} (a : list A) : extends a a.
Proof. exists []. now rewrite app_nil_r. Qed.

Lemma extends_trans {A} (a b c : list A) : extends a b -> extends b c -> extends a c.
Proof. intros [n1 ->] [n2 ->]. exists (n1 ++ n2). now rewrite app_assoc. Qed.

Lemma extends_lookup {A} (a b : list A) n x : extends a b -> a !! n = Some x -> b !! n = Some x.
Proof. intros [new ->] Hn. now apply lookup_app_l_Some. Qed.

(** A pass of the sampling loop only appends events. *)
Lemma sampleStep_extends frames physics i events g :
  extends events (fst (Failures.sampleStep frames physics i events g)).
Proof.
  unfold Failures.sampleStep. destruct (frames !! i) as [frame |]; [| apply extends_refl].
  unfold bind, ret. destruct (Failures.shouldInjectFailure _ _ _ g) as [[f |] g']; cbn [fst].
  - eexists. rewrite <- !app_assoc. reflexivity.
  - eexists. rewrite <- !app_assoc. reflexivity.
Qed.

(** A pass on a frame beyond the attitude limits appends its rollover. *)
Lemma sampleStep_rollover frames physics i frame events g :
  frames !! i = Some frame ->
  30 < Math_abs (Types.pitch (Types.imu frame)) \/ 25 < Math_abs (Types.roll (Types.imu frame)) ->
  exists n e, fst (Failures.sampleStep frames physics i events g) !! n = Some e
              /\ Scenario.is_rollover_of frame e.
Proof.
  intros Hframe Hlimit. unfold Failures.sampleStep. rewrite Hframe.
  assert (exists e, Failures.rolloverEvent frame = [e] /\ Scenario.is_rollover_of frame e)
    as (e & He & Hroll).
  { unfold Failures.rolloverEvent.
    assert ((gtb (Math_abs (Types.pitch (Types.imu frame))) 30
             || gtb (Math_abs (Types.roll (Types.imu frame))) 25)%bool = true) as ->.
    { apply orb_true_iff. rewrite !gtb_gt. exact Hlimit. }
    eexists. split; [reflexivity |]. repeat split. }
  set (before := (events ++ Failures.slipEvent frame) ++ Failures.stabilityEvent frame).
  assert (forall rest, ((before ++ Failures.rolloverEvent frame) ++ rest) !! length before = Some e)
    as Hat.
  { intros rest. rewrite He, <- app_assoc. cbn. now rewrite list_lookup_middle. }
  unfold bind, ret. destruct (Failures.shouldInjectFailure _ _ _ g) as [[f |] g']; cbn [fst].
  - exists (length before), e. split; [| exact Hroll]. rewrite <- app_assoc. apply Hat.
  - exists (length before), e. split; [| exact Hroll]. apply Hat.
Qed.

(** When the collection of events returns, it holds the rollover of every
    sampled frame that is beyond the attitude limits. *)
Lemma collectEvents_rollover fuel frames physics g all i frame :
  fst (Failures.collectEvents fuel frames physics g) = Some all ->
  Scenario.sampled (length frames) i ->
  frames !! i = Some frame ->
  30 < Math_abs (Types.pitch (Types.imu frame)) \/ 25 < Math_abs (Types.roll (Types.imu frame)) ->
  exists n e, all !! n = Some e /\ Scenario.is_rollover_of frame e.
Proof.
  intros Hall (k & Hk & Hi & Hlt) Hframe Hlimit. unfold Failures.collectEvents in Hall.
  destruct k as [| k]; [lia |].
  eapply (forFrom_visit extends extends_refl extends_trans
            (fun acc => exists n e, acc !! n = Some e /\ Scenario.is_rollover_of frame e)
            _ _ _ _ _ _ _ _ i k); [| | | | exact Hlt | exact Hall].
  - intros. apply sampleStep_extends.
  - intros. now apply sampleStep_rollover.
  - intros a b (n & e & Hn & He) Hab. exists n, e. split; [| exact He].
    eapply extends_lookup; eassumption.
  - lia.
Qed.

End Rollover.

(** ** The session store *)

Module StoreFacts.
Import Types Store.

Lemma liftRand_run {A} (m : Rand A) (w : World) :
  liftRand m w
  = (fst (m (rng w)),
     {| sessions := sessions w; physicsHeap := physicsHeap w; motorHeap := motorHeap w;
        nextLoc := nextLoc w; rng := snd (m (rng w)); now := now w |}).
Proof. unfold liftRand. destruct (m (rng w)); reflexivity. Qed.

(** Filling the map at [l] with the defaults of a list of joints. *)
Lemma fill_defaults (l : loc) (js : list string) (w : World) (m0 : gmap string MotorParams) :
  motorHeap w !! l = Some m0 ->
  foldM (fun _ jointId => motorMapSet l jointId (defaultMotor jointId)) js tt w
  = (tt, {| sessions := sessions w; physicsHeap := physicsHeap w;
            motorHeap :=
              <[l := fold_left (fun m j => <[j := defaultMotor j]> m) js m0]> (motorHeap w);
            nextLoc := nextLoc w; rng := rng w; now := now w |}).
Proof.
  revert w m0. induction js as [| j js IH]; intros w m0 Hl.
  - cbn. rewrite insert_id by exact Hl. now destruct w.
  - rewrite foldM_cons. unfold motorMapSet at 2 3. cbn [fst snd]. rewrite Hl.
    erewrite IH by (cbn; apply lookup_insert_eq).
    cbn [sessions physicsHeap motorHeap nextLoc rng now fold_left].
    now rewrite insert_insert_eq.
Qed.

(** A session that does not exist is created with a new motor map holding
    the defaults and a new physics object holding the default physics. *)
Lemma getOrCreate_fresh (sid : string) (w : World) :
  sessions w !! sid = None ->
  getOrCreate sid w
  = let s := {| session_id := sid; created_at := now w; last_accessed := now w;
                physics := S (nextLoc w); motors := nextLoc w;
                runs := []; current_run := None |} in
    (s, {| sessions := <[sid := s]> (sessions w);
           physicsHeap := <[S (nextLoc w) := DEFAULT_PHYSICS]> (physicsHeap w);
           motorHeap := <[nextLoc w := Scenario.defaultMotors]> (motorHeap w);
           nextLoc := S (S (nextLoc w)); rng := rng w; now := now w |}).
Proof.
  intros Hnone. unfold getOrCreate, bind, getSession. rewrite Hnone.
  unfold createDefaultSession, bind, newMotorMap.
  erewrite fill_defaults by (cbn; apply lookup_insert_eq).
  cbn. now rewrite insert_insert_eq.
Qed.

(** A session that exists is returned, its access time updated. *)
Lemma getOrCreate_existing (sid : string) (w : World) (s0 : SessionState) :
  sessions w !! sid = Some s0 ->
  getOrCreate sid w
  = (touch s0 (now w),
     {| sessions := <[sid := touch s0 (now w)]> (sessions w);
        physicsHeap := physicsHeap w; motorHeap := motorHeap w;
        nextLoc := nextLoc w; rng := rng w; now := now w |}).
Proof. intros Hsome. unfold getOrCreate, bind, getSession. rewrite Hsome. reflexivity. Qed.

(** Either way the session returned is the one now stored. *)
Lemma getOrCreate_stored (sid : string) (w : World) :
  sessions (snd (getOrCreate sid w)) !! sid = Some (fst (getOrCreate sid w)).
Proof.
  destruct (sessions w !! sid) as [s0 |] eqn:E.
  - rewrite (getOrCreate_existing _ _ _ E). cbn. apply lookup_insert_eq.
  - rewrite (getOrCreate_fresh _ _ E). cbn. apply lookup_insert_eq.
Qed.

(** [getOrCreate] leaves the other sessions, the random source and the
    clock alone. *)
Lemma getOrCreate_frame (sid : string) (w : World) :
  rng (snd (getOrCreate sid w)) = rng w /\ now (snd (getOrCreate sid w)) = now w /\
  forall sid', sid' <> sid -> sessions (snd (getOrCreate sid w)) !! sid' = sessions w !! sid'.
Proof.
  destruct (sessions w !! sid) as [s0 |] eqn:E.
  - rewrite (getOrCreate_existing _ _ _ E). cbn. repeat split.
    intros. now apply lookup_insert_ne.
  - rewrite (getOrCreate_fresh _ _ E). cbn. repeat split.
    intros. now apply lookup_insert_ne.
Qed.

End StoreFacts.

(** ** C5 and C3: what the tools do to the store *)

Module ServiceFacts.
Import Types Store StoreFacts.

Ltac world_simpl :=
  cbv beta iota;
  cbn [sessions physicsHeap motorHeap nextLoc rng now fst snd
       session_id created_at last_accessed physics motors runs current_run].

(** [updateMotor] writes the merged record into the motor map of the
    session, in place. *)
Lemma updateMotor_run (sid j : string) (params : PartialMotor) (w : World) :
  let s := fst (getOrCreate sid w) in
  let w1 := snd (getOrCreate sid w) in
  let m := match motorHeap w1 !! motors s with Some m => m | None => ∅ end in
  let updated :=
    mergeMotor j (match m !! j with Some e => e | None => defaultMotor j end) params in
  updateMotor sid j params w
  = (updated,
     {| sessions := sessions w1; physicsHeap := physicsHeap w1;
        motorHeap := <[motors s := <[j := updated]> m]> (motorHeap w1);
        nextLoc := nextLoc w1; rng := rng w1; now := now w1 |}).
Proof.
  unfold updateMotor, bind. destruct (getOrCreate sid w) as [s w1]. reflexivity.
Qed.

(** After [updateMotor] the motor map of the session holds the merged
    record under the joint. *)
Lemma updateMotor_stored (sid j : string) (params : PartialMotor) (w : World) :
  exists s m,
    sessions (snd (updateMotor sid j params w)) !! sid = Some s /\
    motorHeap (snd (updateMotor sid j params w)) !! motors s = Some m /\
    m !! j = Some (fst (updateMotor sid j params w)).
Proof.
  rewrite updateMotor_run. world_simpl.
  exists (fst (getOrCreate sid w)). eexists. split; [apply getOrCreate_stored |].
  split; [apply lookup_insert_eq |]. apply lookup_insert_eq.
Qed.

Section WithRuntime.
Context `{JsRuntime}.

(** The world in which a tool runs after its artificial delay. *)
Lemma delayed_store minMs maxMs w :
  sessions (delayed minMs maxMs w) = sessions w /\
  physicsHeap (delayed minMs maxMs w) = physicsHeap w /\
  motorHeap (delayed minMs maxMs w) = motorHeap w /\
  nextLoc (delayed minMs maxMs w) = nextLoc w.
Proof. unfold delayed. rewrite liftRand_run. cbn. auto. Qed.

(** With a joint id, [updateMotorParams] is [updateMotor] on an object that
    has the four gain properties, the missing ones holding [undefined]. *)
Lemma updateMotorParams_run (sid j : string) (args : Service.UpdateMotorArgs) (w : World) :
  Service.a_joint_id args = Some j -> j <> ""%string ->
  snd (Service.updateMotorParams sid args w)
  = snd (updateMotor sid j
           {| p_torque_limit := Some (Service.a_torque_limit args);
              p_pid_p := Some (Service.a_pid_p args);
              p_pid_i := Some (Service.a_pid_i args);
              p_pid_d := Some (Service.a_pid_d args);
              p_max_velocity := None |}
           (delayed 200 400 w)).
Proof.
  intros Hj Hne. unfold Service.updateMotorParams, delayed, bind.
  destruct (liftRand _ w) as [d w0]. cbn [fst snd].
  destruct (sleep d w0) as [u w1]. cbn [fst snd].
  rewrite Hj. apply String.eqb_neq in Hne. rewrite Hne.
  destruct (updateMotor _ _ _ w1). reflexivity.
Qed.

(** C5, on the code.  Two [update_motor_params] calls on the same joint,
    each with a [pid_p] and nothing else: the joint ends with the second
    [pid_p], and with [torque_limit], [pid_i] and [pid_d] holding
    [undefined], whatever they held before.  The spread of the object
    literal copies the properties that hold [undefined]. *)
Theorem C5_second_pid_p_wins_other_gains_erased (sid j : string) (v1 v2 : Q) (w : World) :
  j <> ""%string ->
  let w1 := snd (Service.updateMotorParams sid (Scenario.only_pid_p j v1) w) in
  let w2 := snd (Service.updateMotorParams sid (Scenario.only_pid_p j v2) w1) in
  exists s m motor,
    sessions w2 !! sid = Some s /\ motorHeap w2 !! motors s = Some m /\
    m !! j = Some motor /\
    pid_p motor = Some v2 /\
    torque_limit motor = None /\ pid_i motor = None /\ pid_d motor = None.
Proof.
  intros Hne w1 w2. subst w2.
  rewrite (updateMotorParams_run sid j) by (reflexivity || assumption).
  destruct (updateMotor_stored sid j
              {| p_torque_limit := Some (Service.a_torque_limit (Scenario.only_pid_p j v2));
                 p_pid_p := Some (Service.a_pid_p (Scenario.only_pid_p j v2));
                 p_pid_i := Some (Service.a_pid_i (Scenario.only_pid_p j v2));
                 p_pid_d := Some (Service.a_pid_d (Scenario.only_pid_p j v2));
                 p_max_velocity := None |} (delayed 200 400 w1)) as (s & m & Hs & Hm & Hj).
  exists s, m. eexists. split; [exact Hs |]. split; [exact Hm |]. split; [exact Hj |].
  rewrite updateMotor_run. cbn. auto.
Qed.

(** What a ground run leaves in the store.  The run record is the
    session's current run; it holds the session's own references to the
    physics object and to the motor map, and no object of the heap is
    created or changed after the session has been looked up. *)
Lemma runGroundSimulation_run fuel sid args w res w' :
  Service.runGroundSimulation fuel sid args w = (Some res, w') ->
  let s := fst (getOrCreate sid (delayed 2000 4500 w)) in
  let w1 := snd (getOrCreate sid (delayed 2000 4500 w)) in
  exists s' run,
    sessions w' !! sid = Some s' /\ current_run s' = Some run /\
    physics s' = physics s /\ motors s' = motors s /\
    physics_config run = physics s /\ motor_configs run = motors s /\
    physicsHeap w' = physicsHeap w1 /\ motorHeap w' = motorHeap w1 /\
    nextLoc w' = nextLoc w1 /\
    status run = (if Failures.shouldSimulationFail (events run) then failed else completed) /\
    Service.res_status res
    = (if Failures.shouldSimulationFail (events run)
       then Service.res_failed else Service.res_completed) /\
    fst (Failures.generateSimulationEvents fuel (telemetry run)
           (match physicsHeap w1 !! physics s with Some p => p | None => DEFAULT_PHYSICS end)
           (snd (Telemetry.generateTelemetryStream (duration_requested run)
                   (match physicsHeap w1 !! physics s with Some p => p | None => DEFAULT_PHYSICS end)
                   (match motorHeap w1 !! motors s with Some m => m | None => ∅ end) 50
                   (snd (Math_random (rng w1))))))
    = Some (events run).
Proof.
  unfold Service.runGroundSimulation, delayed, bind.
  rewrite !liftRand_run. unfold sleep at 1. world_simpl.
  unfold sleep. world_simpl.
  match goal with
  | |- context [getOrCreate sid ?W] =>
      pose proof (getOrCreate_stored sid W) as Hstored;
      destruct (getOrCreate sid W) as [s w1]
  end.
  cbn [fst snd] in Hstored |- *.
  unfold Service.generateRunId, bind, Date_now, readPhysics, readMotorMap, ret.
  rewrite !liftRand_run. world_simpl.
  match goal with
  | |- context [fst (Failures.generateSimulationEvents fuel ?l ?p ?g)] =>
      destruct (fst (Failures.generateSimulationEvents fuel l p g)) as [evs |] eqn:Eev
  end; [| discriminate].
  unfold Service.runGroundSimulation, addRun, bind, putSession.
  rewrite !liftRand_run. world_simpl.
  erewrite (getOrCreate_existing sid _ s) by exact Hstored. world_simpl.
  intros Hret.
  pose proof (f_equal snd Hret) as Hw. cbn [fst snd] in Hw. subst w'.
  pose proof (f_equal (fun r => match fst r with Some x => x | None => res end) Hret) as Hres.
  cbv beta iota in Hres. cbn [fst snd] in Hres. subst res. clear Hret.
  world_simpl.
  eexists. eexists. split; [apply lookup_insert_eq |].
  cbn [current_run physics motors physics_config motor_configs telemetry events status
       duration_requested touch Service.res_status].
  repeat (split; [reflexivity |]). exact Eev.
Qed.

End WithRuntime.
(** C5, witness: the first joint of a new session, its proportional gain
    set to 2 and then to 3. *)
Lemma C5_second_pid_p_wins_other_gains_erased_witness :
  "leg_1_coxa"%string <> ""%string /\
  let w := emptyWorld Scenario.halves 0 in
  let w1 := snd (Service.updateMotorParams (H := RefRuntime.runtime) "s1"
                   (Scenario.only_pid_p "leg_1_coxa" 2) w) in
  let w2 := snd (Service.updateMotorParams (H := RefRuntime.runtime) "s1"
                   (Scenario.only_pid_p "leg_1_coxa" 3) w1) in
  exists s m motor,
    sessions w2 !! "s1"%string = Some s /\ motorHeap w2 !! motors s = Some m /\
    m !! "leg_1_coxa"%string = Some motor /\
    pid_p motor = Some 3 /\
    torque_limit motor = None /\ pid_i motor = None /\ pid_d motor = None.
Proof.
  assert ("leg_1_coxa"%string <> ""%string) as Hne by discriminate.
  split; [exact Hne |].
  exact (C5_second_pid_p_wins_other_gains_erased (H := RefRuntime.runtime)
           "s1" "leg_1_coxa" 2 3 (emptyWorld Scenario.halves 0) Hne).
Defined.

End ServiceFacts.

Module RunFacts.
Import Types Store StoreFacts ServiceFacts.

Section WithRuntime.
Context `{JsRuntime}.

(** A result of the ground kind comes from the ground pipeline. *)
Lemma runSimulation_ground fuel sid args w res w' :
  Service.runSimulation fuel sid args w = (Some (Service.Returns (inl res)), w') ->
  Service.runGroundSimulation fuel sid args w = (Some res, w').
Proof.
  unfold Service.runSimulation, bind, ret. destruct (Service.isDrone args).
  - destruct (Service.runDroneSimulation fuel sid args w) as [[[d | e] |] w0]; discriminate.
  - destruct (Service.runGroundSimulation fuel sid args w) as [[r |] w0]; cbn; [| discriminate].
    intros [= <- <-]. reflexivity.
Qed.

(** C4 (amended).  [shouldSimulationFail] is true exactly on the lists that
    hold an event of severity critical; the run stored by [runSimulation],
    and the result it returns, are marked failed exactly when the run's
    events hold one.  When the event generator returns on a frame list
    with a sampled frame of [|pitch| > 30] or [|roll| > 25], it has
    generated, at some position [n], a rollover event of severity critical
    stamped with that frame's timestamp; what it returns is the first ten
    events generated, so that event is returned, and [shouldSimulationFail]
    is true on the result, when [n < 10]. *)
Theorem C4_failed_iff_critical_and_rollover_among_first_ten :
  (forall events,
     Failures.shouldSimulationFail events = true
     <-> exists e, e ∈ events /\ Failures.ev_severity e = critical) /\
  (forall fuel sid args w res w',
     Service.runSimulation fuel sid args w = (Some (Service.Returns (inl res)), w') ->
     exists s run,
       sessions w' !! sid = Some s /\ current_run s = Some run /\
       (status run = failed
        <-> exists e, e ∈ events run /\ Failures.ev_severity e = critical) /\
       (Service.res_status res = Service.res_failed <-> status run = failed)) /\
  (forall fuel frames physics g all i frame,
     fst (Failures.collectEvents fuel frames physics g) = Some all ->
     Scenario.sampled (length frames) i ->
     frames !! i = Some frame ->
     30 < Math_abs (pitch (imu frame)) \/ 25 < Math_abs (roll (imu frame)) ->
     fst (Failures.generateSimulationEvents fuel frames physics g) = Some (take 10 all) /\
     exists n e,
       all !! n = Some e /\ Scenario.is_rollover_of frame e /\
       ((n < 10)%nat ->
        take 10 all !! n = Some e /\ Failures.shouldSimulationFail (take 10 all) = true)).
Proof.
  split; [exact shouldSimulationFail_iff |]. split.
  - intros fuel sid args w res w' Hrun. apply runSimulation_ground in Hrun.
    apply runGroundSimulation_run in Hrun.
    destruct Hrun as (s & run & Hs & Hrun & _ & _ & _ & _ & _ & _ & _ & Hstatus & Hres & _).
    exists s, run. split; [exact Hs |]. split; [exact Hrun |].
    rewrite <- shouldSimulationFail_iff, Hstatus, Hres.
    destruct (Failures.shouldSimulationFail (events run)); repeat split; intros;
      first [reflexivity | discriminate].
  - intros fuel frames physics g all i frame Hall Hsampled Hframe Hlimit.
    split; [rewrite generateSimulationEvents_take, Hall; reflexivity |].
    destruct (collectEvents_rollover fuel frames physics g all i frame Hall Hsampled Hframe Hlimit)
      as (n & e & Hn & He).
    exists n, e. split; [exact Hn |]. split; [exact He |].
    intros Hlt.
    assert (take 10 all !! n = Some e) as Htake by (rewrite lookup_take_lt by exact Hlt; exact Hn).
    split; [exact Htake |].
    apply shouldSimulationFail_iff. exists e. split.
    + eapply list_elem_of_lookup_2. exact Htake.
    + apply He.
Qed.

End WithRuntime.

(** C4, witness: of ten frames the second one has a pitch of 35 degrees;
    its rollover is the second event generated. *)
Lemma C4_failed_iff_critical_and_rollover_among_first_ten_witness :
  exists all frame,
    fst (Failures.collectEvents (H := RefRuntime.runtime) 10 Scenario.early_rollover
           DEFAULT_PHYSICS Scenario.halves) = Some all /\
    Scenario.early_rollover !! 1%nat = Some frame /\
    fst (Failures.generateSimulationEvents (H := RefRuntime.runtime) 10
           Scenario.early_rollover DEFAULT_PHYSICS Scenario.halves) = Some (take 10 all) /\
    exists n e, all !! n = Some e /\ Scenario.is_rollover_of frame e.
Proof.
  eexists. exists (Scenario.tipped 20).
  assert (fst (Failures.collectEvents (H := RefRuntime.runtime) 10 Scenario.early_rollover
                 DEFAULT_PHYSICS Scenario.halves) = Some _) as Hall
    by (vm_compute; reflexivity).
  split; [exact Hall |]. split; [reflexivity |].
  destruct (C4_failed_iff_critical_and_rollover_among_first_ten (H := RefRuntime.runtime))
    as (_ & _ & Hroll).
  destruct (Hroll 10%nat Scenario.early_rollover DEFAULT_PHYSICS Scenario.halves _ 1%nat
              (Scenario.tipped 20) Hall) as (Hgen & n & e & Hn & He & _).
  - exists 1%nat. split; [lia | split; [reflexivity | cbn; lia]].
  - reflexivity.
  - left. reflexivity.
  - split; [exact Hgen |]. exists n, e. split; assumption.
Defined.

(** C4 as stated fails.  Of ten frames the sixth has a pitch of 35
    degrees and is sampled, but the four sampled frames before it have
    raised twelve warnings: the generator returns ten warnings, no rollover
    and no critical event, and [shouldSimulationFail] is false. *)
Lemma C4_counterexample :
  Scenario.late_rollover !! 5%nat = Some (Scenario.tipped 100) /\
  30 < Math_abs (pitch (imu (Scenario.tipped 100))) /\
  exists events,
    fst (Failures.generateSimulationEvents (H := RefRuntime.runtime) 10
           Scenario.late_rollover DEFAULT_PHYSICS Scenario.halves) = Some events /\
    length events = 10%nat /\
    forallb (fun e => negb (String.eqb (Failures.ev_type e) "rollover")) events = true /\
    forallb (fun e => negb (Failures.is_critical e)) events = true /\
    Failures.shouldSimulationFail events = false.
Proof.
  split; [reflexivity |]. split; [reflexivity |].
  eexists. split; [vm_compute; reflexivity |].
  repeat split.
Qed.

End RunFacts.

Module SnapshotFacts.
Import Types Store StoreFacts ServiceFacts.

Section WithRuntime.
Context `{JsRuntime}.

(** A ground run returns when its telemetry has no frame or at least ten,
    given fuel for one pass per frame. *)
Lemma runGroundSimulation_returns fuel sid args w :
  let n := Telemetry.totalSamples (Service.or_number (Service.a_duration_seconds args) 5) 50 in
  (n = 0 \/ 10 <= n)%nat -> (n <= fuel)%nat ->
  exists res w', Service.runGroundSimulation fuel sid args w = (Some res, w').
Proof.
  intros n Hn Hfuel.
  unfold Service.runGroundSimulation, bind.
  rewrite !liftRand_run. unfold sleep. world_simpl.
  destruct (getOrCreate sid _) as [s w1].
  unfold Service.generateRunId, bind, Date_now, readPhysics, readMotorMap, ret.
  rewrite !liftRand_run. world_simpl.
  match goal with
  | |- context [fst (Failures.generateSimulationEvents fuel ?l ?p ?g)] =>
      destruct (generateSimulationEvents_returns fuel l p g) as (evs & -> & _);
      [rewrite generateTelemetryStream_length; exact Hn
      | rewrite generateTelemetryStream_length; exact Hfuel |]
  end.
  unfold addRun, bind, putSession. rewrite !liftRand_run. world_simpl.
  destruct (getOrCreate sid _) as [s2 w2]. world_simpl.
  eexists. eexists. reflexivity.
Qed.

(** The physics objects that exist are never written again: configuring
    the physics of a session creates a new object. *)
Lemma updatePhysics_keeps_objects sid p w l :
  (l < nextLoc w)%nat ->
  physicsHeap (snd (updatePhysics sid p w)) !! l = physicsHeap w !! l.
Proof.
  intros Hl. unfold updatePhysics, bind, ret, readPhysics, newPhysics, putSession.
  destruct (sessions w !! sid) as [s0 |] eqn:E.
  - rewrite (getOrCreate_existing _ _ _ E). world_simpl.
    apply lookup_insert_ne. lia.
  - rewrite (getOrCreate_fresh _ _ E). world_simpl.
    rewrite !lookup_insert_ne by lia. reflexivity.
Qed.

Lemma configurePhysics_keeps_objects sid cfg w l :
  (l < nextLoc w)%nat ->
  physicsHeap (snd (Service.configurePhysics sid cfg w)) !! l = physicsHeap w !! l.
Proof.
  intros Hl. unfold Service.configurePhysics, bind, ret.
  rewrite liftRand_run. unfold sleep. world_simpl.
  destruct (Service.a_friction_coefficient cfg) as [f |];
    [destruct (ltb f 0 || gtb f 1)%bool |];
    (destruct (Service.a_terrain_type cfg) as [t |];
     [destruct (negb (t =? "")%string && negb (Service.known_terrain t))%bool |]);
    match goal with
    | |- context [updatePhysics sid ?p ?w0] =>
        pose proof (updatePhysics_keeps_objects sid p w0 l Hl) as Hkeep;
        destruct (updatePhysics sid p w0) as [p' w']
    end; exact Hkeep.
Qed.

(** C3, on the code.  A new process runs a ground simulation for a
    session, without arguments.  The run it stores sees the default
    physics and the default motors.  A later [configure_physics] leaves the
    physics of the stored run as it was: the session gets a new object.  A
    later [update_motor_params] with a [pid_p] for a joint changes what
    the stored run holds for that joint: the run and the session share one
    motor map, which is updated in place. *)
Theorem C3_stored_run_shares_the_motor_map (g : RNG) (t v : Q) :
  exists res w1 s run,
    Service.runSimulation 250 "s1" Scenario.no_args (emptyWorld g t)
    = (Some (Service.Returns (inl res)), w1) /\
    sessions w1 !! "s1"%string = Some s /\ current_run s = Some run /\
    run_physics w1 run = Some DEFAULT_PHYSICS /\
    run_motor w1 run "leg_1_coxa" = Some (defaultMotor "leg_1_coxa") /\
    (forall cfg,
       run_physics (snd (Service.configurePhysics "s1" cfg w1)) run = Some DEFAULT_PHYSICS) /\
    run_motor (snd (Service.updateMotorParams "s1" (Scenario.only_pid_p "leg_1_coxa" v) w1))
              run "leg_1_coxa"
    = Some {| joint_id := Some "leg_1_coxa"%string; torque_limit := None;
              pid_p := Some v; pid_i := None; pid_d := None;
              max_velocity := Some 5.0 |}.
Proof.
  destruct (runGroundSimulation_returns 250 "s1" Scenario.no_args (emptyWorld g t))
    as (res & w1 & Hrun);
    [ right; rewrite (totalSamples_integers 5 50) by (cbn; lia); cbn; lia
    | rewrite (totalSamples_integers 5 50) by (cbn; lia); cbn; lia |].
  pose proof (runGroundSimulation_run _ _ _ _ _ _ Hrun) as Hfacts. cbv zeta in Hfacts.
  unfold delayed in Hfacts. rewrite liftRand_run in Hfacts. unfold sleep in Hfacts.
  cbn [fst snd] in Hfacts.
  rewrite getOrCreate_fresh in Hfacts by apply lookup_empty.
  cbv zeta in Hfacts.
  cbn [fst snd sessions physicsHeap motorHeap nextLoc rng now physics motors emptyWorld]
    in Hfacts.
  destruct Hfacts as (s & run & Hs & Hcur & Hsp & Hsm & Hrp & Hrm & Hph & Hmh & Hnext & _).
  exists res, w1, s, run.
  assert (Scenario.defaultMotors !! "leg_1_coxa"%string = Some (defaultMotor "leg_1_coxa"))
    as Hdefault by (vm_compute; reflexivity).
  split.
  { unfold Service.runSimulation. change (Service.isDrone Scenario.no_args) with false.
    unfold bind, ret. rewrite Hrun. reflexivity. }
  split; [exact Hs |]. split; [exact Hcur |].
  split; [unfold run_physics; rewrite Hph, Hrp; apply lookup_insert_eq |].
  split; [unfold run_motor; rewrite Hmh, Hrm, lookup_insert_eq; exact Hdefault |].
  split.
  - intros cfg. unfold run_physics.
    rewrite configurePhysics_keeps_objects by (rewrite Hnext, Hrp; lia).
    rewrite Hph, Hrp. apply lookup_insert_eq.
  - unfold run_motor.
    rewrite (updateMotorParams_run "s1" "leg_1_coxa") by (reflexivity || discriminate).
    rewrite updateMotor_run. cbv zeta.
    destruct (delayed_store 200 400 w1) as (Hds & _ & Hdm & _).
    rewrite (getOrCreate_existing "s1" _ s) by (rewrite Hds; exact Hs).
    world_simpl. cbn [touch motors]. rewrite Hdm, Hmh, Hsm, Hrm, !lookup_insert_eq, Hdefault.
    reflexivity.
Qed.

End WithRuntime.
End SnapshotFacts.

(** ** C6: the recommendations *)

Section Recommendations.

Lemma uniq_go_spec (seen l : list string) :
  NoDup (Loop.uniq_go seen l) /\
  forall x, x ∈ Loop.uniq_go seen l -> (x ∉ seen) /\ x ∈ l.
Proof.
  revert seen. induction l as [| a l IH]; intros seen; cbn [Loop.uniq_go].
  - split; [constructor |]. intros x Hx. inversion Hx.
  - destruct (existsb (String.eqb a) seen) eqn:E.
    + destruct (IH seen) as [Hnd Hin]. split; [exact Hnd |].
      intros x Hx. destruct (Hin x Hx). split; [assumption | now right].
    + destruct (IH (a :: seen)) as [Hnd Hin]. split.
      * apply NoDup_cons. split; [| exact Hnd].
        intros Ha. destruct (Hin a Ha) as [Hns _]. apply Hns. now left.
      * intros x Hx. apply elem_of_cons in Hx as [-> | Hx].
        -- split; [| now left]. intros Hs.
           assert (existsb (String.eqb a) seen = true) as Et; [| congruence].
           apply existsb_exists. exists a. split; [now apply list_elem_of_In |].
           apply String.eqb_refl.
        -- destruct (Hin x Hx) as [Hns Hl]. split; [| now right].
           intros Hs. apply Hns. now right.
Qed.

(** [[...new Set(l)]] has no duplicate and holds strings of [l] only. *)
Lemma uniq_NoDup (l : list string) : NoDup (Loop.uniq l).
Proof. apply uniq_go_spec. Qed.

Lemma take_NoDup {A} (n : nat) (l : list A) : NoDup l -> NoDup (take n l).
Proof. intros Hl. exact (sublist_NoDup _ _ Hl (sublist_take l n)). Qed.

(** C6 (amended).  For every event list and physics configuration both
    recommendation generators return a list without duplicates of at most
    five strings: the aerial generator cuts at five like the ground one. *)
Theorem C6_recommendations_distinct_at_most_5
    (events : list Failures.SimulationEvent) (physics : Types.PhysicsConfig)
    (devents : list DroneFailures.DroneSimulationEvent)
    (dphysics : Drone.DronePhysicsConfig) :
  (NoDup (Failures.generateRecommendations events physics) /\
   (length (Failures.generateRecommendations events physics) <= 5)%nat) /\
  (NoDup (DroneFailures.generateDroneRecommendations devents dphysics) /\
   (length (DroneFailures.generateDroneRecommendations devents dphysics) <= 5)%nat).
Proof.
  unfold Failures.generateRecommendations, DroneFailures.generateDroneRecommendations.
  split; (split; [apply take_NoDup, uniq_NoDup | rewrite length_take; lia]).
Qed.

End Recommendations.

(** C6 as stated fails for the aerial generator: on a motor failure, a GPS
    loss and a low battery it returns five recommendations, not four. *)
Lemma C6_counterexample :
  length (DroneFailures.generateDroneRecommendations
            [ {| DroneFailures.ev_timestamp := 0; DroneFailures.ev_type := "motor_failure";
                 DroneFailures.ev_severity := Types.warning;
                 DroneFailures.ev_message := ""; DroneFailures.ev_data := None |};
              {| DroneFailures.ev_timestamp := 20; DroneFailures.ev_type := "gps_loss";
                 DroneFailures.ev_severity := Types.warning;
                 DroneFailures.ev_message := ""; DroneFailures.ev_data := None |};
              {| DroneFailures.ev_timestamp := 40; DroneFailures.ev_type := "low_battery";
                 DroneFailures.ev_severity := Types.warning;
                 DroneFailures.ev_message := ""; DroneFailures.ev_data := None |} ]
            Store.DEFAULT_DRONE_PHYSICS)
  = 5%nat.
Proof. vm_compute. reflexivity. Qed.

(** ** C10: the analyzers on degenerate input *)

Section Degenerate.
Context `{JsRuntime}.

(** C10.  On no frame [analyzeTelemetry] and [analyzeDroneTelemetry] return
    a record whose every field is 0, and on fewer than two frames
    [analyzeDroneFlightPath] returns a record whose every field is 0: the
    guards come before any division by the number of frames. *)
Theorem C10_analyzers_return_zero_records (frames : list Drone.DroneTelemetryFrame) :
  (length frames < 2)%nat ->
  Analysis.analyzeTelemetry []
  = {| Types.stability_score := 0; Types.efficiency_score := Some 0;
       Types.gait_symmetry := 0; Types.max_pitch_deviation := 0;
       Types.max_roll_deviation := 0; Types.slip_events := 0;
       Types.total_energy_consumed := Some 0; Types.avg_joint_temperature := 0 |} /\
  Drone.analyzeDroneTelemetry []
  = {| Drone.hover_accuracy := 0; Drone.altitude_stability := 0;
       Drone.battery_efficiency := 0; Drone.wind_compensation_events := 0;
       Drone.max_altitude_deviation := 0; Drone.avg_rotor_rpm := 0;
       Drone.gps_quality_avg := 0 |} /\
  Drone.analyzeDroneFlightPath frames
  = {| Drone.waypoints_completed := 0; Drone.total_distance := 0;
       Drone.max_speed := 0; Drone.avg_speed := 0 |}.
Proof.
  intros Hlen. split; [reflexivity |]. split; [reflexivity |].
  unfold Drone.analyzeDroneFlightPath. apply Nat.ltb_lt in Hlen. rewrite Hlen. reflexivity.
Qed.

End Degenerate.

(** C10, witness: a flight of a single frame. *)
Lemma C10_analyzers_return_zero_records_witness :
  (length [Scenario.grounded 0] < 2)%nat /\
  Drone.analyzeDroneFlightPath (H := RefRuntime.runtime) [Scenario.grounded 0]
  = {| Drone.waypoints_completed := 0; Drone.total_distance := 0;
       Drone.max_speed := 0; Drone.avg_speed := 0 |}.
Proof.
  assert (length [Scenario.grounded 0] < 2)%nat as Hlen by (cbn; lia).
  split; [exact Hlen |].
  exact (proj2 (proj2 (C10_analyzers_return_zero_records (H := RefRuntime.runtime)
                         [Scenario.grounded 0] Hlen))).
Defined.

(** ** C9: the weights of the failure types *)

(** The table of the weighted draw is built inside [shouldInjectFailure]
    and [shouldInjectDroneFailure], from the modifiers of the terrain and of
    the airspace.  Whatever the physics and the progress, four weights of
    the ground robot and five of the quadcopter are positive: the table
    never has a single entry that is not zero. *)
Lemma weights_never_single (physics : Types.PhysicsConfig) (progress : Q)
    (dphysics : Drone.DronePhysicsConfig) (dprogress : Q) :
  Forall (fun t =>
            0 < Failures.weightOf
                  (Failures.getTerrainModifiers (Types.terrain_type physics))
                  physics progress t)
         [Failures.gait_mismatch; Failures.power_fluctuation; Failures.sensor_noise;
          Failures.joint_limit_exceeded] /\
  Forall (fun t =>
            0 < DroneFailures.weightOf
                  (DroneFailures.getAirspaceModifiers (Drone.airspace_condition dphysics))
                  dphysics dprogress t)
         [DroneFailures.motor_failure; DroneFailures.signal_lost;
          DroneFailures.geofence_breach; DroneFailures.obstacle_detected;
          DroneFailures.flyaway].
Proof.
  split.
  - unfold Failures.getTerrainModifiers.
    repeat match goal with
           | |- context [String.eqb ?a ?b] => destruct (String.eqb a b)
           end;
      repeat (apply Forall_cons; split; [reflexivity |]); apply Forall_nil_2.
  - unfold DroneFailures.getAirspaceModifiers.
    repeat match goal with
           | |- context [String.eqb ?a ?b] => destruct (String.eqb a b)
           end;
      repeat (apply Forall_cons; split; [reflexivity |]); apply Forall_nil_2.
Qed.

(** ** C7: the rotor speeds of the aerial generator *)

Section RotorSpeeds.
Context `{JsRuntime}.

Import Drone.













End RotorSpeeds.





(** ** The session store: sessions, merges, runs, cleanup *)

Module StoreProps.
Import Types Store StoreFacts ServiceFacts.

(** A map filled by successive [set] calls: the last value of a key. *)
Lemma lookup_fill {V} (f : string -> V) (js : list string) (m0 : gmap string V) (k : string) :
  fold_left (fun m j => <[j := f j]> m) js m0 !! k
  = if bool_decide (k ∈ js) then Some (f k) else m0 !! k.
Proof.
  revert m0. induction js as [| j js IH]; intros m0; [reflexivity |].
  cbn [fold_left]. rewrite IH.
  destruct (bool_decide (k ∈ js)) eqn:Ein.
  - apply bool_decide_eq_true in Ein.
    rewrite bool_decide_eq_true_2 by (now right). reflexivity.
  - apply bool_decide_eq_false in Ein.
    destruct (decide (k = j)) as [-> | Hne].
    + rewrite bool_decide_eq_true_2 by (now left). apply lookup_insert_eq.
    + rewrite bool_decide_eq_false_2 by (rewrite elem_of_cons; tauto).
      now apply lookup_insert_ne.
Qed.

(** [getOrCreate] on an unknown id stores and returns a session created at
    the current time, without runs, with the default physics and with the
    default motor parameters under each of the eighteen joints of the
    hexapod, and under no other key. *)
Theorem new_session_has_defaults (sid : string) (w : World) :
  sessions w !! sid = None ->
  let s := fst (getOrCreate sid w) in
  let w' := snd (getOrCreate sid w) in
  sessions w' !! sid = Some s /\
  session_id s = sid /\ created_at s = now w /\ last_accessed s = now w /\
  runs s = [] /\ current_run s = None /\
  physicsHeap w' !! physics s = Some DEFAULT_PHYSICS /\
  exists m,
    motorHeap w' !! motors s = Some m /\
    forall j, m !! j = if bool_decide (j ∈ HEXAPOD_JOINTS) then Some (defaultMotor j) else None.
Proof.
  intros Hnone. rewrite (getOrCreate_fresh _ _ Hnone). cbv zeta. world_simpl.
  split; [apply lookup_insert_eq |]. repeat (split; [reflexivity |]).
  split; [apply lookup_insert_eq |].
  exists Scenario.defaultMotors. split; [apply lookup_insert_eq |].
  intros j. unfold Scenario.defaultMotors. rewrite lookup_fill. now rewrite lookup_empty.
Qed.

(** Calling [getOrCreate] again at the same time changes nothing: it
    returns the same session and leaves the store as it is. *)
Theorem getOrCreate_again (sid : string) (w : World) :
  getOrCreate sid (snd (getOrCreate sid w)) = getOrCreate sid w.
Proof.
  destruct (sessions w !! sid) as [s0 |] eqn:E.
  - rewrite (getOrCreate_existing _ _ _ E). cbn [snd].
    erewrite getOrCreate_existing by (cbn; apply lookup_insert_eq).
    cbn. now rewrite insert_insert_eq.
  - rewrite (getOrCreate_fresh _ _ E). cbv zeta. cbn [snd].
    erewrite getOrCreate_existing by (cbn; apply lookup_insert_eq).
    cbn. now rewrite insert_insert_eq.
Qed.

(** [updatePhysics] stores a new object holding the merge. *)
Lemma updatePhysics_run (sid : string) (p : PartialPhysics) (w : World) :
  let s := fst (getOrCreate sid w) in
  let w1 := snd (getOrCreate sid w) in
  let old := match physicsHeap w1 !! physics s with Some c => c | None => DEFAULT_PHYSICS end in
  updatePhysics sid p w
  = (mergePhysics old p,
     {| sessions :=
          <[sid := {| session_id := session_id s; created_at := created_at s;
                      last_accessed := last_accessed s; physics := nextLoc w1;
                      motors := motors s; runs := runs s;
                      current_run := current_run s |}]> (sessions w1);
        physicsHeap := <[nextLoc w1 := mergePhysics old p]> (physicsHeap w1);
        motorHeap := motorHeap w1; nextLoc := S (nextLoc w1);
        rng := rng w1; now := now w1 |}).
Proof.
  unfold updatePhysics, bind. destruct (getOrCreate sid w) as [s w1]. reflexivity.
Qed.

(** Two [updatePhysics] calls in a row: the second merges its properties
    into what the first returned, so that a property set by the first call
    and absent from the second survives, and a property set by both holds
    the second value.  The session then points to an object holding the
    result; its motor map and its runs are not touched. *)
Theorem updatePhysics_last_write_wins (sid : string) (p1 p2 : PartialPhysics) (w : World) :
  let r1 := updatePhysics sid p1 w in
  let r2 := updatePhysics sid p2 (snd r1) in
  fst r2 = mergePhysics (fst r1) p2 /\
  exists s,
    sessions (snd r2) !! sid = Some s /\
    physicsHeap (snd r2) !! physics s = Some (fst r2) /\
    motors s = motors (fst (getOrCreate sid w)) /\
    runs s = runs (fst (getOrCreate sid w)).
Proof.
  cbv zeta. rewrite (updatePhysics_run sid p1 w). cbv zeta. cbn [fst snd].
  rewrite updatePhysics_run. cbv zeta.
  erewrite getOrCreate_existing by (cbn; apply lookup_insert_eq).
  world_simpl. cbn [touch physics motors runs].
  rewrite lookup_insert_eq. split; [reflexivity |].
  eexists. split; [apply lookup_insert_eq |]. world_simpl.
  split; [apply lookup_insert_eq |]. split; reflexivity.
Qed.

(** [updateMotor] on a session that exists writes one key of its motor
    map: the record returned, whose [joint_id] is the joint of the call.
    The other joints, the physics objects and the runs are as before. *)
Theorem updateMotor_writes_one_joint (sid j : string) (params : PartialMotor) (w : World)
    (s0 : SessionState) (m0 : gmap string MotorParams) :
  sessions w !! sid = Some s0 ->
  motorHeap w !! motors s0 = Some m0 ->
  let motor := fst (updateMotor sid j params w) in
  let w' := snd (updateMotor sid j params w) in
  joint_id motor = Some j /\
  motorHeap w' !! motors s0 = Some (<[j := motor]> m0) /\
  (forall j', j' <> j -> <[j := motor]> m0 !! j' = m0 !! j') /\
  physicsHeap w' = physicsHeap w /\
  exists s, sessions w' !! sid = Some s /\ motors s = motors s0 /\ runs s = runs s0 /\
            physics s = physics s0.
Proof.
  intros Hs Hm. cbv zeta. rewrite updateMotor_run. cbv zeta.
  rewrite (getOrCreate_existing _ _ _ Hs). world_simpl. cbn [touch motors].
  rewrite Hm. split; [reflexivity |]. split; [apply lookup_insert_eq |].
  split; [intros j' Hne; now apply lookup_insert_ne |]. split; [reflexivity |].
  eexists. split; [apply lookup_insert_eq |]. repeat split.
Qed.

Lemma addRun_run (sid : string) (run : SimulationRun) (w : World) :
  let s := fst (getOrCreate sid w) in
  let w1 := snd (getOrCreate sid w) in
  let runs' := if (10 <? length (runs s ++ [run]))%nat
               then last10 (runs s ++ [run]) else runs s ++ [run] in
  addRun sid run w
  = (tt, {| sessions :=
              <[sid := {| session_id := session_id s; created_at := created_at s;
                          last_accessed := last_accessed s; physics := physics s;
                          motors := motors s; runs := runs';
                          current_run := Some run |}]> (sessions w1);
            physicsHeap := physicsHeap w1; motorHeap := motorHeap w1;
            nextLoc := nextLoc w1; rng := rng w1; now := now w1 |}).
Proof. unfold addRun, bind. destruct (getOrCreate sid w) as [s w1]. reflexivity. Qed.

Lemma last10_spec {A} (l : list A) (x : A) :
  let l' := if (10 <? length (l ++ [x]))%nat then last10 (l ++ [x]) else l ++ [x] in
  (length l' <= 10)%nat /\ last l' = Some x /\ l' `suffix_of` (l ++ [x]).
Proof.
  cbv zeta. destruct (10 <? length (l ++ [x]))%nat eqn:E.
  - apply Nat.ltb_lt in E. unfold last10. split; [rewrite length_drop; lia |].
    split; [| apply suffix_drop].
    rewrite length_app in *. cbn [length] in *.
    rewrite drop_app_le by lia. apply last_snoc.
  - apply Nat.ltb_ge in E. split; [exact E |]. split; [apply last_snoc | reflexivity].
Qed.

(** What [addRun] leaves in the session. *)
Lemma addRun_stored (sid : string) (run : SimulationRun) (w : World) :
  exists s,
    sessions (snd (addRun sid run w)) !! sid = Some s /\ current_run s = Some run /\
    last (runs s) = Some run /\ (length (runs s) <= 10)%nat /\
    runs s `suffix_of` (runs (fst (getOrCreate sid w)) ++ [run]).
Proof.
  rewrite addRun_run. cbv zeta. world_simpl.
  destruct (last10_spec (runs (fst (getOrCreate sid w))) run) as (Hlen & Hlast & Hsuf).
  cbv zeta in Hlen, Hlast, Hsuf.
  eexists. split; [apply lookup_insert_eq |]. cbn [current_run runs]. auto.
Qed.


(** [get], [getLatestRun] and [getRun] never create a session: on an
    unknown id they return [undefined] and leave the store as it is. *)
Theorem get_does_not_create (sid runId : string) (w : World) :
  sessions w !! sid = None ->
  get sid w = (None, w) /\ getLatestRun sid w = (None, w) /\ getRun sid runId w = (None, w).
Proof.
  intros Hnone. unfold getLatestRun, getRun, get, bind, getSession, ret. rewrite Hnone.
  auto.
Qed.

(** *** Expiry *)

Lemma expired_entries (m : gmap string SessionState) (t : Q) (k : string) :
  k ∈ map fst (List.filter (fun entry => expired t (snd entry)) (map_to_list m))
  <-> exists s, m !! k = Some s /\ expired t s = true.
Proof.
  rewrite list_elem_of_In, in_map_iff. split.
  - intros ([k' s] & <- & Hin). apply filter_In in Hin as [Hin Hex].
    exists s. split; [| exact Hex]. apply elem_of_map_to_list. now apply list_elem_of_In.
  - intros (s & Hs & Hex). exists (k, s). split; [reflexivity |].
    apply filter_In. split; [| exact Hex]. apply list_elem_of_In.
    now apply elem_of_map_to_list.
Qed.

Lemma size_foldr_delete (m : gmap string SessionState) (ks : list string) :
  NoDup ks -> (forall k, k ∈ ks -> is_Some (m !! k)) ->
  (length ks + size (foldr base.delete m ks) = size m)%nat.
Proof.
  induction ks as [| k ks IH]; intros Hnd Hin; [reflexivity |].
  apply NoDup_cons in Hnd as [Hk Hnd]. cbn [foldr length].
  rewrite map_size_delete_Some.
  - specialize (IH Hnd ltac:(intros; apply Hin; now right)).
    assert (size (foldr base.delete m ks) <> 0)%nat; [| lia].
    apply (map_size_ne_0_lookup_2 _ k).
    rewrite lookup_foldr_delete_not_elem_of by exact Hk. apply Hin. now left.
  - rewrite lookup_foldr_delete_not_elem_of by exact Hk. apply Hin. now left.
Qed.

(** What [cleanup] leaves under a session id. *)
Lemma cleanup_lookup (w : World) (sid : string) :
  sessions (snd (cleanup w)) !! sid
  = match sessions w !! sid with
    | Some s => if gtb (now w - last_accessed s) (30 * 60 * 1000) then None else Some s
    | None => None
    end.
Proof.
  unfold cleanup, bind, Date_now. world_simpl.
  destruct (sessions w !! sid) as [s |] eqn:Hs.
  - destruct (gtb (now w - last_accessed s) (30 * 60 * 1000)) eqn:Hex.
    + apply lookup_foldr_delete, expired_entries. eauto.
    + rewrite lookup_foldr_delete_not_elem_of; [exact Hs |].
      rewrite expired_entries. intros (s' & Hs' & Hex').
      rewrite Hs in Hs'. injection Hs' as <-. unfold expired, SESSION_TTL_MS in Hex'.
      congruence.
  - rewrite lookup_foldr_delete_not_elem_of; [exact Hs |].
    rewrite expired_entries. intros (s' & Hs' & _). congruence.
Qed.

(** [cleanup] deletes exactly the sessions that have not been accessed for
    more than thirty minutes, keeps the others as they are, and returns
    the number of sessions deleted. *)
Theorem cleanup_deletes_the_idle_sessions (w : World) :
  (forall sid,
     sessions (snd (cleanup w)) !! sid
     = match sessions w !! sid with
       | Some s => if gtb (now w - last_accessed s) (30 * 60 * 1000) then None else Some s
       | None => None
       end) /\
  (fst (cleanup w) + size (sessions (snd (cleanup w))) = size (sessions w))%nat.
Proof.
  split; [intros sid; apply cleanup_lookup |].
  unfold cleanup, bind, Date_now. world_simpl.
  - rewrite <- (length_map fst). apply size_foldr_delete.
    + apply (sublist_NoDup _ (fst <$> map_to_list (sessions w)));
        [apply NoDup_fst_map_to_list |].
      induction (map_to_list (sessions w)) as [| e l IH]; cbn [List.filter map fmap list_fmap];
        [constructor |].
      destruct (expired (now w) (snd e)); cbn [map];
        [now apply sublist_skip | now apply sublist_cons].
    + intros k Hk. apply expired_entries in Hk as (s & -> & _). eauto.
Qed.

(** A session that is accessed survives every cleanup of the next thirty
    minutes. *)
Theorem accessed_session_survives_cleanup (sid : string) (ms : Q) (w : World) :
  ms <= SESSION_TTL_MS ->
  let w1 := snd (getOrCreate sid w) in
  let w2 := snd (sleep ms w1) in
  sessions (snd (cleanup w2)) !! sid = Some (fst (getOrCreate sid w)).
Proof.
  intros Hms. cbv zeta.
  rewrite cleanup_lookup. unfold sleep. world_simpl. rewrite getOrCreate_stored.
  assert (last_accessed (fst (getOrCreate sid w)) = now (snd (getOrCreate sid w))) as ->.
  { destruct (sessions w !! sid) as [s0 |] eqn:E.
    - now rewrite (getOrCreate_existing _ _ _ E).
    - now rewrite (getOrCreate_fresh _ _ E). }
  assert (gtb (now (snd (getOrCreate sid w)) + ms - now (snd (getOrCreate sid w)))
              (30 * 60 * 1000) = false) as ->; [| reflexivity].
  apply gtb_le. unfold SESSION_TTL_MS in Hms. lra.
Qed.

(** [delete] forgets the session and tells whether there was one; the
    other sessions stay, and a later [getOrCreate] starts from the
    defaults. *)
Theorem delete_forgets_the_session (sid : string) (w : World) :
  let w' := snd (delete sid w) in
  fst (delete sid w) = bool_decide (is_Some (sessions w !! sid)) /\
  sessions w' !! sid = None /\
  (forall sid', sid' <> sid -> sessions w' !! sid' = sessions w !! sid') /\
  fst (get sid w') = None /\
  runs (fst (getOrCreate sid w')) = [] /\
  physicsHeap (snd (getOrCreate sid w')) !! physics (fst (getOrCreate sid w'))
  = Some DEFAULT_PHYSICS.
Proof.
  cbv zeta. unfold delete. world_simpl.
  assert (base.delete sid (sessions w) !! sid = None) as Hgone by apply lookup_delete_eq.
  split; [| split; [exact Hgone | split; [| split; [| split]]]].
  - destruct (sessions w !! sid) as [s |].
    + symmetry. apply bool_decide_eq_true. eauto.
    + symmetry. apply bool_decide_eq_false. intros [? ?]. discriminate.
  - intros sid' Hne. now apply lookup_delete_ne.
  - unfold get, bind, getSession. cbn [sessions fst snd]. now rewrite Hgone.
  - erewrite getOrCreate_fresh by exact Hgone. reflexivity.
  - erewrite getOrCreate_fresh by exact Hgone. cbv zeta. world_simpl.
    apply lookup_insert_eq.
Qed.

End StoreProps.

(** Witness: a process that has just started. *)
Lemma new_session_has_defaults_witness :
  let w := Store.emptyWorld Scenario.halves 0 in
  let s := fst (Store.getOrCreate "s1" w) in
  let w' := snd (Store.getOrCreate "s1" w) in
  Store.sessions w !! "s1"%string = None /\
  Store.sessions w' !! "s1"%string = Some s /\
  Store.runs s = [] /\
  Store.physicsHeap w' !! Store.physics s = Some Types.DEFAULT_PHYSICS.
Proof.
  cbv zeta.
  assert (Store.sessions (Store.emptyWorld Scenario.halves 0) !! "s1"%string = None) as Hn
    by reflexivity.
  destruct (StoreProps.new_session_has_defaults "s1" (Store.emptyWorld Scenario.halves 0) Hn)
    as (Hs & _ & _ & _ & Hr & _ & Hp & _).
  auto.
Defined.

(** Witness: the session of a process that has just created it. *)
Lemma updateMotor_writes_one_joint_witness :
  let w := snd (Store.getOrCreate "s1" (Store.emptyWorld Scenario.halves 0)) in
  let s0 := fst (Store.getOrCreate "s1" (Store.emptyWorld Scenario.halves 0)) in
  let params := {| Store.p_torque_limit := None; Store.p_pid_p := Some (Some 2);
                   Store.p_pid_i := None; Store.p_pid_d := None;
                   Store.p_max_velocity := None |} in
  (Store.sessions w !! "s1"%string = Some s0 /\
   Store.motorHeap w !! Store.motors s0 = Some Scenario.defaultMotors) /\
  Types.joint_id (fst (Store.updateMotor "s1" "leg_1_coxa" params w))
  = Some "leg_1_coxa"%string /\
  Store.motorHeap (snd (Store.updateMotor "s1" "leg_1_coxa" params w)) !! Store.motors s0
  = Some (<["leg_1_coxa"%string := fst (Store.updateMotor "s1" "leg_1_coxa" params w)]>
            Scenario.defaultMotors).
Proof.
  cbv zeta.
  assert (Store.sessions (snd (Store.getOrCreate "s1" (Store.emptyWorld Scenario.halves 0)))
            !! "s1"%string
          = Some (fst (Store.getOrCreate "s1" (Store.emptyWorld Scenario.halves 0)))) as Hs
    by apply StoreFacts.getOrCreate_stored.
  assert (Store.motorHeap (snd (Store.getOrCreate "s1" (Store.emptyWorld Scenario.halves 0)))
            !! Store.motors (fst (Store.getOrCreate "s1" (Store.emptyWorld Scenario.halves 0)))
          = Some Scenario.defaultMotors) as Hm.
  { rewrite StoreFacts.getOrCreate_fresh by reflexivity. cbn. apply lookup_insert_eq. }
  split; [split; assumption |].
  destruct (StoreProps.updateMotor_writes_one_joint "s1" "leg_1_coxa"
              {| Store.p_torque_limit := None; Store.p_pid_p := Some (Some 2);
                 Store.p_pid_i := None; Store.p_pid_d := None;
                 Store.p_max_velocity := None |} _ _ _ Hs Hm) as (Hj & Hw & _).
  split; assumption.
Defined.

(** Witness: an unknown session of a process that has just started. *)
Lemma get_does_not_create_witness :
  Store.sessions (Store.emptyWorld Scenario.halves 0) !! "s1"%string = None /\
  Store.get "s1" (Store.emptyWorld Scenario.halves 0)
  = (None, Store.emptyWorld Scenario.halves 0).
Proof.
  assert (Store.sessions (Store.emptyWorld Scenario.halves 0) !! "s1"%string = None) as Hn
    by reflexivity.
  split; [exact Hn |].
  exact (proj1 (StoreProps.get_does_not_create "s1" "r" _ Hn)).
Defined.

(** Witness: a cleanup exactly thirty minutes after the access. *)
Lemma accessed_session_survives_cleanup_witness :
  Store.SESSION_TTL_MS <= Store.SESSION_TTL_MS /\
  Store.sessions
    (snd (Store.cleanup
            (snd (Store.sleep Store.SESSION_TTL_MS
                    (snd (Store.getOrCreate "s1" (Store.emptyWorld Scenario.halves 0)))))))
    !! "s1"%string
  = Some (fst (Store.getOrCreate "s1" (Store.emptyWorld Scenario.halves 0))).
Proof.
  assert (Store.SESSION_TTL_MS <= Store.SESSION_TTL_MS) as Hle by apply Qle_refl.
  split; [exact Hle |].
  exact (StoreProps.accessed_session_survives_cleanup "s1" Store.SESSION_TTL_MS
           (Store.emptyWorld Scenario.halves 0) Hle).
Defined.

(** ** The ground generator keeps the attitude within its limits *)

Section GroundLimits.
Context `{JsRuntime}.

Import Types.

Lemma contactStep_length physics terrainParams gaitPhase contacts leg g :
  length (fst (Telemetry.contactStep physics terrainParams gaitPhase contacts leg g))
  = S (length contacts).
Proof.
  unfold Telemetry.contactStep, bind, ret.
  destruct (ltb _ Math_PI); run_binds; rewrite length_app; cbn; lia.
Qed.

Lemma contactLoop_length physics terrainParams gaitPhase legs contacts g :
  length (fst (foldM (Telemetry.contactStep physics terrainParams gaitPhase) legs contacts g))
  = (length contacts + length legs)%nat.
Proof.
  revert contacts g. induction legs as [| leg legs IH]; intros contacts g.
  - cbn. lia.
  - rewrite foldM_cons, IH, contactStep_length. cbn. lia.
Qed.

Lemma frameStep_limits physics motors terrainParams dt st i g :
  35 <= Telemetry.g_temperature st ->
  let st' := fst (Telemetry.frameStep physics motors terrainParams dt st i g) in
  35 <= Telemetry.g_temperature st' /\
  exists frame,
    Telemetry.g_frames st' = Telemetry.g_frames st ++ [frame] /\ frame_within_limits frame.
Proof.
  intros Htemp. unfold Telemetry.frameStep. cbv zeta. run_binds.
  match goal with
  | Hc : foldM (Telemetry.contactStep ?p ?tp ?ph) ?l ?c ?g0 = (_, _) |- _ =>
      pose proof (contactLoop_length p tp ph l c g0) as Hcontacts;
      rewrite Hc in Hcontacts; cbn [fst length seq Nat.add] in Hcontacts
  end.
  cbn [Telemetry.g_temperature Telemetry.g_frames].
  match goal with
  | |- context [Math_min 55 ?x] =>
      assert (35 <= Math_min 55 x /\ Math_min 55 x <= 55) as [Hlo Hhi]
  end.
  { split.
    - apply Math_min_glb; [discriminate |].
      match goal with |- context [Math_abs ?n] => pose proof (Math_abs_nonneg n) end. lra.
    - unfold Math_min. destruct (ltb _ 55) eqn:E; [apply ltb_lt in E; lra | lra]. }
  split; [exact Hlo |]. eexists. split; [reflexivity |].
  unfold frame_within_limits. cbn [imu power contacts pitch roll temperature].
  split; [| split; [| split; [| exact Hcontacts]]].
  - apply (toFixed_num_between 2 _ (-30) 30); apply clamp_bounds; discriminate.
  - apply (toFixed_num_between 2 _ (-20) 20); apply clamp_bounds; discriminate.
  - apply (toFixed_num_between 1 _ 35 55); assumption.
Qed.

Lemma frameLoop_limits physics motors terrainParams dt l st g :
  35 <= Telemetry.g_temperature st ->
  Forall frame_within_limits (Telemetry.g_frames st) ->
  Forall frame_within_limits
    (Telemetry.g_frames (fst (foldM (Telemetry.frameStep physics motors terrainParams dt) l st g))).
Proof.
  revert st g. induction l as [| i l IH]; intros st g Htemp Hall; [exact Hall |].
  rewrite foldM_cons.
  destruct (frameStep_limits physics motors terrainParams dt st i g Htemp)
    as (Htemp' & frame & Hframes & Hok).
  apply IH; [exact Htemp' |]. rewrite Hframes. apply Forall_app. split; [exact Hall |].
  now constructor.
Qed.

Lemma generateTelemetryStream_limits d physics motors r g :
  Forall frame_within_limits (fst (Telemetry.generateTelemetryStream d physics motors r g)).
Proof.
  unfold Telemetry.generateTelemetryStream, bind, ret.
  destruct (foldM Telemetry.initJoint _ _ g) as [js g1].
  match goal with
  | |- context [foldM ?f ?l ?st ?g] =>
      pose proof (frameLoop_limits physics motors
                    (Telemetry.getTerrainParams (terrain_type physics)) (Number_div 1 r) l st g) as Hl;
      destruct (foldM f l st g) as [st' g']
  end.
  cbn [fst] in *. apply Hl; [discriminate | constructor].
Qed.


(** *** No measured rollover on generated telemetry *)

Lemma rolloverEvent_within_limits frame :
  frame_within_limits frame -> Failures.rolloverEvent frame = [].
Proof.
  intros ((Hp1 & Hp2) & (Hr1 & Hr2) & _). unfold Failures.rolloverEvent.
  assert (gtb (Math_abs (pitch (imu frame))) 30 = false) as ->
    by (apply gtb_le, Math_abs_le; assumption).
  assert (gtb (Math_abs (roll (imu frame))) 25 = false) as ->
    by (apply gtb_le, Math_abs_le; lra).
  reflexivity.
Qed.

(** Whatever the sampler injects comes from the catalog. *)
Lemma shouldInjectFailure_scenario physics progress events g f :
  fst (Failures.shouldInjectFailure physics progress events g) = Some f ->
  exists t p, f = Failures.scenario t p.
Proof.
  unfold Failures.shouldInjectFailure.
  destruct (0 <? _)%nat; [discriminate |].
  destruct (3 <=? _)%nat; [discriminate |].
  unfold bind, ret, Math_random. cbn [fst snd].
  destruct (gtb _ Failures.BASE_FAILURE_RATE); [discriminate |].
  cbn [fst snd].
  destruct (Failures.pick _ _ _) as [[t w] |]; [| discriminate].
  intros [= <-]. eauto.
Qed.

Lemma sampleStep_only_injected frames physics i events g :
  Forall frame_within_limits frames ->
  Forall only_injected_rollover events ->
  Forall only_injected_rollover (fst (Failures.sampleStep frames physics i events g)).
Proof.
  intros Hframes Hev. unfold Failures.sampleStep.
  destruct (frames !! i) as [frame |] eqn:Hi; [| exact Hev].
  assert (frame_within_limits frame) as Hok.
  { eapply Forall_lookup_1; eassumption. }
  cbv zeta. rewrite (rolloverEvent_within_limits frame Hok), app_nil_r.
  match goal with
  | |- context [Failures.shouldInjectFailure ?p ?pr ?evs] =>
      assert (Forall only_injected_rollover evs) as Hevs
  end.
  { repeat apply Forall_app_2; try assumption.
    - unfold Failures.slipEvent.
      destruct (List.find _ _); [apply Forall_singleton | apply Forall_nil_2].
      intros Hc. discriminate Hc.
    - unfold Failures.stabilityEvent.
      destruct (gtb _ 20); [apply Forall_singleton | apply Forall_nil_2].
      intros Hc. cbn in Hc. destruct (gtb _ 25); discriminate Hc.
    - unfold Failures.overheatEvent.
      destruct (gtb _ 50); [apply Forall_singleton | apply Forall_nil_2].
      intros Hc. discriminate Hc. }
  unfold bind, ret.
  match goal with
  | |- context [Failures.shouldInjectFailure ?p ?pr ?evs ?g] =>
      pose proof (shouldInjectFailure_scenario p pr evs g) as Hs;
      destruct (Failures.shouldInjectFailure p pr evs g) as [[f |] g']
  end; cbn [fst] in *; [| exact Hevs].
  apply Forall_app_2; [exact Hevs |]. apply Forall_singleton.
  destruct (Hs f eq_refl) as (t & p & ->).
  unfold only_injected_rollover, Failures.injectedEvent.
  destruct t; cbn; intros Hc; first [discriminate Hc | auto].
Qed.

Lemma collectEvents_only_injected fuel frames physics g all :
  Forall frame_within_limits frames ->
  fst (Failures.collectEvents fuel frames physics g) = Some all ->
  Forall only_injected_rollover all.
Proof.
  intros Hframes Hall. unfold Failures.collectEvents in Hall.
  eapply (forFrom_preserves
            (fun a b => Forall only_injected_rollover a -> Forall only_injected_rollover b));
    [auto | auto | | exact Hall | constructor].
  intros j a g0. now apply sampleStep_only_injected.
Qed.

(** The events generated for the telemetry of [generateTelemetryStream]
    never hold the rollover that [generateSimulationEvents] reports from a
    measured attitude: the pitch and the roll of generated frames stay
    within the clamps, below the thresholds.  Every critical event of such
    a run is the rollover scenario injected at random. *)
Theorem generated_run_fails_only_by_injection d physics motors r g fuel physics' g' events :
  fst (Failures.generateSimulationEvents fuel
         (fst (Telemetry.generateTelemetryStream d physics motors r g)) physics' g')
  = Some events ->
  Forall (fun e =>
            Failures.ev_severity e = critical ->
            Failures.ev_type e = "rollover"%string /\
            Failures.ev_message e
            = "Body orientation exceeded safe limits - rollover imminent"%string)
         events.
Proof.
  rewrite generateSimulationEvents_take.
  destruct (fst (Failures.collectEvents fuel _ physics' g')) as [all |] eqn:Hall;
    [| discriminate].
  intros [= <-]. apply Forall_take.
  eapply collectEvents_only_injected; [| exact Hall]. apply generateTelemetryStream_limits.
Qed.

End GroundLimits.

(** Witness: one second of telemetry at 50 Hz, fifty frames. *)
Lemma generated_run_fails_only_by_injection_witness :
  exists events,
    fst (Failures.generateSimulationEvents (H := RefRuntime.runtime) 50
           (fst (Telemetry.generateTelemetryStream (H := RefRuntime.runtime)
                   1 Types.DEFAULT_PHYSICS ∅ 50 Scenario.halves))
           Types.DEFAULT_PHYSICS Scenario.halves)
    = Some events /\
    Forall (fun e =>
              Failures.ev_severity e = Types.critical ->
              Failures.ev_type e = "rollover"%string /\
              Failures.ev_message e
              = "Body orientation exceeded safe limits - rollover imminent"%string)
           events.
Proof.
  destruct (generateSimulationEvents_returns (H := RefRuntime.runtime) 50
              (fst (Telemetry.generateTelemetryStream (H := RefRuntime.runtime)
                      1 Types.DEFAULT_PHYSICS ∅ 50 Scenario.halves))
              Types.DEFAULT_PHYSICS Scenario.halves) as (events & Hev & _).
  - right. rewrite generateTelemetryStream_length. vm_compute. lia.
  - rewrite generateTelemetryStream_length. vm_compute. lia.
  - exists events. split; [exact Hev |].
    exact (generated_run_fails_only_by_injection (H := RefRuntime.runtime)
             1 Types.DEFAULT_PHYSICS ∅ 50 Scenario.halves 50 Types.DEFAULT_PHYSICS
             Scenario.halves events Hev).
Defined.

(** ** The metrics stay within their scales *)

Section Scores.

(** *** The ground robot *)

Import Types.

Lemma contactStep_nonneg a contact : acc_nonneg a -> acc_nonneg (Analysis.contactStep a contact).
Proof.
  intros (Hp & Hr & Hs). unfold acc_nonneg, Analysis.contactStep. cbn.
  repeat split; try assumption. destruct (slip_detected contact); lra.
Qed.

Lemma contactLoop_nonneg contacts a :
  acc_nonneg a -> acc_nonneg (fold_left Analysis.contactStep contacts a).
Proof.
  revert a. induction contacts as [| c contacts IH]; intros a Ha; [exact Ha |].
  cbn [fold_left]. apply IH. now apply contactStep_nonneg.
Qed.

Lemma frameStep_nonneg a frame : acc_nonneg a -> acc_nonneg (Analysis.frameStep a frame).
Proof.
  intros (Hp & Hr & Hs). unfold Analysis.frameStep. cbv zeta.
  match goal with
  | |- context [fold_left Analysis.contactStep ?cs ?a1] =>
      pose proof (contactLoop_nonneg cs a1) as Hc
  end.
  destruct Hc as (Hp' & Hr' & Hs').
  { unfold acc_nonneg. cbn. repeat split; try assumption.
    - eapply Qle_trans; [exact Hp | apply Math_max_ge_l].
    - eapply Qle_trans; [exact Hr | apply Math_max_ge_l]. }
  unfold acc_nonneg. cbn. auto.
Qed.

Lemma frameLoop_nonneg frames a :
  acc_nonneg a -> acc_nonneg (fold_left Analysis.frameStep frames a).
Proof.
  revert a. induction frames as [| f frames IH]; intros a Ha; [exact Ha |].
  cbn [fold_left]. apply IH. now apply frameStep_nonneg.
Qed.

(** For every list of frames [analyzeTelemetry] returns a stability score
    within [0, 100], an efficiency score within [0, 100] when it is a
    number, a gait symmetry within [0, 1], and a slip count and maximal
    deviations that are not negative. *)
Theorem analyzeTelemetry_scores_in_range (frames : list TelemetryFrame) :
  let m := Analysis.analyzeTelemetry frames in
  (0 <= stability_score m /\ stability_score m <= 100) /\
  (forall e, efficiency_score m = Some e -> 0 <= e /\ e <= 100) /\
  (0 <= gait_symmetry m /\ gait_symmetry m <= 1) /\
  0 <= slip_events m /\ 0 <= max_pitch_deviation m /\ 0 <= max_roll_deviation m.
Proof.
  unfold Analysis.analyzeTelemetry.
  destruct (length frames =? 0)%nat eqn:Hlen.
  - cbn. split; [split; discriminate |].
    split; [intros e [= <-]; split; discriminate |]. repeat split; discriminate.
  - apply Nat.eqb_neq in Hlen. pose proof (ofNat_pos _ Hlen) as Hn. cbv zeta.
    match goal with
    | |- context [fold_left Analysis.frameStep frames ?a0] =>
        destruct (frameLoop_nonneg frames a0) as (Hp & Hr & Hs);
        [unfold acc_nonneg; cbn; repeat split; discriminate |];
        set (a := fold_left Analysis.frameStep frames a0) in *
    end.
    cbn [stability_score efficiency_score gait_symmetry slip_events
         max_pitch_deviation max_roll_deviation].
    split; [| split; [| split; [| split; [| split]]]].
    + split; [apply Math_max_ge_l |].
      apply Math_max_lub; [discriminate |]. apply (Math_round_le_Z _ 100).
      pose proof (Qdiv_nonneg _ _ Hs Hn).
      assert (Analysis.maxPitch a / 30 * 30 == Analysis.maxPitch a) as -> by (field).
      assert (Analysis.maxRoll a / 20 * 20 == Analysis.maxRoll a) as -> by (field).
      change (inject_Z 100) with 100. lra.
    + intros e. destruct (_ - _)%num as [raw |]; cbn; [| discriminate].
      intros [= <-]. split; [apply Math_max_ge_l |].
      apply Math_max_lub; [discriminate | apply Math_min_le_l].
    + apply (toFixed_num_between 2 _ 0 1); [apply Math_max_ge_l |].
      apply Math_max_lub; [discriminate |].
      assert (0 <= Math_abs (Analysis.leftLegPhaseSum a - Analysis.rightLegPhaseSum a)
                   / ofNat (length frames))
        by (apply Qdiv_nonneg; [apply Math_abs_nonneg | exact Hn]).
      change (inject_Z 1) with 1. lra.
    + exact Hs.
    + pose proof (toFixed_num_mono 1 0 _ Hp) as Hm.
      rewrite (toFixed_num_Z 1 0) in Hm. exact Hm.
    + pose proof (toFixed_num_mono 1 0 _ Hr) as Hm.
      rewrite (toFixed_num_Z 1 0) in Hm. exact Hm.
Qed.

(** *** The quadcopter *)

Import Drone.

Lemma metricStep_ok k a frame : dacc_ok k a -> dacc_ok (k + 1) (metricStep a frame).
Proof.
  intros ((Hw0 & Hw1) & Hd & He). unfold dacc_ok, metricStep. cbn.
  split; [| split].
  - destruct (ltb _ 0.5); lra.
  - eapply Qle_trans; [exact Hd | apply Math_max_ge_l].
  - destruct (_ || _)%bool; lra.
Qed.

Lemma metricLoop_ok frames k a :
  dacc_ok k a -> dacc_ok (k + ofNat (length frames)) (fold_left metricStep frames a).
Proof.
  revert k a. induction frames as [| f frames IH]; intros k a Ha.
  - cbn [fold_left length]. destruct Ha as ((? & ?) & ? & ?).
    unfold dacc_ok. change (ofNat 0) with 0. repeat split; try assumption; lra.
  - cbn [fold_left length]. specialize (IH (k + 1) _ (metricStep_ok k a f Ha)).
    destruct IH as ((? & Hle) & ? & ?). unfold dacc_ok. repeat split; try assumption.
    rewrite ofNat_S. lra.
Qed.

(** For every list of frames [analyzeDroneTelemetry] returns a hover
    accuracy, an altitude stability and a battery efficiency within
    [0, 100], and between 0 and 10 wind compensation events. *)
Theorem analyzeDroneTelemetry_scores_in_range (frames : list DroneTelemetryFrame) :
  let m := analyzeDroneTelemetry frames in
  (0 <= hover_accuracy m /\ hover_accuracy m <= 100) /\
  (0 <= altitude_stability m /\ altitude_stability m <= 100) /\
  (0 <= battery_efficiency m /\ battery_efficiency m <= 100) /\
  (0 <= wind_compensation_events m /\ wind_compensation_events m <= 10) /\
  0 <= max_altitude_deviation m.
Proof.
  unfold analyzeDroneTelemetry.
  destruct (length frames =? 0)%nat eqn:Hlen; [cbn; repeat split; discriminate |].
  apply Nat.eqb_neq in Hlen. pose proof (ofNat_pos _ Hlen) as Hn.
  destruct (head frames) as [first |]; [| cbn; repeat split; discriminate].
  destruct (last frames) as [final |]; [| cbn; repeat split; discriminate].
  cbv zeta.
  match goal with
  | |- context [fold_left metricStep frames ?a0] =>
      destruct (metricLoop_ok frames 0 a0) as ((Hw0 & Hw1) & Hd & He);
      [unfold dacc_ok; cbn; repeat split; discriminate |];
      set (a := fold_left metricStep frames a0) in *
  end.
  cbn [hover_accuracy altitude_stability battery_efficiency wind_compensation_events
       max_altitude_deviation].
  split; [| split; [| split; [| split]]].
  - split.
    + apply Math_round_nonneg. pose proof (Qdiv_nonneg _ _ Hw0 Hn). lra.
    + apply (Math_round_le_Z _ 100).
      assert (withinThreshold a / ofNat (length frames) <= 1).
      { apply Qle_shift_div_r; [exact Hn | lra]. }
      change (inject_Z 100) with 100. lra.
  - split.
    + apply Math_round_nonneg. apply Math_max_ge_l.
    + apply (Math_round_le_Z _ 100). apply Math_max_lub; [discriminate |].
      change (inject_Z 100) with 100. lra.
  - split.
    + apply Math_round_nonneg. apply Math_min_glb; [discriminate |].
      match goal with |- context [Math_max ?x 0.1] =>
        pose proof (Math_max_ge_r x 0.1) as Hmax end.
      assert (0 <= ofNat (length frames) / 50 * 0.1) as Hth.
      { pose proof (Qdiv_nonneg (ofNat (length frames)) 50). lra. }
      match goal with |- 0 <= ?t / ?m * 100 =>
        pose proof (Qdiv_nonneg t m Hth) as Hq end.
      lapply Hq; [lra | lra].
    + apply (Math_round_le_Z _ 100). apply Math_min_le_l.
  - split.
    + apply Math_min_glb; [exact He | discriminate].
    + apply Math_min_le_r.
  - pose proof (toFixed_num_mono 2 0 _ Hd) as Hm.
    rewrite (toFixed_num_Z 2 0) in Hm. exact Hm.
Qed.

End Scores.

(** ** The frames of the aerial generator *)

Section DroneFrames.
Context `{JsRuntime}.

Import Drone.

Lemma frameStep_frame d physics airspaceParams dt st i g :
  exists frame,
    g_frames (fst (frameStep d physics airspaceParams dt st i g)) = g_frames st ++ [frame] /\
    drone_frame_ok i dt frame.
Proof.
  unfold frameStep. cbv zeta.
  match goal with
  | |- context [bind ?m _] =>
      let T := type of m in unify T (Rand Motion); set (motion := m)
  end.
  clearbody motion. unfold bind, ret. destruct (motion g) as [mo g0].
  destruct (Math_random g0) as [u g1].
  match goal with |- context [if ?b then _ else _] => destruct b end; run_binds;
    cbn [g_frames];
    eexists; (split; [reflexivity |]);
    unfold drone_frame_ok;
    cbn [timestamp attitude gps_quality pitch roll];
    (split; [reflexivity |]);
    (split; [apply (toFixed_num_between 1 _ (-30) 30); apply clamp_bounds; discriminate |]);
    (split; [apply (toFixed_num_between 1 _ (-30) 30); apply clamp_bounds; discriminate |]);
    apply (Math_round_between _ 0 100); apply clamp_bounds; discriminate.
Qed.

Lemma frameLoop_frames d physics airspaceParams dt l st g :
  exists frames,
    g_frames (fst (foldM (frameStep d physics airspaceParams dt) l st g))
    = g_frames st ++ frames /\
    Forall2 (fun i frame => drone_frame_ok i dt frame) l frames.
Proof.
  revert st g. induction l as [| i l IH]; intros st g.
  - exists []. cbn. rewrite app_nil_r. split; [reflexivity | constructor].
  - rewrite foldM_cons.
    destruct (frameStep_frame d physics airspaceParams dt st i g) as (frame & Hframes & Hok).
    destruct (IH (fst (frameStep d physics airspaceParams dt st i g))
                 (snd (frameStep d physics airspaceParams dt st i g)))
      as (frames & -> & Hall).
    exists (frame :: frames). rewrite Hframes, <- app_assoc. split; [reflexivity |].
    now constructor.
Qed.

Lemma generateDroneTelemetryStream_frames d physics r g :
  Forall2 (fun i frame => drone_frame_ok i (Number_div 1 r) frame)
          (seq 0 (Telemetry.totalSamples d r))
          (fst (generateDroneTelemetryStream d physics r g)).
Proof.
  unfold generateDroneTelemetryStream, bind, ret.
  match goal with
  | |- context [foldM ?f ?l ?st ?g] =>
      destruct (frameLoop_frames d physics (getAirspaceParams (airspace_condition physics))
                  (Number_div 1 r) l st g) as (frames & Hframes & Hall);
      destruct (foldM f l st g) as [st' g']
  end.
  cbn [fst g_frames initState app] in *. now rewrite Hframes.
Qed.

Lemma generateDroneTelemetryStream_length d physics r g :
  length (fst (generateDroneTelemetryStream d physics r g)) = Telemetry.totalSamples d r.
Proof.
  pose proof (generateDroneTelemetryStream_frames d physics r g) as Hall.
  apply Forall2_length in Hall. now rewrite length_seq in Hall.
Qed.


(** When every draw of the random source lies strictly between 0 and 1
    and the airspace condition is not the name of an inherited member,
    every frame of the aerial generator has a pitch and a roll within
    [-30, 30] and a GPS quality within [0, 100]. *)
Theorem drone_frames_within_limits d physics r g :
  inherited (airspace_condition physics) = false ->
  (forall n, 0 < draws g n /\ draws g n < 1) ->
  Forall (fun frame =>
            (- (30) <= pitch (attitude frame) /\ pitch (attitude frame) <= 30) /\
            (- (30) <= roll (attitude frame) /\ roll (attitude frame) <= 30) /\
            (0 <= gps_quality frame /\ gps_quality frame <= 100))
         (fst (generateDroneTelemetryStream d physics r g)).
Proof.
  intros _ _.
  pose proof (generateDroneTelemetryStream_frames d physics r g) as Hall.
  induction Hall as [| i frame l frames (_ & Hp & Hr & Hg) _ IH]; constructor;
    [| exact IH].
  split; [exact Hp |]. split; [exact Hr | exact Hg].
Qed.

End DroneFrames.

(** Witness: a flight of one second at 2 Hz, every draw at one half. *)
Lemma drone_frames_within_limits_witness :
  inherited (Drone.airspace_condition Store.DEFAULT_DRONE_PHYSICS) = false /\
  (forall n, 0 < draws Scenario.halves n /\ draws Scenario.halves n < 1) /\
  length (fst (Drone.generateDroneTelemetryStream (H := RefRuntime.runtime)
                 1 Store.DEFAULT_DRONE_PHYSICS 2 Scenario.halves)) = 2%nat /\
  Forall (fun frame =>
            (- (30) <= Drone.pitch (Drone.attitude frame) /\
             Drone.pitch (Drone.attitude frame) <= 30) /\
            (- (30) <= Drone.roll (Drone.attitude frame) /\
             Drone.roll (Drone.attitude frame) <= 30) /\
            (0 <= Drone.gps_quality frame /\ Drone.gps_quality frame <= 100))
         (fst (Drone.generateDroneTelemetryStream (H := RefRuntime.runtime)
                 1 Store.DEFAULT_DRONE_PHYSICS 2 Scenario.halves)).
Proof.
  assert (forall n, 0 < draws Scenario.halves n /\ draws Scenario.halves n < 1) as Hg
    by (intros n; split; reflexivity).
  split; [reflexivity |]. split; [exact Hg |].
  split; [apply (generateDroneTelemetryStream_length (H := RefRuntime.runtime)) |].
  exact (drone_frames_within_limits (H := RefRuntime.runtime)
           1 Store.DEFAULT_DRONE_PHYSICS 2 Scenario.halves eq_refl Hg).
Defined.

(** ** The event generators *)

Section SamplingFacts.
Context {A : Type}.

(** Two bodies that agree from the first index on give the same loop. *)
Lemma forFrom_ext_from (body body' : nat -> A -> Rand A) bound step i acc g fuel :
  (forall j a g, (i <= j)%nat -> body j a g = body' j a g) ->
  Loop.forFrom fuel body bound step i acc g = Loop.forFrom fuel body' bound step i acc g.
Proof.
  revert i acc g. induction fuel as [| fuel IH]; intros i acc g Hext; cbn [Loop.forFrom].
  - reflexivity.
  - destruct (i <? bound)%nat; [| reflexivity].
    unfold bind. rewrite (Hext i acc g) by lia. destruct (body' i acc g) as [a1 g1].
    apply IH. intros j a g0 Hj. apply Hext. lia.
Qed.

End SamplingFacts.

Section EventFacts.
Context `{JsRuntime}.

(** Once the run holds a critical event, or three events of severity
    warning or error, [shouldInjectFailure] and [shouldInjectDroneFailure]
    return [null] without drawing a random number. *)
Theorem injection_blocked_by_earlier_events
    (physics : Types.PhysicsConfig) (progress : Q) (events : list Failures.SimulationEvent)
    (g : RNG) (dphysics : Drone.DronePhysicsConfig) (dprogress : Q)
    (devents : list DroneFailures.DroneSimulationEvent) (dg : RNG) :
  (0 < Loop.count Failures.is_critical events)%nat \/
  (3 <= Loop.count Failures.is_warning_or_error events)%nat ->
  (0 < Loop.count DroneFailures.is_critical devents)%nat \/
  (3 <= Loop.count DroneFailures.is_warning_or_error devents)%nat ->
  Failures.shouldInjectFailure physics progress events g = (None, g) /\
  DroneFailures.shouldInjectDroneFailure dphysics dprogress devents dg = (None, dg).
Proof.
  intros Hg Hd. split.
  - unfold Failures.shouldInjectFailure.
    destruct Hg as [Hc | Hw].
    + apply Nat.ltb_lt in Hc. now rewrite Hc.
    + apply Nat.leb_le in Hw. rewrite Hw. now destruct (0 <? _)%nat.
  - unfold DroneFailures.shouldInjectDroneFailure.
    destruct Hd as [Hc | Hw].
    + apply Nat.ltb_lt in Hc. now rewrite Hc.
    + apply Nat.leb_le in Hw. rewrite Hw. now destruct (0 <? _)%nat.
Qed.

(** On no frame at all, or on ten frames and more, both event generators
    return, with at most ten events; one pass of the loop per frame is
    always enough. *)
Theorem event_generators_return_at_most_ten
    (fuel : nat) (frames : list Types.TelemetryFrame) (physics : Types.PhysicsConfig)
    (dframes : list Drone.DroneTelemetryFrame) (dphysics : Drone.DronePhysicsConfig)
    (g : RNG) :
  (length frames = 0 \/ 10 <= length frames)%nat -> (length frames <= fuel)%nat ->
  (length dframes = 0 \/ 10 <= length dframes)%nat -> (length dframes <= fuel)%nat ->
  (exists events,
     fst (Failures.generateSimulationEvents fuel frames physics g) = Some events /\
     (length events <= 10)%nat) /\
  (exists events,
     fst (DroneFailures.generateDroneSimulationEvents fuel dframes dphysics g) = Some events /\
     (length events <= 10)%nat).
Proof.
  intros Hlen Hfuel Hdlen Hdfuel. split.
  - now apply generateSimulationEvents_returns.
  - now apply generateDroneSimulationEvents_returns.
Qed.

Lemma sampleStep_first_frame f0 f0' rest physics j events g :
  (1 <= j)%nat ->
  Failures.sampleStep (f0 :: rest) physics j events g
  = Failures.sampleStep (f0' :: rest) physics j events g.
Proof. intros Hj. destruct j as [| j]; [lia |]. reflexivity. Qed.

Lemma drone_sampleStep_first_frame f0 f0' rest physics j events g :
  (1 <= j)%nat ->
  DroneFailures.sampleStep (f0 :: rest) physics j events g
  = DroneFailures.sampleStep (f0' :: rest) physics j events g.
Proof. intros Hj. destruct j as [| j]; [lia |]. reflexivity. Qed.

(** On ten frames and more the sampling starts at index
    [floor(length / 10)], which is at least 1, and only moves forward: the
    generators return, and what they return and the state they leave the
    random source in do not depend on the first frame. *)
Theorem first_frame_is_never_sampled
    (fuel : nat) (f0 f0' : Types.TelemetryFrame) (rest : list Types.TelemetryFrame)
    (physics : Types.PhysicsConfig) (d0 d0' : Drone.DroneTelemetryFrame)
    (drest : list Drone.DroneTelemetryFrame) (dphysics : Drone.DronePhysicsConfig) (g : RNG) :
  (10 <= length (f0 :: rest) <= fuel)%nat ->
  (10 <= length (d0 :: drest) <= fuel)%nat ->
  (is_Some (fst (Failures.generateSimulationEvents fuel (f0 :: rest) physics g)) /\
   Failures.generateSimulationEvents fuel (f0 :: rest) physics g
   = Failures.generateSimulationEvents fuel (f0' :: rest) physics g) /\
  (is_Some (fst (DroneFailures.generateDroneSimulationEvents fuel (d0 :: drest) dphysics g)) /\
   DroneFailures.generateDroneSimulationEvents fuel (d0 :: drest) dphysics g
   = DroneFailures.generateDroneSimulationEvents fuel (d0' :: drest) dphysics g).
Proof.
  intros [Hlong Hfuel] [Hdlong Hdfuel]. split; split.
  - destruct (generateSimulationEvents_returns fuel (f0 :: rest) physics g)
      as (events & -> & _); [now right | exact Hfuel | eauto].
  - unfold Failures.generateSimulationEvents, Failures.collectEvents, bind.
    cbn [length] in *.
    rewrite (forFrom_ext_from (Failures.sampleStep (f0 :: rest) physics)
               (Failures.sampleStep (f0' :: rest) physics)); [reflexivity |].
    intros j a g0 Hj. apply sampleStep_first_frame.
    pose proof (sample_rate_positive _ Hlong). lia.
  - destruct (generateDroneSimulationEvents_returns fuel (d0 :: drest) dphysics g)
      as (events & -> & _); [now right | exact Hdfuel | eauto].
  - unfold DroneFailures.generateDroneSimulationEvents, DroneFailures.collectEvents, bind.
    cbn [length] in *.
    rewrite (forFrom_ext_from (DroneFailures.sampleStep (d0 :: drest) dphysics)
               (DroneFailures.sampleStep (d0' :: drest) dphysics)); [reflexivity |].
    intros j a g0 Hj. apply drone_sampleStep_first_frame.
    pose proof (sample_rate_positive _ Hdlong). lia.
Qed.

End EventFacts.

Section RecommendationFacts.

(** Every recommendation returned is one that the [switch] adds for an
    event of the list, for the ground robot and for the quadcopter. *)
Theorem recommendations_come_from_events
    (events : list Failures.SimulationEvent) (physics : Types.PhysicsConfig)
    (devents : list DroneFailures.DroneSimulationEvent)
    (dphysics : Drone.DronePhysicsConfig) :
  Forall (fun r => exists e, e ∈ events /\ r ∈ Failures.recommend physics e)
         (Failures.generateRecommendations events physics) /\
  Forall (fun r => exists e, e ∈ devents /\ r ∈ DroneFailures.recommend dphysics e)
         (DroneFailures.generateDroneRecommendations devents dphysics).
Proof.
  split; apply Forall_forall; intros r Hr.
  - unfold Failures.generateRecommendations in Hr.
    apply (subseteq_take 5) in Hr. apply uniq_go_spec in Hr as [_ Hr].
    apply list_elem_of_In, in_flat_map in Hr as (e & He & Hre).
    exists e. split; now apply list_elem_of_In.
  - unfold DroneFailures.generateDroneRecommendations in Hr.
    apply (subseteq_take 5) in Hr. apply uniq_go_spec in Hr as [_ Hr].
    apply list_elem_of_In, in_flat_map in Hr as (e & He & Hre).
    exists e. split; now apply list_elem_of_In.
Qed.

(** The injected failures keep the names of their scenarios as event
    types.  The [switch] of [generateRecommendations] knows [gait_mismatch]
    and [rollover] among them, not the others ([motor_overheat],
    [slip_event], [power_fluctuation], [sensor_noise],
    [joint_limit_exceeded]): an injected failure of these five types gives
    no recommendation. *)
Theorem injected_failures_without_recommendation
    (t : Failures.FailureType) (p : Q) (frame : Types.TelemetryFrame)
    (physics : Types.PhysicsConfig) :
  t <> Failures.gait_mismatch -> t <> Failures.rollover ->
  Failures.generateRecommendations
    [Failures.injectedEvent frame (Failures.scenario t p)] physics = [].
Proof. intros Hg Hr. destruct t; first [reflexivity | congruence]. Qed.

End RecommendationFacts.

(** Witness: a critical event is there. *)
Lemma injection_blocked_by_earlier_events_witness :
  Failures.shouldInjectFailure Types.DEFAULT_PHYSICS (1 # 2)
    [Failures.injectedEvent (Scenario.quiet 0)
       (Failures.scenario Failures.rollover 1)] Scenario.halves
  = (None, Scenario.halves) /\
  DroneFailures.shouldInjectDroneFailure Store.DEFAULT_DRONE_PHYSICS (1 # 2)
    [DroneFailures.injectedEvent (Scenario.grounded 0)
       (DroneFailures.scenario DroneFailures.flyaway 1)] Scenario.halves
  = (None, Scenario.halves).
Proof.
  apply injection_blocked_by_earlier_events; left; cbn; lia.
Defined.

(** Witness: ten frames of each kind. *)
Lemma event_generators_return_at_most_ten_witness :
  (exists events,
     fst (Failures.generateSimulationEvents (H := RefRuntime.runtime) 10
            Scenario.early_rollover Types.DEFAULT_PHYSICS Scenario.halves) = Some events /\
     (length events <= 10)%nat) /\
  (exists events,
     fst (DroneFailures.generateDroneSimulationEvents (H := RefRuntime.runtime) 10
            (replicate 10 (Scenario.grounded 0)) Store.DEFAULT_DRONE_PHYSICS Scenario.halves)
     = Some events /\
     (length events <= 10)%nat).
Proof.
  apply (event_generators_return_at_most_ten (H := RefRuntime.runtime));
    first [right; cbn; lia | cbn; lia].
Defined.

(** Witness: an injected motor overheat. *)
Lemma injected_failures_without_recommendation_witness :
  Failures.generateRecommendations
    [Failures.injectedEvent (Scenario.quiet 0)
       (Failures.scenario Failures.motor_overheat 1)] Types.DEFAULT_PHYSICS = [].
Proof.
  apply injected_failures_without_recommendation;
    discriminate.
Defined.

(** Witness: ten frames of each kind, and the same frames behind another
    first frame. *)
Lemma first_frame_is_never_sampled_witness :
  Failures.generateSimulationEvents (H := RefRuntime.runtime) 10
    (Scenario.quiet 0 :: tail Scenario.early_rollover) Types.DEFAULT_PHYSICS Scenario.halves
  = Failures.generateSimulationEvents (H := RefRuntime.runtime) 10
      (Scenario.tipped 0 :: tail Scenario.early_rollover) Types.DEFAULT_PHYSICS
      Scenario.halves /\
  DroneFailures.generateDroneSimulationEvents (H := RefRuntime.runtime) 10
    (Scenario.grounded 0 :: replicate 9 (Scenario.grounded 20))
    Store.DEFAULT_DRONE_PHYSICS Scenario.halves
  = DroneFailures.generateDroneSimulationEvents (H := RefRuntime.runtime) 10
      (Scenario.grounded 7 :: replicate 9 (Scenario.grounded 20))
      Store.DEFAULT_DRONE_PHYSICS Scenario.halves.
Proof.
  destruct (first_frame_is_never_sampled (H := RefRuntime.runtime) 10
              (Scenario.quiet 0) (Scenario.tipped 0) (tail Scenario.early_rollover)
              Types.DEFAULT_PHYSICS
              (Scenario.grounded 0) (Scenario.grounded 7)
              (replicate 9 (Scenario.grounded 20))
              Store.DEFAULT_DRONE_PHYSICS Scenario.halves)
    as ((_ & Hground) & (_ & Hdrone)); [cbn; lia | cbn; lia |].
  exact (conj Hground Hdrone).
Defined.

(** ** The tools of the service *)

Module ServiceProps.
Import Types Store StoreFacts ServiceFacts StoreProps.

(** [randomDelay] returns a whole number of milliseconds within its
    bounds, for a draw of [[0, 1)] and whole bounds in order. *)
Theorem randomDelay_within_bounds (minMs maxMs : Z) (g : RNG) :
  (minMs <= maxMs)%Z ->
  0 <= draws g (cursor g) -> draws g (cursor g) < 1 ->
  exists ms : Z,
    fst (Service.randomDelay (inject_Z minMs) (inject_Z maxMs) g) == inject_Z ms /\
    (minMs <= ms <= maxMs)%Z.
Proof.
  intros Hmm Hu0 Hu1. unfold Service.randomDelay, bind, ret, Math_random. cbn [fst snd].
  set (u := draws g (cursor g)) in *.
  set (n := inject_Z maxMs - inject_Z minMs + 1).
  assert (1 <= n) as Hn.
  { subst n. apply inject_Z_le in Hmm. lra. }
  exists (Qfloor (u * n) + minMs)%Z. split.
  - unfold Math_floor, ofZ. now rewrite inject_Z_plus.
  - assert (0 <= Qfloor (u * n))%Z as Hlo.
    { change 0%Z with (Qfloor 0). apply Qfloor_resp_le. nra. }
    assert (Qfloor (u * n) < maxMs - minMs + 1)%Z as Hhi.
    { rewrite Zlt_Qlt. eapply Qle_lt_trans; [apply Qfloor_le |].
      unfold Z.sub. rewrite !inject_Z_plus, inject_Z_opp. change (inject_Z 1) with 1.
      subst n. nra. }
    lia.
Qed.

Section WithRuntime.
Context `{JsRuntime}.

Lemma configurePhysics_run (sid : string) (args : Service.ConfigurePhysicsArgs) (w : World) :
  Service.applied_config (fst (Service.configurePhysics sid args w))
  = fst (updatePhysics sid (validated args) (delayed 300 700 w)) /\
  snd (Service.configurePhysics sid args w)
  = snd (updatePhysics sid (validated args) (delayed 300 700 w)) /\
  Service.cfg_status (fst (Service.configurePhysics sid args w))
  = (if (friction_out_of_range args || terrain_unknown args)%bool
     then Service.cfg_partial else Service.cfg_success) /\
  (Service.warnings (fst (Service.configurePhysics sid args w)) = None
   <-> (friction_out_of_range args || terrain_unknown args)%bool = false).
Proof.
  unfold Service.configurePhysics, validated, delayed, bind, ret,
    friction_out_of_range, terrain_unknown.
  rewrite liftRand_run. unfold sleep. world_simpl.
  destruct (Service.a_friction_coefficient args) as [f |];
    [destruct (ltb f 0 || gtb f 1)%bool |];
    (destruct (Service.a_terrain_type args) as [t |];
     [destruct (negb (t =? "")%string && negb (Service.known_terrain t))%bool |]);
    (match goal with
     | |- context [updatePhysics sid ?p ?w0] => destruct (updatePhysics sid p w0) as [p' w']
     end);
    cbn; (repeat split); intros; congruence.
Qed.




(** [configure_physics] leaves what it is not given: of the three
    properties that its arguments can carry, one that is absent keeps the
    value the session had, and a gravity given is stored as it is; the
    terrain roughness, which is not among them, keeps its value. *)
Theorem configurePhysics_keeps_unset_properties (sid : string)
    (args : Service.ConfigurePhysicsArgs) (w : World) (s0 : SessionState)
    (old : PhysicsConfig) :
  sessions w !! sid = Some s0 ->
  physicsHeap w !! physics s0 = Some old ->
  let cfg := Service.applied_config (fst (Service.configurePhysics sid args w)) in
  gravity cfg = match Service.a_gravity args with Some v => v | None => gravity old end /\
  (Service.a_friction_coefficient args = None ->
   friction_coefficient cfg = friction_coefficient old) /\
  (Service.a_terrain_type args = None -> terrain_type cfg = terrain_type old) /\
  terrain_roughness cfg = terrain_roughness old.
Proof.
  intros Hs Hold. cbv zeta. destruct (configurePhysics_run sid args w) as (-> & _).
  rewrite updatePhysics_run. cbv zeta. cbn [fst].
  assert (sessions (delayed 300 700 w) !! sid = Some s0) as Hs'
    by (now rewrite (proj1 (delayed_store 300 700 w))).
  rewrite (getOrCreate_existing _ _ _ Hs'). world_simpl. cbn [touch physics].
  rewrite (proj1 (proj2 (delayed_store 300 700 w))), Hold.
  unfold mergePhysics, validated. cbn.
  split; [reflexivity |]. split; [now intros -> |]. split; [now intros -> | reflexivity].
Qed.

(** Without a joint id, or with an empty one, [update_motor_params] throws
    a recoverable [MISSING_PARAM] error and touches neither the sessions
    nor the objects of the store. *)
Theorem updateMotorParams_requires_joint_id (sid : string) (args : Service.UpdateMotorArgs)
    (w : World) :
  Service.a_joint_id args = None \/ Service.a_joint_id args = Some ""%string ->
  let w' := snd (Service.updateMotorParams sid args w) in
  fst (Service.updateMotorParams sid args w)
  = inl {| Service.code := "MISSING_PARAM"; Service.err_message := "joint_id is required";
           Service.recoverable := true |} /\
  sessions w' = sessions w /\ physicsHeap w' = physicsHeap w /\ motorHeap w' = motorHeap w.
Proof.
  intros Hj. cbv zeta. unfold Service.updateMotorParams, bind, ret.
  rewrite liftRand_run. unfold sleep. world_simpl.
  destruct Hj as [-> | ->]; cbn; auto.
Qed.

(** A drone run is not recorded: [runDroneSimulation] leaves the sessions
    and the objects of the store as they are, however it ends. *)
Theorem runDroneSimulation_leaves_the_store (fuel : nat) (sid : string)
    (args : Service.RunSimulationArgs) (w : World) :
  let w' := snd (Service.runDroneSimulation fuel sid args w) in
  sessions w' = sessions w /\ physicsHeap w' = physicsHeap w /\
  motorHeap w' = motorHeap w /\ nextLoc w' = nextLoc w.
Proof.
  cbv zeta. unfold Service.runDroneSimulation, bind, ret, Date_now.
  rewrite !liftRand_run. unfold sleep. world_simpl. rewrite !liftRand_run. world_simpl.
  match goal with
  | |- context [fst (DroneFailures.generateDroneSimulationEvents fuel ?l ?p ?g)] =>
      destruct (fst (DroneFailures.generateDroneSimulationEvents fuel l p g)) as [evs |]
  end; [| cbn; auto].
  match goal with
  | |- context [Drone.generateDroneTelemetrySummary ?l ?m ?fp] =>
      destruct (Drone.generateDroneTelemetrySummary l m fp) as [summary |]
  end; [| cbn; auto].
  rewrite liftRand_run. cbn. auto.
Qed.

Lemma or_number_given (d x : Q) : 0 < d -> Service.or_number (Some d) x = d.
Proof.
  intros Hd. unfold Service.or_number.
  assert (eqb d 0 = false) as ->; [| reflexivity].
  unfold eqb. destruct (Qeq_bool d 0) eqn:E; [| reflexivity].
  apply Qeq_bool_iff in E. lra.
Qed.

(** [run_simulation] with a positive duration that gives one to nine
    frames at 50 Hz (a tenth of a second, say) never returns, for the
    ground robot and for the drone alike: the sampling loop of the event
    generator does not advance.  The number of frames is the floor of the
    product of the duration and 50 as the runtime computes it. *)
Theorem runSimulation_short_run_never_returns (fuel : nat) (sid : string)
    (args : Service.RunSimulationArgs) (d : Q) (w : World) :
  Service.a_duration_seconds args = Some d ->
  0 < d ->
  (1 <= Qfloor (Number_mul d 50) <= 9)%Z ->
  fst (Service.runSimulation fuel sid args w) = None.
Proof.
  intros Hd Hpos Hn.
  assert (1 <= Telemetry.totalSamples d 50 <= 9)%nat as Hlen
    by (unfold Telemetry.totalSamples; lia).
  unfold Service.runSimulation, bind, ret. destruct (Service.isDrone args).
  - enough (fst (Service.runDroneSimulation fuel sid args w) = None) as E.
    { destruct (Service.runDroneSimulation fuel sid args w) as [r w0]. cbn in E.
      now subst r. }
    unfold Service.runDroneSimulation, bind, ret, Date_now.
    rewrite !liftRand_run. unfold sleep. world_simpl. rewrite !liftRand_run. world_simpl.
    rewrite Hd, (or_number_given d 30 Hpos).
    match goal with
    | |- context [fst (DroneFailures.generateDroneSimulationEvents fuel ?l ?p ?g)] =>
        assert (fst (DroneFailures.generateDroneSimulationEvents fuel l p g) = None) as ->;
        [| reflexivity]
    end.
    rewrite generateDroneSimulationEvents_take. unfold DroneFailures.collectEvents.
    rewrite generateDroneTelemetryStream_length.
    rewrite sample_rate_zero by lia. rewrite forFrom_zero_step by lia. reflexivity.
  - enough (fst (Service.runGroundSimulation fuel sid args w) = None) as E.
    { destruct (Service.runGroundSimulation fuel sid args w) as [r w0]. cbn in E.
      now subst r. }
    unfold Service.runGroundSimulation, bind.
    rewrite !liftRand_run. unfold sleep. world_simpl.
    destruct (getOrCreate sid _) as [s w1].
    unfold Service.generateRunId, bind, Date_now, readPhysics, readMotorMap, ret.
    rewrite !liftRand_run. world_simpl.
    rewrite Hd, (or_number_given d 5 Hpos).
    match goal with
    | |- context [fst (Failures.generateSimulationEvents fuel ?l ?p ?g)] =>
        assert (fst (Failures.generateSimulationEvents fuel l p g) = None) as ->;
        [| reflexivity]
    end.
    rewrite generateSimulationEvents_take. unfold Failures.collectEvents.
    rewrite generateTelemetryStream_length.
    rewrite sample_rate_zero by lia. rewrite forFrom_zero_step by lia. reflexivity.
Qed.

End WithRuntime.
End ServiceProps.

(** Witness: a delay between 200 and 400 ms on a draw of one half. *)
Lemma randomDelay_within_bounds_witness :
  exists ms : Z,
    fst (Service.randomDelay (inject_Z 200) (inject_Z 400) Scenario.halves) == inject_Z ms /\
    (200 <= ms <= 400)%Z.
Proof.
  apply ServiceProps.randomDelay_within_bounds; [lia | discriminate | reflexivity].
Defined.

(** Witness: a session that exists, and a new gravity for it. *)
Lemma configurePhysics_keeps_unset_properties_witness :
  let w := snd (Store.getOrCreate "s1" (Store.emptyWorld Scenario.halves 0)) in
  let cfg :=
    Service.applied_config
      (fst (Service.configurePhysics (H := RefRuntime.runtime) "s1"
              {| Service.a_gravity := Some 1.62; Service.a_friction_coefficient := None;
                 Service.a_terrain_type := None |} w)) in
  Types.gravity cfg = 1.62 /\
  Types.friction_coefficient cfg = Types.friction_coefficient Types.DEFAULT_PHYSICS /\
  Types.terrain_type cfg = Types.terrain_type Types.DEFAULT_PHYSICS /\
  Types.terrain_roughness cfg = Types.terrain_roughness Types.DEFAULT_PHYSICS.
Proof.
  cbv zeta.
  destruct (ServiceProps.configurePhysics_keeps_unset_properties (H := RefRuntime.runtime)
              "s1"
              {| Service.a_gravity := Some 1.62; Service.a_friction_coefficient := None;
                 Service.a_terrain_type := None |}
              (snd (Store.getOrCreate "s1" (Store.emptyWorld Scenario.halves 0)))
              (fst (Store.getOrCreate "s1" (Store.emptyWorld Scenario.halves 0)))
              Types.DEFAULT_PHYSICS) as (Hg & Hf & Ht & Hr).
  - apply StoreFacts.getOrCreate_stored.
  - rewrite StoreFacts.getOrCreate_fresh by reflexivity. cbn. apply lookup_insert_eq.
  - split; [exact Hg |]. split; [now apply Hf |]. split; [now apply Ht | exact Hr].
Defined.

(** Witness: a call without any argument. *)
Lemma updateMotorParams_requires_joint_id_witness :
  fst (Service.updateMotorParams (H := RefRuntime.runtime) "s1"
         {| Service.a_joint_id := None; Service.a_torque_limit := None;
            Service.a_pid_p := Some 2; Service.a_pid_i := None; Service.a_pid_d := None |}
         (Store.emptyWorld Scenario.halves 0))
  = inl {| Service.code := "MISSING_PARAM"; Service.err_message := "joint_id is required";
           Service.recoverable := true |}.
Proof.
  apply (ServiceProps.updateMotorParams_requires_joint_id (H := RefRuntime.runtime)).
  now left.
Defined.

(** Witness: a tenth of a second, five frames. *)
Lemma runSimulation_short_run_never_returns_witness :
  0 < 0.1 /\
  Qfloor (RefRuntime.mul 0.1 50) = 5%Z /\
  fst (Service.runSimulation (H := RefRuntime.runtime) 1000 "s1"
         {| Service.a_duration_seconds := Some 0.1; Service.a_robot_type := None;
            Service.a_wind_speed := None; Service.a_airspace_condition := None |}
         (Store.emptyWorld Scenario.halves 0))
  = None.
Proof.
  split; [reflexivity |]. split; [reflexivity |].
  apply (ServiceProps.runSimulation_short_run_never_returns (H := RefRuntime.runtime)
           1000 "s1"
           {| Service.a_duration_seconds := Some 0.1; Service.a_robot_type := None;
              Service.a_wind_speed := None; Service.a_airspace_condition := None |}
           0.1 (Store.emptyWorld Scenario.halves 0) eq_refl); [reflexivity |].
  change (Qfloor (Number_mul 0.1 50)) with 5%Z. lia.
Defined.

(** ** What a ground run leaves in the store *)

Module RunProps.
Import Types Store StoreFacts ServiceFacts RunFacts StoreProps.

Section WithRuntime.
Context `{JsRuntime}.

(** When [run_simulation] returns for a ground robot, the session holds
    the run as its current run and as the last of at most ten runs.  The
    run has the id, the metrics and the actual duration of the result; its
    requested duration is the argument, or 5 seconds when the argument is
    missing or 0; its telemetry has [Math.floor(duration * 50)] frames,
    the product being the one of the runtime; its metrics are those of its
    telemetry, and it has at most ten events. *)
Theorem ground_run_is_recorded fuel sid args w res w' :
  Service.runSimulation fuel sid args w = (Some (Service.Returns (inl res)), w') ->
  exists s run,
    sessions w' !! sid = Some s /\ current_run s = Some run /\
    last (runs s) = Some run /\ (length (runs s) <= 10)%nat /\
    run_id run = Service.res_run_id res /\
    duration_requested run = Service.or_number (Service.a_duration_seconds args) 5 /\
    length (telemetry run) = Z.to_nat (Qfloor (Number_mul (duration_requested run) 50)) /\
    metrics run = Some (Service.res_metrics res) /\
    Service.res_metrics res = Analysis.analyzeTelemetry (telemetry run) /\
    (length (events run) <= 10)%nat /\
    duration_actual run = Some (Service.res_duration_actual res).
Proof.
  intros Hret. apply runSimulation_ground in Hret. revert Hret.
  unfold Service.runGroundSimulation, delayed, bind.
  rewrite !liftRand_run. unfold sleep at 1. world_simpl.
  match goal with
  | |- context [getOrCreate sid ?W] =>
      pose proof (getOrCreate_stored sid W) as Hstored;
      destruct (getOrCreate sid W) as [s w1]
  end.
  cbn [fst snd] in Hstored |- *.
  unfold Service.generateRunId, bind, Date_now, readPhysics, readMotorMap, ret.
  rewrite !liftRand_run. world_simpl.
  match goal with
  | |- context [fst (Failures.generateSimulationEvents fuel ?l ?p ?g)] =>
      pose proof (generateSimulationEvents_at_most_10 fuel l p g) as Hten;
      destruct (fst (Failures.generateSimulationEvents fuel l p g)) as [evs |] eqn:Eev
  end; [| discriminate].
  specialize (Hten evs eq_refl).
  rewrite !liftRand_run. world_simpl.
  match goal with
  | |- context [addRun sid ?r ?W] =>
      destruct (addRun_stored sid r W) as (s' & Hs' & Hcur & Hlast & Hlen & _);
      destruct (addRun sid r W) as [[] w2]
  end.
  cbn [fst snd] in *. intros Hret.
  pose proof (f_equal snd Hret) as Hw. cbn [fst snd] in Hw. subst w'.
  pose proof (f_equal (fun r => match fst r with Some x => x | None => res end) Hret) as Hres.
  cbv beta iota in Hres. cbn [fst snd] in Hres. subst res. clear Hret.
  eexists. eexists. split; [exact Hs' |]. split; [exact Hcur |].
  split; [exact Hlast |]. split; [exact Hlen |].
  cbn [run_id duration_requested telemetry metrics events duration_actual
       Service.res_run_id Service.res_metrics Service.res_duration_actual].
  split; [reflexivity |]. split; [reflexivity |].
  split; [apply generateTelemetryStream_length |].
  split; [reflexivity |]. split; [reflexivity |]. split; [exact Hten | reflexivity].
Qed.

End WithRuntime.
End RunProps.

(** Witness: a run without arguments in a process that has just started:
    five seconds, 250 frames. *)
Lemma ground_run_is_recorded_witness :
  exists res w' s run,
    Service.runSimulation (H := RefRuntime.runtime) 250 "s1" Scenario.no_args
      (Store.emptyWorld Scenario.halves 0)
    = (Some (Service.Returns (inl res)), w') /\
    Store.sessions w' !! "s1"%string = Some s /\ Store.current_run s = Some run /\
    Store.run_id run = Service.res_run_id res /\
    length (Store.telemetry run) = 250%nat.
Proof.
  destruct (SnapshotFacts.runGroundSimulation_returns (H := RefRuntime.runtime)
              250 "s1" Scenario.no_args (Store.emptyWorld Scenario.halves 0))
    as (res & w' & Hrun); [right; vm_compute; lia | vm_compute; lia |].
  assert (Service.runSimulation (H := RefRuntime.runtime) 250 "s1" Scenario.no_args
            (Store.emptyWorld Scenario.halves 0)
          = (Some (Service.Returns (inl res)), w')) as Hret.
  { unfold Service.runSimulation.
    change (Service.isDrone Scenario.no_args) with false. cbv iota.
    unfold bind, ret. rewrite Hrun. reflexivity. }
  destruct (RunProps.ground_run_is_recorded (H := RefRuntime.runtime) _ _ _ _ _ _ Hret)
    as (s & run & Hs & Hcur & _ & _ & Hid & Hd & Hlen & _).
  exists res, w', s, run. split; [exact Hret |]. split; [exact Hs |].
  split; [exact Hcur |]. split; [exact Hid |].
  rewrite Hlen, Hd. reflexivity.
Defined.

(** ** The analysis of a simulation video *)

Module VideoProps.
Import Types Store StoreFacts ServiceFacts StoreProps.

Lemma randomDelay_draws (lo hi : Q) (g : RNG) :
  draws (snd (Service.randomDelay lo hi g)) = draws g.
Proof. reflexivity. Qed.

Lemma take_at_least_one {A} (k : nat) (l : list A) :
  (1 <= k)%nat -> (1 <= length l)%nat -> (1 <= length (take k l) <= k)%nat.
Proof. intros Hk Hl. rewrite length_take. lia. Qed.

Section WithRuntime.
Context `{JsRuntime}.

(** An annotation is recorded with a confidence of at least 0.85, below
    0.85 plus the spread; the findings pass through. *)
Lemma annotate_spec (frameNum : Q) (annotation : string) (spread : Q)
    (findings : list string) (annotations : list Service.FrameAnnotation) (g : RNG)
    (hi : Q) :
  0 < spread -> 0.85 + spread <= hi -> unit_draws g ->
  Forall (confident 0.85 hi) annotations ->
  let r := Service.annotate frameNum annotation spread findings annotations g in
  draws (snd r) = draws g /\
  Service.notes_findings (fst r) = findings /\
  Forall (confident 0.85 hi) (Service.notes_annotations (fst r)).
Proof.
  intros Hs Hhi Hg Hall. cbv zeta. unfold Service.annotate.
  destruct (String.eqb annotation ""); [cbn; auto |].
  unfold bind, ret, Math_random. cbn. repeat split; auto.
  apply Forall_app_2; [exact Hall |]. apply Forall_singleton.
  destruct (Hg (cursor g)) as [H0 H1]. unfold confident. cbn. split; nra.
Qed.

Lemma droneEventStep_spec (notes : Service.Notes)
    (event : DroneFailures.DroneSimulationEvent) (g : RNG) :
  unit_draws g ->
  Forall (confident 0.85 0.97) (Service.notes_annotations notes) ->
  let r := Service.droneEventStep notes event g in
  draws (snd r) = draws g /\
  Forall (confident 0.85 0.97) (Service.notes_annotations (fst r)).
Proof.
  intros Hg Hall. cbv zeta. unfold Service.droneEventStep.
  repeat match goal with
         | |- context [if String.eqb ?a ?b then _ else _] => destruct (String.eqb a b)
         end;
    match goal with
    | |- context [Service.annotate ?f ?a ?s ?fs ?as_ ?g] =>
        destruct (annotate_spec f a s fs as_ g 0.97) as (Hd & _ & Hc);
          [reflexivity | discriminate | exact Hg | exact Hall | split; [exact Hd | exact Hc]]
    end.
Qed.

Lemma droneEvents_spec (events : list DroneFailures.DroneSimulationEvent)
    (notes : Service.Notes) (g : RNG) :
  unit_draws g ->
  Forall (confident 0.85 0.97) (Service.notes_annotations notes) ->
  let r := foldM Service.droneEventStep events notes g in
  draws (snd r) = draws g /\
  Forall (confident 0.85 0.97) (Service.notes_annotations (fst r)).
Proof.
  revert notes g. induction events as [| e events IH]; intros notes g Hg Hall.
  - cbn. auto.
  - cbv zeta. rewrite foldM_cons.
    destruct (droneEventStep_spec notes e g Hg Hall) as [Hd Hc].
    destruct (IH (fst (Service.droneEventStep notes e g))
                 (snd (Service.droneEventStep notes e g))) as [Hd' Hc'].
    + intros n. rewrite Hd. apply Hg.
    + exact Hc.
    + split; [now rewrite Hd', Hd | exact Hc'].
Qed.

Lemma groundEventStep_spec (notes : Service.Notes) (event : Failures.SimulationEvent)
    (g : RNG) :
  unit_draws g ->
  Forall (confident 0.85 0.95) (Service.notes_annotations notes) ->
  let r := Service.groundEventStep notes event g in
  draws (snd r) = draws g /\
  Forall (confident 0.85 0.95) (Service.notes_annotations (fst r)).
Proof.
  intros Hg Hall. cbv zeta. unfold Service.groundEventStep.
  repeat match goal with
         | |- context [String.eqb ?a ?b] => destruct (String.eqb a b)
         end; cbn [orb];
    match goal with
    | |- context [Service.annotate ?f ?a ?s ?fs ?as_ ?g] =>
        destruct (annotate_spec f a s fs as_ g 0.95) as (Hd & _ & Hc);
          [reflexivity | discriminate | exact Hg | exact Hall | split; [exact Hd | exact Hc]]
    end.
Qed.

Lemma groundEvents_spec (events : list Failures.SimulationEvent)
    (notes : Service.Notes) (g : RNG) :
  unit_draws g ->
  Forall (confident 0.85 0.95) (Service.notes_annotations notes) ->
  let r := foldM Service.groundEventStep events notes g in
  draws (snd r) = draws g /\
  Forall (confident 0.85 0.95) (Service.notes_annotations (fst r)).
Proof.
  revert notes g. induction events as [| e events IH]; intros notes g Hg Hall.
  - cbn. auto.
  - cbv zeta. rewrite foldM_cons.
    destruct (groundEventStep_spec notes e g Hg Hall) as [Hd Hc].
    destruct (IH (fst (Service.groundEventStep notes e g))
                 (snd (Service.groundEventStep notes e g))) as [Hd' Hc'].
    + intros n. rewrite Hd. apply Hg.
    + exact Hc.
    + split; [now rewrite Hd', Hd | exact Hc'].
Qed.

(** [get] returns the session with its access time updated, and stores
    it. *)
Lemma get_run (sid : string) (w : World) :
  get sid w
  = match sessions w !! sid with
    | Some s =>
        (Some (touch s (now w)),
         {| sessions := <[sid := touch s (now w)]> (sessions w);
            physicsHeap := physicsHeap w; motorHeap := motorHeap w;
            nextLoc := nextLoc w; rng := rng w; now := now w |})
    | None => (None, w)
    end.
Proof.
  unfold get, bind, getSession, Date_now, putSession, ret.
  destruct (sessions w !! sid); reflexivity.
Qed.

(** The run that [analyzeSimulationVideo] looks up, and the store after
    the lookup and [getOrCreate]. *)
Lemma lookup_of_the_run (sid : string) (runId : option string) (w : World) :
  let m :=
    (run <- match runId with
            | Some runId => getRun sid runId
            | None => _ <- get sid ;; ret None
            end ;;
     run <- match run with
            | Some r => ret (Some r)
            | None => getLatestRun sid
            end ;;
     session <- getOrCreate sid ;;
     ret (run, session)) w in
  fst (fst m) = selected_run sid runId w /\
  sessions (snd m) !! sid = Some (snd (fst m)) /\
  rng (snd m) = rng w.
Proof.
  cbv zeta. unfold selected_run, getRun, getLatestRun, bind, ret.
  destruct (sessions w !! sid) as [s |] eqn:Es.
  - destruct runId as [id |].
    + rewrite get_run, Es.
      cbn [runs touch].
      destruct (List.find _ (runs s)) as [r |].
      * rewrite getOrCreate_existing with (s0 := touch s (now w))
          by (cbn; apply lookup_insert_eq).
        cbn. split; [reflexivity |]. split; [apply lookup_insert_eq | reflexivity].
      * rewrite get_run. cbn [sessions now]. rewrite lookup_insert_eq.
        rewrite getOrCreate_existing with (s0 := touch (touch s (now w)) (now w))
          by (cbn; apply lookup_insert_eq).
        cbn. split; [reflexivity |]. split; [apply lookup_insert_eq | reflexivity].
    + rewrite get_run, Es. rewrite get_run. cbn [sessions now]. rewrite lookup_insert_eq.
      rewrite getOrCreate_existing with (s0 := touch (touch s (now w)) (now w))
        by (cbn; apply lookup_insert_eq).
      cbn. split; [reflexivity |]. split; [apply lookup_insert_eq | reflexivity].
  - pose proof (getOrCreate_stored sid w) as Hst.
    pose proof (getOrCreate_frame sid w) as [Hrng _].
    destruct runId as [id |]; rewrite get_run, Es; rewrite get_run, Es;
      destruct (getOrCreate sid w) as [s w']; cbn in *; auto.
Qed.

(** The analysis of a flight video returns between one and five findings
    and between one and four recommendations, with a confidence of at
    least 0.88 and below 0.96, whatever the events it is given.  The frame
    annotations, when there are any, are between one and five, each with a
    confidence of at least 0.85 and below 0.97; there are none only when
    three findings or more came without one.  The store is not touched. *)
Theorem drone_video_analysis_is_bounded (sid : string) (args : Service.AnalyzeVideoArgs)
    (events : list DroneFailures.DroneSimulationEvent)
    (physics : Drone.DronePhysicsConfig) (w : World) :
  unit_draws (rng w) ->
  let r := fst (Service.analyzeDroneSimulationVideo sid args events physics w) in
  let w' := snd (Service.analyzeDroneSimulationVideo sid args events physics w) in
  (1 <= length (Service.av_findings r) <= 5)%nat /\
  (1 <= length (Service.av_recommendations r) <= 4)%nat /\
  (0.88 <= Service.av_confidence r /\ Service.av_confidence r < 0.96) /\
  match Service.frame_annotations r with
  | Some l => (1 <= length l <= 5)%nat /\ Forall (confident 0.85 0.97) l
  | None => (3 <= length (Service.av_findings r))%nat
  end /\
  sessions w' = sessions w /\ physicsHeap w' = physicsHeap w /\ motorHeap w' = motorHeap w.
Proof.
  intros Hg. cbv zeta. unfold Service.analyzeDroneSimulationVideo, bind, ret.
  rewrite !liftRand_run. unfold sleep. world_simpl. rewrite !liftRand_run. world_simpl.
  match goal with
  | |- context [foldM Service.droneEventStep events ?n ?g] =>
      destruct (droneEvents_spec events n g) as [Hd Hc];
        [intros k; rewrite randomDelay_draws; apply Hg | apply Forall_nil_2 |];
        destruct (foldM Service.droneEventStep events n g) as [notes g'] eqn:Eloop
  end.
  cbn [fst snd] in *.
  assert (0 <= draws g' (cursor g') /\ draws g' (cursor g') < 1) as [Hu0 Hu1]
    by (rewrite Hd, randomDelay_draws; apply Hg).
  set (recs := DroneFailures.generateDroneRecommendations events physics).
  assert (1 <= length
            (let r1 := if (length recs =? 0)%nat
                       then recs ++
                              ["Current flight parameters appear nominal";
                               "Consider testing in higher wind conditions to verify stability margins"]%string
                       else recs in
             if negb (existsb (Str.includes "landing") r1)
             then r1 ++ ["Reduce landing descent rate to < 1.5m/s for smoother touchdown"]%string
             else r1))%nat as Hrecs.
  { cbv zeta. destruct (length recs =? 0)%nat eqn:E0.
    - destruct (negb _); rewrite ?length_app; cbn; lia.
    - apply Nat.eqb_neq in E0. destruct (negb _); rewrite ?length_app; lia. }
  cbv zeta in Hrecs.
  destruct (length (Service.notes_findings notes) <? 3)%nat eqn:E3;
    rewrite liftRand_run; unfold Math_random; cbn -[take Str.includes];
    [apply Nat.ltb_lt in E3 | apply Nat.ltb_ge in E3].
  - split; [apply take_at_least_one; [lia | rewrite length_app; cbn; lia] |].
    split; [apply take_at_least_one; [lia | exact Hrecs] |].
    split; [split; lra |].
    split; [| auto].
    destruct (length (Service.notes_annotations notes ++ _)) eqn:Ea;
      [rewrite length_app in Ea; cbn in Ea; lia |].
    split; [apply take_at_least_one; [lia | rewrite length_app; cbn; lia] |].
    apply Forall_take, Forall_app_2; [exact Hc |]. apply Forall_singleton.
    unfold confident. cbn. split; [discriminate | reflexivity].
  - split; [apply take_at_least_one; lia |].
    split; [apply take_at_least_one; [lia | exact Hrecs] |].
    split; [split; lra |].
    split; [| auto].
    destruct (length (Service.notes_annotations notes)) eqn:Ea.
    + rewrite length_take. lia.
    + split; [apply take_at_least_one; lia | now apply Forall_take].
Qed.

(** The analysis of the video of a ground run looks at the stored run of
    the given id, or else at the current run, or else at the last run of
    the session.  Without any it answers that there is no data, with a
    confidence of one half; with one it answers with a confidence of at
    least 0.88 and below 0.98 and with the video of that run.  Either way
    it returns between one and five findings and between one and three
    recommendations, and the session exists afterwards. *)
Theorem ground_video_analysis_uses_the_stored_run (sid : string)
    (args : Service.AnalyzeVideoArgs) (w : World) :
  Service.isDroneAnalysis args = false ->
  unit_draws (rng w) ->
  let r := fst (Service.analyzeSimulationVideo sid args w) in
  let w' := snd (Service.analyzeSimulationVideo sid args w) in
  is_Some (sessions w' !! sid) /\
  (1 <= length (Service.av_findings r) <= 5)%nat /\
  (1 <= length (Service.av_recommendations r) <= 3)%nat /\
  match selected_run sid (Service.a_run_id args) w with
  | Some run =>
      (0.88 <= Service.av_confidence r /\ Service.av_confidence r < 0.98) /\
      Service.av_video_url r = video_url run
  | None =>
      Service.av_confidence r = 0.5 /\
      Service.av_findings r = ["No telemetry data available for analysis"]%string /\
      Service.av_recommendations r
      = ["Run a simulation first using run_simulation tool"]%string /\
      Service.av_video_url r = None /\ Service.frame_annotations r = None
  end.
Proof.
  intros Hground Hg. cbv zeta.
  destruct (Service.analyzeSimulationVideo sid args w) as [r w'] eqn:Erun.
  cbn [fst snd]. revert Erun.
  unfold Service.analyzeSimulationVideo. rewrite Hground.
  unfold bind at 1 2. rewrite liftRand_run. unfold sleep. world_simpl.
  match goal with
  | |- context [bind _ _ ?w1] =>
      pose proof (lookup_of_the_run sid (Service.a_run_id args) w1) as Hl;
        set (wd := w1) in *
  end.
  assert (selected_run sid (Service.a_run_id args) wd
          = selected_run sid (Service.a_run_id args) w) as Hsel by reflexivity.
  assert (draws (rng wd) = draws (rng w)) as Hdraws by reflexivity.
  clearbody wd. rewrite <- Hsel. clear Hsel.
  cbv zeta in Hl. revert Hl. unfold bind, ret.
  match goal with
  | |- context [let (_, _) := ?m in _] =>
      lazymatch m with _ wd => destruct m as [run0 w2] end
  end.
  do 2 step_run. cbn [fst snd]. intros (Hrun & Hst & Hrng). rewrite <- Hrun.
  match goal with
  | |- context [match ?o with Some _ => _ | None => _ end] =>
      destruct o as [run |]
  end.
  2: { intros [= <- <-]. split; [rewrite Hst; eauto | cbn; repeat split; auto]. }
  rewrite !liftRand_run. unfold readPhysics, Math_random. world_simpl.
  match goal with
  | |- context [foldM Service.groundEventStep ?evs ?n ?g] =>
      destruct (groundEvents_spec evs n g) as [Hd Hc];
        [intros k; rewrite Hrng, Hdraws; apply Hg | apply Forall_nil_2 |];
        destruct (foldM Service.groundEventStep evs n g) as [notes g'] eqn:Eloop
  end.
  cbn [fst snd] in *.
  assert (0 <= draws g' (cursor g') /\ draws g' (cursor g') < 1) as [Hu0 Hu1]
    by (rewrite Hd, Hrng, Hdraws; apply Hg).
  intros [= <- <-]. cbn -[take Failures.generateRecommendations].
  split; [rewrite Hst; eauto |].
  split.
  { apply take_at_least_one; [lia |].
    destruct (length (Service.notes_findings notes) =? 0)%nat eqn:E0;
      [| apply Nat.eqb_neq in E0];
      destruct (Service.a_focus_area args) as [area |];
      try destruct (String.eqb area ""); rewrite ?length_app; cbn; lia. }
  split.
  { apply take_at_least_one; [lia |].
    match goal with
    | |- context [(length ?l =? 0)%nat] =>
        destruct (length l =? 0)%nat eqn:E0;
          [rewrite length_app; cbn; lia | apply Nat.eqb_neq in E0; lia]
    end. }
  split; [split; lra | reflexivity].
Qed.

End WithRuntime.
End VideoProps.

(** Witness: the analysis of a flight without events. *)
Lemma drone_video_analysis_is_bounded_witness :
  let r := fst (Service.analyzeDroneSimulationVideo (H := RefRuntime.runtime) "s1"
                  {| Service.a_run_id := Some "flight_1"; Service.a_focus_area := None;
                     Service.av_robot_type := None |}
                  [] Store.DEFAULT_DRONE_PHYSICS
                  (Store.emptyWorld Scenario.halves 0)) in
  unit_draws Scenario.halves /\
  (1 <= length (Service.av_findings r) <= 5)%nat /\
  (1 <= length (Service.av_recommendations r) <= 4)%nat /\
  (0.88 <= Service.av_confidence r /\ Service.av_confidence r < 0.96).
Proof.
  cbv zeta.
  assert (unit_draws Scenario.halves) as Hg
    by (intros n; split; [discriminate | reflexivity]).
  split; [exact Hg |].
  destruct (VideoProps.drone_video_analysis_is_bounded (H := RefRuntime.runtime) "s1"
              {| Service.a_run_id := Some "flight_1"; Service.a_focus_area := None;
                 Service.av_robot_type := None |}
              [] Store.DEFAULT_DRONE_PHYSICS
              (Store.emptyWorld Scenario.halves 0) Hg) as (Hf & Hr & Hc & _).
  exact (conj Hf (conj Hr Hc)).
Defined.

(** Witness: the analysis of a ground run in a store without sessions. *)
Lemma ground_video_analysis_uses_the_stored_run_witness :
  let args := {| Service.a_run_id := Some "sim_1"; Service.a_focus_area := None;
                 Service.av_robot_type := None |} in
  let r := fst (Service.analyzeSimulationVideo (H := RefRuntime.runtime) "s1" args
                  (Store.emptyWorld Scenario.halves 0)) in
  Service.isDroneAnalysis args = false /\
  unit_draws Scenario.halves /\
  Service.av_confidence r = 0.5 /\
  Service.av_findings r = ["No telemetry data available for analysis"]%string.
Proof.
  cbv zeta.
  assert (unit_draws Scenario.halves) as Hg
    by (intros n; split; [discriminate | reflexivity]).
  split; [reflexivity |]. split; [exact Hg |].
  destruct (VideoProps.ground_video_analysis_uses_the_stored_run (H := RefRuntime.runtime)
              "s1"
              {| Service.a_run_id := Some "sim_1"; Service.a_focus_area := None;
                 Service.av_robot_type := None |}
              (Store.emptyWorld Scenario.halves 0) eq_refl Hg) as (_ & _ & _ & Hsel).
  change (selected_run "s1" (Some "sim_1"%string) (Store.emptyWorld Scenario.halves 0))
    with (@None Store.SimulationRun) in Hsel.
  destruct Hsel as (Hc & Hf & _). exact (conj Hc Hf).
Defined.
